(** * The chat agent's tool-calling conversation loop

    A shallow embedding of the JavaScript sources

    - [services/chatgpt.server.js]  ([streamConversation]),
    - [services/tool.server.js]     ([processProductSearchResult],
      [formatProductData], [handleToolSuccess]),
    - the chat route                ([handleChatSession], its stream handlers
      [onText], [onMessage], [onToolUse], and [getTruncatedHistory]),

    followed by the properties of the event stream, of the working history
    and of the history truncation.

    The file has three layers: the JavaScript runtime ([Module JS]); the
    program itself, parametric in the runtime's JSON codec ([Runtime]), in
    the configuration ([Config]) and in the external collaborators
    ([Collaborators]); and a reference world ([Module Ref]) with scripted
    collaborators ([Module Scenario]) on which the program is run on
    concrete requests. *)

From Stdlib Require Import ZArith String List Ascii DecimalString Bool Lia.
Import ListNotations.

Set Warnings "-register-all".

Local Open Scope string_scope.
Local Open Scope list_scope.

Notation "s ^^ t" := (String.append s t) (at level 60, right associativity).

(* ================================================================== *)
(** * The JavaScript runtime *)
(* ================================================================== *)

Module JS.

(** A JavaScript number as JSON can write one: the finite decimal
    [mantissa * 10 ^ exponent].  The program never computes with a number;
    it tests numbers, compares them with zero and prints them.  NaN, the
    result of a failed conversion, is [None] where it can arise. *)
Record number : Type := { mantissa : Z; exponent : Z }.

Definition number_of_Z (n : Z) : number := {| mantissa := n; exponent := 0 |}.

Definition number_of_nat (n : nat) : number := number_of_Z (Z.of_nat n).

Definition is_zero (n : number) : bool := (mantissa n =? 0)%Z.

Definition is_positive (n : number) : bool := (0 <? mantissa n)%Z.

(** JavaScript values as the program meets them: what [JSON.parse] returns,
    what a tool endpoint or the message store hands back, plus [undefined].
    An array hole is [VUndefined] (the program only iterates, indexes,
    measures and serialises arrays, and a hole behaves as [undefined] under
    each of these). *)
Inductive value : Type :=
| VUndefined
| VNull
| VBool (b : bool)
| VNumber (n : number)
| VString (s : string)
| VArray (items : list value)
| VObject (fields : list (string * value)).

(** The result of evaluating code that may throw. *)
Inductive outcome (A : Type) : Type :=
| Normal (a : A)
| Throw (e : value).
Arguments Normal {A} a.
Arguments Throw {A} e.

Definition TypeError : value := VString "TypeError".
Definition SyntaxError : value := VString "SyntaxError".

Definition obind {A B} (o : outcome A) (k : A -> outcome B) : outcome B :=
  match o with
  | Normal a => k a
  | Throw e => Throw e
  end.

(** [try { o } catch (e) { h e }] *)
Definition try_catch {A} (o : outcome A) (h : value -> outcome A) : outcome A :=
  match o with
  | Normal a => Normal a
  | Throw e => h e
  end.

(** ToBoolean *)
Definition truthy (v : value) : bool :=
  match v with
  | VUndefined | VNull => false
  | VBool b => b
  | VNumber n => negb (is_zero n)
  | VString s => negb (s =? "")
  | VArray _ | VObject _ => true
  end.

(** [a || b] *)
Definition or_else (a b : value) : value := if truthy a then a else b.

Fixpoint lookup (k : string) (fields : list (string * value)) : value :=
  match fields with
  | [] => VUndefined
  | (k', v) :: rest => if k' =? k then v else lookup k rest
  end.

Definition char_at (s : string) (i : nat) : value :=
  match String.get i s with
  | Some c => VString (String c EmptyString)
  | None => VUndefined
  end.

(** Property read [v.k].  Reading a property of [undefined] or [null]
    throws a TypeError; a missing property reads as [undefined].  Only own
    data properties are modelled (and [length] of strings and arrays): none
    of the names the program reads is inherited from a prototype. *)
Definition get (v : value) (k : string) : outcome value :=
  match v with
  | VUndefined | VNull => Throw TypeError
  | VObject fs => Normal (lookup k fs)
  | VArray l =>
      if k =? "length" then Normal (VNumber (number_of_nat (length l)))
      else Normal VUndefined
  | VString s =>
      if k =? "length" then Normal (VNumber (number_of_nat (String.length s)))
      else Normal VUndefined
  | VBool _ | VNumber _ => Normal VUndefined
  end.

(** Indexed read [v[i]]. *)
Definition get_index (v : value) (i : nat) : outcome value :=
  match v with
  | VUndefined | VNull => Throw TypeError
  | VArray l => Normal (nth i l VUndefined)
  | VString s => Normal (char_at s i)
  | VObject fs => Normal (lookup (NilZero.string_of_uint (Nat.to_uint i)) fs)
  | VBool _ | VNumber _ => Normal VUndefined
  end.

(** Optional chaining [v?.k] *)
Definition get_opt (v : value) (k : string) : outcome value :=
  match v with
  | VUndefined | VNull => Normal VUndefined
  | _ => get v k
  end.

Definition Array_isArray (v : value) : bool :=
  match v with
  | VArray _ => true
  | _ => false
  end.

(** [v === 'literal'] *)
Definition is_string (v : value) (lit : string) : bool :=
  match v with
  | VString s => s =? lit
  | _ => false
  end.

Definition typeof (v : value) : string :=
  match v with
  | VUndefined => "undefined"
  | VNull | VArray _ | VObject _ => "object"
  | VBool _ => "boolean"
  | VNumber _ => "number"
  | VString _ => "string"
  end.

Definition Z_to_string (n : Z) : string := NilZero.string_of_int (Z.to_int n).

(** The mantissa without its trailing zeros. *)
Fixpoint strip_zeros (fuel : nat) (m e : Z) : Z * Z :=
  match fuel with
  | 0 => (m, e)
  | S fuel' =>
      if negb (m =? 0)%Z && (m mod 10 =? 0)%Z
      then strip_zeros fuel' (m / 10)%Z (e + 1)%Z
      else (m, e)
  end.

Fixpoint zeros (k : nat) : string :=
  match k with
  | 0 => EmptyString
  | S k' => String "0" (zeros k')
  end.

(** Number::toString, in plain decimal notation (the runtime turns to
    exponent notation from 1e21 up and below 1e-6). *)
Definition number_to_string (n : number) : string :=
  let (m, e) :=
    strip_zeros (Z.to_nat (Z.log2_up (Z.abs (mantissa n))) + 1)
                (mantissa n) (exponent n) in
  if (m =? 0)%Z then "0"
  else
    let sign := if (m <? 0)%Z then "-" else "" in
    let d := Z_to_string (Z.abs m) in
    if (0 <=? e)%Z then sign ^^ d ^^ zeros (Z.to_nat e)
    else
      let k := Z.to_nat (- e) in
      let len := String.length d in
      if (k <? len)%nat
      then sign ^^ substring 0 (len - k) d ^^ "." ^^ substring (len - k) k d
      else sign ^^ "0." ^^ zeros (k - len) ^^ d.

(** ToString, as a template literal or [Array.prototype.join] applies it. *)
Fixpoint to_string (v : value) : string :=
  match v with
  | VUndefined => "undefined"
  | VNull => "null"
  | VBool true => "true"
  | VBool false => "false"
  | VNumber n => number_to_string n
  | VString s => s
  | VArray l =>
      String.concat ","
        (map (fun x => match x with
                       | VUndefined | VNull => ""
                       | _ => to_string x
                       end) l)
  | VObject _ => "[object Object]"
  end.

(** [items.join(sep)]: [undefined] and [null] elements print as the empty
    string. *)
Definition join_item (v : value) : string :=
  match v with
  | VUndefined | VNull => ""
  | _ => to_string v
  end.

Definition join (sep : string) (items : list value) : string :=
  String.concat sep (map join_item items).

Definition is_space (c : ascii) : bool :=
  match nat_of_ascii c with
  | 9 | 10 | 11 | 12 | 13 | 32 => true
  | _ => false
  end.

Fixpoint trim_left (s : string) : string :=
  match s with
  | String c rest => if is_space c then trim_left rest else s
  | EmptyString => EmptyString
  end.

Fixpoint rev_string (s acc : string) : string :=
  match s with
  | EmptyString => acc
  | String c rest => rev_string rest (String c acc)
  end.

Definition trim (s : string) : string :=
  rev_string (trim_left (rev_string (trim_left s) "")) "".

Definition is_digit (c : ascii) : bool :=
  let n := nat_of_ascii c in (48 <=? n)%nat && (n <=? 57)%nat.

(** The digits at the head of a string, and what follows them. *)
Fixpoint digits (s : string) : string * string :=
  match s with
  | String c rest =>
      if is_digit c then let (d, r) := digits rest in (String c d, r)
      else (EmptyString, s)
  | EmptyString => (EmptyString, EmptyString)
  end.

Definition digits_value (d : string) : Z :=
  match NilEmpty.int_of_string d with
  | Some i => Z.of_int i
  | None => 0%Z
  end.

(** The decimal literal [-? digits (. digits)? ((e|E) (+|-)? digits)?] at
    the head of a string, and what follows it. *)
Definition decimal_literal (s : string) : option (number * string) :=
  let (negative, s1) := match s with
                        | String "-" r => (true, r)
                        | _ => (false, s)
                        end in
  let (ip, s2) := digits s1 in
  if ip =? "" then None
  else
    match (match s2 with
           | String "." r =>
               let (fp, s3) := digits r in
               if fp =? "" then None else Some (fp, s3)
           | _ => Some (EmptyString, s2)
           end) with
    | None => None
    | Some (fp, s3) =>
        match (match s3 with
               | String c r =>
                   if Ascii.eqb c "e" || Ascii.eqb c "E" then
                     let (down, r1) := match r with
                                       | String "-" r' => (true, r')
                                       | String "+" r' => (false, r')
                                       | _ => (false, r)
                                       end in
                     let (ep, s4) := digits r1 in
                     if ep =? "" then None
                     else Some (if (down : bool) then (- digits_value ep)%Z
                                else digits_value ep, s4)
                   else Some (0%Z, s3)
               | EmptyString => Some (0%Z, s3)
               end) with
        | None => None
        | Some (ex, s4) =>
            let m := digits_value (ip ^^ fp) in
            Some ({| mantissa := if (negative : bool) then (- m)%Z else m;
                     exponent := (ex - Z.of_nat (String.length fp))%Z |},
                  s4)
        end
    end.

(** ToNumber on a string, for decimal literals (the empty string is zero);
    [None] is NaN. *)
Definition string_to_number (s : string) : option number :=
  let t := trim s in
  if t =? "" then Some (number_of_Z 0)
  else
    match decimal_literal t with
    | Some (n, EmptyString) => Some n
    | _ => None
    end.

(** ToNumber; an array or object goes through its string form. *)
Definition to_number (v : value) : option number :=
  match v with
  | VUndefined => None
  | VNull => Some (number_of_Z 0)
  | VBool b => Some (number_of_Z (if b then 1 else 0))
  | VNumber n => Some n
  | VString s => string_to_number s
  | VArray _ | VObject _ => string_to_number (to_string v)
  end.

(** [v > 0] *)
Definition gt_zero (v : value) : bool :=
  match to_number v with
  | Some n => is_positive n
  | None => false
  end.

(** [xs.slice(0, n)] and [xs.slice(-n)] for a count [n]. *)
Definition slice_to (n : nat) {A} (xs : list A) : list A := firstn n xs.
Definition slice_last (n : nat) {A} (xs : list A) : list A :=
  skipn (length xs - n) xs.

(** Array callbacks that may throw: the first throw aborts the traversal. *)
Fixpoint filter_t {A} (p : A -> outcome bool) (xs : list A) : outcome (list A) :=
  match xs with
  | [] => Normal []
  | x :: rest =>
      obind (p x) (fun b =>
      obind (filter_t p rest) (fun ys =>
      Normal (if b then x :: ys else ys)))
  end.

Fixpoint map_t {A B} (f : A -> outcome B) (xs : list A) : outcome (list B) :=
  match xs with
  | [] => Normal []
  | x :: rest =>
      obind (f x) (fun y =>
      obind (map_t f rest) (fun ys =>
      Normal (y :: ys)))
  end.

(** [xs.find(p)]: the first element satisfying [p], else [undefined]. *)
Fixpoint find_t (p : value -> outcome bool) (xs : list value) : outcome value :=
  match xs with
  | [] => Normal VUndefined
  | x :: rest =>
      obind (p x) (fun b => if b then Normal x else find_t p rest)
  end.

(** [xs.every(p)] and [xs.some(p)] stop at the first deciding element. *)
Fixpoint every_t {A} (p : A -> outcome bool) (xs : list A) : outcome bool :=
  match xs with
  | [] => Normal true
  | x :: rest =>
      obind (p x) (fun b => if b then every_t p rest else Normal false)
  end.

Fixpoint some_t {A} (p : A -> outcome bool) (xs : list A) : outcome bool :=
  match xs with
  | [] => Normal false
  | x :: rest =>
      obind (p x) (fun b => if b then Normal true else some_t p rest)
  end.

(** Calling an array method on [v]: a TypeError unless [v] is an array. *)
Definition as_array (v : value) : outcome (list value) :=
  match v with
  | VArray l => Normal l
  | _ => Throw TypeError
  end.

End JS.
Import JS.

Notation "x <-! o ; k" := (obind o (fun x => k))
  (at level 61, o at next level, right associativity).

Definition newline : string := String (ascii_of_nat 10) EmptyString.

(* ================================================================== *)
(** * Data of the program *)
(* ================================================================== *)

(** One reassembled tool call of [streamConversation]:
    [{ id, type: 'function', function: { name, arguments } }]. *)
Record ToolCall : Type := {
  tc_id : option string;
  tc_name : string;
  tc_arguments : string
}.

(** [assistantMessage]: [{ role: 'assistant', content, tool_calls? }].  The
    [toolCalls] array is filled by index, so it may have holes ([None]). *)
Record AssistantMessage : Type := {
  am_content : string;
  am_tool_calls : option (list (option ToolCall))
}.

(** The entries of the working [conversationHistory]. *)
Inductive Message : Type :=
| Msg (role content : value)
    (* { role, content }: from the truncated history, or the user's turn *)
| Assistant (m : AssistantMessage)
| ToolResult (tool_call_id : option string) (content : option string).
    (* { role: 'tool', tool_call_id, content } *)

Definition role_of (m : Message) : value :=
  match m with
  | Msg r _ => r
  | Assistant _ => VString "assistant"
  | ToolResult _ _ => VString "tool"
  end.

(** What [streamConversation] returns: [{ ...assistantMessage, stop_reason }]. *)
Record Response : Type := {
  rs_message : AssistantMessage;
  rs_stop_reason : string
}.

(** The provider's stream, as the OpenAI client types it. *)
Record FunctionDelta : Type := {
  fd_name : option string;
  fd_arguments : option string
}.

Record ToolCallDelta : Type := {
  tcd_index : nat;
  tcd_id : option string;
  tcd_function : option FunctionDelta
}.

Record Delta : Type := {
  d_content : option string;
  d_tool_calls : option (list ToolCallDelta)
}.

Record Choice : Type := {
  ch_delta : option Delta;
  ch_finish_reason : option string
}.

(** A chunk, seen through [chunk.choices[0]]. *)
Record Chunk : Type := { ck_choice0 : option Choice }.

(** The async iterable returned by [openai.chat.completions.create]: the
    chunks it yields, and the error it raises once they are exhausted, if
    any. *)
Record ProviderStream : Type := {
  ps_chunks : list Chunk;
  ps_failure : option value
}.

(** A tool as the MCP client lists it. *)
Record Tool : Type := {
  tool_name : string;
  tool_description : string;
  tool_input_schema : value
}.

Record CompletionRequest : Type := {
  rq_messages : list Message;
  rq_tools : option (list value)
}.

(** The events written to the caller's stream by [stream.sendMessage]. *)
Inductive StreamEvent : Type :=
| EvId (conversation_id : string)
| EvChunk (chunk : string)
| EvMessageComplete
| EvToolUse (tool_use_message : string)
| EvNewMessage
| EvAuthRequired
| EvEndTurn
| EvProductResults (products : list value).

(** What a run does to the outside, in order: the events it sends and the
    calls it makes to its collaborators. *)
Inductive Obs : Type :=
| Sent (e : StreamEvent)
| Requested (r : CompletionRequest)
| ToolCalled (name : string) (args : value)
| Saved (role : string) (content : option string)
| Loaded
| Connected.

(* ================================================================== *)
(** * Interfaces of the environment *)
(* ================================================================== *)

(** Built-ins of the JavaScript runtime that the program calls. *)
Class Runtime : Type := {
  (** [JSON.parse]; [None] when it throws a SyntaxError *)
  JSON_parse : string -> option value;
  (** [JSON.stringify]; [None] when it returns [undefined] *)
  JSON_stringify : value -> option string;
  (** [Math.random().toString(36).substring(7)], drawn for a product *)
  Math_random_suffix : value -> string
}.

(** Configuration modules that are imported by the sources
    ([config.server], [prompts.json]). *)
Class Config : Type := {
  (** [AppConfig.tools.maxProductsToDisplay], a count; [None] when unset *)
  maxProductsToDisplay : option nat;
  (** the system prompt selected by a prompt type, default included *)
  getSystemPrompt : string -> string
}.

(** The external collaborators, each a transition of the outside world [W]
    that answers or throws: the message store ([db.server]), the completion
    service (the OpenAI client) and the tool endpoints ([mcp-client]). *)
Class Collaborators (W : Type) : Type := {
  saveMessage : string -> string -> option string -> W -> outcome unit * W;
  getConversationHistory : string -> W -> outcome value * W;
  completions_create : CompletionRequest -> W -> outcome ProviderStream * W;
  callTool : string -> value -> W -> outcome value * W;
  connectToStorefrontServer : W -> outcome unit * W;
  connectToCustomerServer : W -> outcome unit * W;
  (** [mcpClient.tools] *)
  mcp_tools : W -> list Tool
}.

(** [JSON.parse(s)] as code that may throw. *)
Definition parse `{Runtime} (s : string) : outcome value :=
  match JSON_parse s with
  | Some v => Normal v
  | None => Throw SyntaxError
  end.

(** [JSON.stringify(v)] as a value. *)
Definition stringify `{Runtime} (v : value) : value :=
  match JSON_stringify v with
  | Some s => VString s
  | None => VUndefined
  end.

Definition of_option_string (o : option string) : value :=
  match o with
  | Some s => VString s
  | None => VUndefined
  end.

Definition ToolCall_value (tc : option ToolCall) : value :=
  match tc with
  | None => VUndefined
  | Some t =>
      VObject [("id", of_option_string (tc_id t));
               ("type", VString "function");
               ("function", VObject [("name", VString (tc_name t));
                                     ("arguments", VString (tc_arguments t))])]
  end.

(* ================================================================== *)
(** * The tool service ([tool.server.js]) *)
(* ================================================================== *)

Section ToolService.
Context `{Runtime} `{Config}.

(** [formatProductData] *)
Definition formatProductData (product : value) : outcome value :=
  price_range <-! get product "price_range";
  price <-! (if truthy price_range then
               currency <-! get price_range "currency";
               min <-! get price_range "min";
               Normal (to_string currency ^^ " " ^^ to_string min)
             else
               variants <-! get product "variants";
               some <-! (if truthy variants then
                           len <-! get variants "length";
                           Normal (gt_zero len)
                         else Normal false);
               if (some : bool) then
                 first <-! get_index variants 0;
                 currency <-! get first "currency";
                 price <-! get first "price";
                 Normal (to_string currency ^^ " " ^^ to_string price)
               else Normal "Price not available");
  product_id <-! get product "product_id";
  title <-! get product "title";
  image_url <-! get product "image_url";
  description <-! get product "description";
  url <-! get product "url";
  Normal (VObject
    [("id", or_else product_id
              (VString ("product-" ^^ Math_random_suffix product)));
     ("title", or_else title (VString "Product"));
     ("price", VString price);
     ("image_url", or_else image_url (VString ""));
     ("description", or_else description (VString ""));
     ("url", or_else url (VString ""))]).

(** [AppConfig.tools.maxProductsToDisplay || 10] *)
Definition product_limit : nat :=
  match maxProductsToDisplay with
  | Some (S n) => S n
  | Some 0 | None => 10
  end.

Definition is_text_item (item : value) : outcome bool :=
  ty <-! get item "type";
  Normal (is_string ty "text").

(** [processProductSearchResult]: the outer [try] returns [[]] on any
    throw; the inner one leaves [products] at its initial [[]]. *)
Definition processProductSearchResult (toolUseResponse : value)
  : outcome (list value) :=
  try_catch
    (c <-! get toolUseResponse "content";
     nonempty <-! (if truthy c then
                     len <-! get c "length";
                     Normal (gt_zero len)
                   else Normal false);
     if (nonempty : bool) then
       items <-! as_array c;
       found <-! find_t is_text_item items;
       content <-! get_opt found "text";
       if truthy content then
         try_catch
           (responseData <-!
              (if typeof content =? "object" then Normal content
               else if typeof content =? "string"
                    then parse (to_string content)
                    else Normal VUndefined);
            products <-! get_opt responseData "products";
            if truthy products && Array_isArray products then
              ps <-! as_array products;
              map_t formatProductData (slice_to product_limit ps)
            else Normal [])
           (fun _ => Normal [])
       else Normal []
     else Normal [])
    (fun _ => Normal []).

(** The block "Format the tool result content properly", written out twice
    in the sources: in [handleToolSuccess] and in the route's [onToolUse]. *)
Definition formatToolResultContent (toolUseResponse : value)
  : outcome (option string) :=
  c <-! get toolUseResponse "content";
  if truthy c && Array_isArray c then
    items <-! as_array c;
    texts <-! filter_t is_text_item items;
    strings <-! map_t (fun item => get item "text") texts;
    Normal (Some (join newline strings))
  else
    Normal (match c with
            | VString s => Some s
            | _ => JSON_stringify c
            end).

End ToolService.

(* ================================================================== *)
(** * Runs: state, exceptions and observations *)
(* ================================================================== *)

(** The variables a chat session closes over, next to the outside world:
    the working [conversationHistory] and [productsToDisplay], both mutated
    by the stream handlers. *)
Record Session (W : Type) : Type := {
  world : W;
  conversationHistory : list Message;
  productsToDisplay : list value
}.
Arguments world {W} _.
Arguments conversationHistory {W} _.
Arguments productsToDisplay {W} _.

(** A run from a session state ends normally or by a throw, in a new
    state, having produced observations.  What was done before a throw
    stays done. *)
Definition M (W A : Type) : Type :=
  Session W -> outcome A * Session W * list Obs.

Section Monad.
Context {W : Type}.

Definition ret {A} (a : A) : M W A := fun st => (Normal a, st, []).

Definition throw {A} (e : value) : M W A := fun st => (Throw e, st, []).

Definition bind {A B} (m : M W A) (k : A -> M W B) : M W B :=
  fun st =>
    match m st with
    | (Normal a, st1, out1) =>
        match k a st1 with
        | (o, st2, out2) => (o, st2, out1 ++ out2)
        end
    | (Throw e, st1, out1) => (Throw e, st1, out1)
    end.

(** [try { m } catch (e) { h e }] *)
Definition catch {A} (m : M W A) (h : value -> M W A) : M W A :=
  fun st =>
    match m st with
    | (Normal a, st1, out1) => (Normal a, st1, out1)
    | (Throw e, st1, out1) =>
        match h e st1 with
        | (o, st2, out2) => (o, st2, out1 ++ out2)
        end
    end.

(** Pure code that may throw. *)
Definition lift {A} (o : outcome A) : M W A := fun st => (o, st, []).

(** A call to a collaborator, observed as [obs]. *)
Definition call {A} (obs : Obs) (op : W -> outcome A * W) : M W A :=
  fun st =>
    match op (world st) with
    | (o, w) =>
        (o, {| world := w;
               conversationHistory := conversationHistory st;
               productsToDisplay := productsToDisplay st |}, [obs])
    end.

(** [stream.sendMessage(e)] *)
Definition sendMessage (e : StreamEvent) : M W unit :=
  fun st => (Normal tt, st, [Sent e]).

Definition read_history : M W (list Message) :=
  fun st => (Normal (conversationHistory st), st, []).

Definition set_history (h : list Message) : M W unit :=
  fun st => (Normal tt, {| world := world st;
                           conversationHistory := h;
                           productsToDisplay := productsToDisplay st |}, []).

(** [conversationHistory.push(m)] *)
Definition push_history (m : Message) : M W unit :=
  fun st => (Normal tt, {| world := world st;
                           conversationHistory := conversationHistory st ++ [m];
                           productsToDisplay := productsToDisplay st |}, []).

Definition read_products : M W (list value) :=
  fun st => (Normal (productsToDisplay st), st, []).

Definition set_products (ps : list value) : M W unit :=
  fun st => (Normal tt, {| world := world st;
                           conversationHistory := conversationHistory st;
                           productsToDisplay := ps |}, []).

(** [productsToDisplay.push(...ps)] *)
Definition push_products (ps : list value) : M W unit :=
  fun st => (Normal tt, {| world := world st;
                           conversationHistory := conversationHistory st;
                           productsToDisplay := productsToDisplay st ++ ps |}, []).

Definition read_world {A} (f : W -> A) : M W A :=
  fun st => (Normal (f (world st)), st, []).

End Monad.

Notation "x <- m ;; k" := (bind m (fun x => k))
  (at level 61, m at next level, right associativity).
Notation "m ;; k" := (bind m (fun _ => k))
  (at level 61, right associativity).

(** The events a run sent to the caller, in order. *)
Fixpoint sent (out : list Obs) : list StreamEvent :=
  match out with
  | [] => []
  | Sent e :: rest => e :: sent rest
  | _ :: rest => sent rest
  end.

(** The completion calls of a run. *)
Fixpoint requests (out : list Obs) : list CompletionRequest :=
  match out with
  | [] => []
  | Requested r :: rest => r :: requests rest
  | _ :: rest => requests rest
  end.

(* ================================================================== *)
(** * The completion adapter ([chatgpt.server.js]) *)
(* ================================================================== *)

(** The [streamHandlers] argument; each handler may be missing. *)
Record StreamHandlers (W : Type) : Type := {
  onText : option (string -> M W unit);
  onMessage : option (AssistantMessage -> M W unit);
  onToolUse : option (option string -> string -> value -> M W unit)
}.
Arguments onText {W} _.
Arguments onMessage {W} _.
Arguments onToolUse {W} _.

Definition nonempty (o : option string) : option string :=
  match o with
  | Some s => if s =? "" then None else Some s
  | None => None
  end.

(** [xs[i] = x] on an array with holes: writing past the end extends the
    array. *)
Definition array_set {A} (xs : list (option A)) (i : nat) (x : A)
  : list (option A) :=
  if (i <? length xs)%nat then firstn i xs ++ Some x :: skipn (S i) xs
  else xs ++ repeat None (i - length xs) ++ [Some x].

(** The body of [for (const toolCall of delta.tool_calls)]. *)
Definition accumulate (toolCalls : list (option ToolCall)) (d : ToolCallDelta)
  : list (option ToolCall) :=
  let entry :=
    match nth (tcd_index d) toolCalls None with
    | Some tc => tc
    | None => {| tc_id := tcd_id d; tc_name := ""; tc_arguments := "" |}
    end in
  let named :=
    match nonempty (match tcd_function d with
                    | Some f => fd_name f
                    | None => None
                    end) with
    | Some n => {| tc_id := tc_id entry; tc_name := n;
                   tc_arguments := tc_arguments entry |}
    | None => entry
    end in
  let filled :=
    match nonempty (match tcd_function d with
                    | Some f => fd_arguments f
                    | None => None
                    end) with
    | Some a => {| tc_id := tc_id named; tc_name := tc_name named;
                   tc_arguments := tc_arguments named ^^ a |}
    | None => named
    end in
  array_set toolCalls (tcd_index d) filled.

(** [formatToolsForOpenAI] *)
Definition formatToolsForOpenAI (mcpTools : list Tool) : list value :=
  map (fun tool =>
         VObject [("type", VString "function");
                  ("function",
                   VObject [("name", VString (tool_name tool));
                            ("description", VString (tool_description tool));
                            ("parameters", tool_input_schema tool)])])
      mcpTools.

Section CompletionAdapter.
Context {W : Type} `{Runtime} `{Config} `{Collaborators W}.

(** [for await (const chunk of stream)], from the text and tool calls
    gathered so far. *)
Fixpoint consume (handlers : StreamHandlers W) (chunks : list Chunk)
    (failure : option value) (content : string)
    (toolCalls : list (option ToolCall))
  : M W (string * list (option ToolCall)) :=
  match chunks with
  | [] =>
      match failure with
      | Some e => throw e
      | None => ret (content, toolCalls)
      end
  | chunk :: rest =>
      let delta := match ck_choice0 chunk with
                   | Some c => ch_delta c
                   | None => None
                   end in
      let text := nonempty (match delta with
                            | Some d => d_content d
                            | None => None
                            end) in
      let content' := match text with
                      | Some t => content ^^ t
                      | None => content
                      end in
      match text, onText handlers with
      | Some t, Some f => f t
      | _, _ => ret tt
      end ;;
      let toolCalls' :=
        match delta with
        | Some {| d_tool_calls := Some ds |} => fold_left accumulate ds toolCalls
        | _ => toolCalls
        end in
      match nonempty (match ck_choice0 chunk with
                      | Some c => ch_finish_reason c
                      | None => None
                      end) with
      | Some _ => ret (content', toolCalls')
      | None => consume handlers rest failure content' toolCalls'
      end
  end.

(** The body of [for (const toolCall of toolCalls)]: a hole, arguments
    that are not JSON, and a throw of the handler all end in the same
    [catch], which logs and goes on. *)
Definition dispatch_one (f : option string -> string -> value -> M W unit)
    (toolCall : option ToolCall) : M W unit :=
  catch
    (tc <- lift (match toolCall with
                 | Some tc => Normal tc
                 | None => Throw TypeError
                 end) ;;
     args <- lift (parse (tc_arguments tc)) ;;
     f (tc_id tc) (tc_name tc) args)
    (fun _ => ret tt).

Fixpoint dispatch (f : option string -> string -> value -> M W unit)
    (toolCalls : list (option ToolCall)) : M W unit :=
  match toolCalls with
  | [] => ret tt
  | toolCall :: rest => dispatch_one f toolCall ;; dispatch f rest
  end.

(** [streamConversation] *)
Definition streamConversation (messages : list Message) (promptType : string)
    (tools : list Tool) (streamHandlers : StreamHandlers W) : M W Response :=
  let systemInstruction := getSystemPrompt promptType in
  let formattedMessages :=
    Msg (VString "system") (VString systemInstruction) :: messages in
  let formattedTools :=
    if (0 <? length tools)%nat then Some (formatToolsForOpenAI tools) else None in
  let request := {| rq_messages := formattedMessages;
                    rq_tools := formattedTools |} in
  stream <- call (Requested request) (completions_create request) ;;
  r <- consume streamHandlers (ps_chunks stream) (ps_failure stream) "" [] ;;
  let toolCalls := snd r in
  let assistantMessage :=
    {| am_content := fst r;
       am_tool_calls := if (0 <? length toolCalls)%nat then Some toolCalls
                        else None |} in
  match onMessage streamHandlers with
  | Some f => f assistantMessage
  | None => ret tt
  end ;;
  match onToolUse streamHandlers with
  | Some f => if (0 <? length toolCalls)%nat then dispatch f toolCalls else ret tt
  | None => ret tt
  end ;;
  ret {| rs_message := assistantMessage;
         rs_stop_reason := if (0 <? length toolCalls)%nat then "tool_use"
                           else "end_turn" |}.

End CompletionAdapter.

(* ================================================================== *)
(** * The tool service's history helpers ([tool.server.js]) *)
(* ================================================================== *)

Section ToolHistory.
Context {W : Type} `{Runtime} `{Config} `{Collaborators W}.

(** The record written to the store for a tool result:
    [JSON.stringify({ tool_call_id, content })]. *)
Definition tool_record (toolUseId : option string) (content : value)
  : option string :=
  JSON_stringify (VObject [("tool_call_id", of_option_string toolUseId);
                           ("content", content)]).

(** [addToolResultToHistory]: it saves the result and, as its closing note
    says, leaves [conversationHistory] alone. *)
Definition addToolResultToHistory (toolUseId : option string)
    (content : value) (conversationId : string) : M W unit :=
  if conversationId =? "" then ret tt
  else
    catch (call (Saved "tool" (tool_record toolUseId content))
             (saveMessage conversationId "tool"
                (tool_record toolUseId content)))
          (fun _ => ret tt).

(** [handleToolError] *)
Definition handleToolError (toolUseResponse : value)
    (toolUseId : option string) (conversationId : string) : M W unit :=
  error <- lift (get toolUseResponse "error") ;;
  ty <- lift (get error "type") ;;
  data <- lift (get error "data") ;;
  if is_string ty "auth_required" then
    addToolResultToHistory toolUseId data conversationId ;;
    sendMessage EvAuthRequired
  else
    addToolResultToHistory toolUseId data conversationId.

(** [handleToolSuccess] *)
Definition handleToolSuccess (toolUseResponse : value) (toolName : string)
    (toolUseId : option string) (conversationId : string) : M W unit :=
  (if toolName =? "search_shop_catalog" then
     ps <- lift (processProductSearchResult toolUseResponse) ;;
     push_products ps
   else ret tt) ;;
  toolResultContent <- lift (formatToolResultContent toolUseResponse) ;;
  addToolResultToHistory toolUseId (of_option_string toolResultContent)
    conversationId.

End ToolHistory.

(* ================================================================== *)
(** * The chat route *)
(* ================================================================== *)

Section ChatRoute.
Context {W : Type} `{Runtime} `{Config} `{Collaborators W}.

(** The callback of [allMessages.filter]. *)
Definition keep_message (msg : value) : outcome bool :=
  role <-! get msg "role";
  if is_string role "system" || is_string role "tool" then Normal false
  else
    skip <-! try_catch
      (raw <-! get msg "content";
       content <-! parse (to_string raw);
       only_tool_calls <-!
         (if is_string role "assistant" && Array_isArray content then
            items <-! as_array content;
            every_t (fun c => ty <-! get c "type";
                              Normal (is_string ty "tool_use")) items
          else Normal false);
       if (only_tool_calls : bool) then Normal true
       else
         if is_string role "user" && Array_isArray content then
           items <-! as_array content;
           some_t (fun c => ty <-! get c "type";
                            Normal (is_string ty "tool_result")) items
         else Normal false)
      (fun _ => Normal false);
    if (skip : bool) then Normal false
    else Normal (is_string role "user" || is_string role "assistant").

(** The callback of [lastMessages.map].  ([msg] has passed the filter, so
    reading [msg.content] cannot throw, inside the [try] or outside.) *)
Definition format_message (msg : value) : outcome Message :=
  role <-! get msg "role";
  raw <-! get msg "content";
  try_catch
    (content <-! parse (to_string raw);
     if is_string role "assistant" && (typeof content =? "string") then
       Normal (Msg role content)
     else if typeof content =? "string" then Normal (Msg role content)
     else Normal (Msg role (stringify content)))
    (fun _ => Normal (Msg role raw)).

(** What [getTruncatedHistory] does with the stored messages once it has
    read them: filter, keep the last four, format. *)
Definition truncate_history (allMessages : value) : outcome (list Message) :=
  items <-! as_array allMessages;
  userAndAssistantMessages <-! filter_t keep_message items;
  let lastMessages := slice_last 4 userAndAssistantMessages in
  map_t format_message lastMessages.

(** [getTruncatedHistory] *)
Definition getTruncatedHistory (conversationId : string)
  : M W (list Message) :=
  catch
    (allMessages <- call Loaded (getConversationHistory conversationId) ;;
     lift (truncate_history allMessages))
    (fun _ => ret []).

Definition tool_calls_value (message : AssistantMessage) : value :=
  match am_tool_calls message with
  | Some toolCalls => VArray (map ToolCall_value toolCalls)
  | None => VUndefined
  end.

(** The [onText] handler *)
Definition chat_onText (textDelta : string) : M W unit :=
  sendMessage (EvChunk textDelta).

(** The [onMessage] handler; the save is not awaited and its rejection is
    logged. *)
Definition chat_onMessage (conversationId : string)
    (message : AssistantMessage) : M W unit :=
  push_history (Assistant message) ;;
  let payload :=
    JSON_stringify (or_else (VString (am_content message))
                            (tool_calls_value message)) in
  catch (call (Saved "assistant" payload)
           (saveMessage conversationId "assistant" payload))
        (fun _ => ret tt) ;;
  sendMessage EvMessageComplete.

(** The [onToolUse] handler *)
Definition chat_onToolUse (conversationId : string)
    (toolUseId : option string) (toolName : string) (toolArgs : value)
  : M W unit :=
  sendMessage (EvToolUse ("Calling tool: " ^^ toolName ^^
                          " with arguments: " ^^
                          to_string (stringify toolArgs))) ;;
  toolUseResponse <- call (ToolCalled toolName toolArgs)
                       (callTool toolName toolArgs) ;;
  error <- lift (get toolUseResponse "error") ;;
  toolResultContent <-
    (if truthy error then
       data <- lift (get error "data") ;;
       ty <- lift (get error "type") ;;
       (if is_string ty "auth_required" then sendMessage EvAuthRequired
        else ret tt) ;;
       ret (Some ("Error: " ^^ to_string data))
     else
       (if toolName =? "search_shop_catalog" then
          ps <- lift (processProductSearchResult toolUseResponse) ;;
          push_products ps
        else ret tt) ;;
       lift (formatToolResultContent toolUseResponse)) ;;
  push_history (ToolResult toolUseId toolResultContent) ;;
  call (Saved "tool"
          (tool_record toolUseId (of_option_string toolResultContent)))
       (saveMessage conversationId "tool"
          (tool_record toolUseId (of_option_string toolResultContent))) ;;
  sendMessage EvNewMessage.

Definition chat_handlers (conversationId : string) : StreamHandlers W :=
  {| onText := Some chat_onText;
     onMessage := Some (chat_onMessage conversationId);
     onToolUse := Some (chat_onToolUse conversationId) |}.

Definition maxIterations : nat := 10.

(** [while (iteration < maxIterations) { iteration++; ... }], by the number
    of iterations that remain, [maxIterations - iteration]. *)
Fixpoint conversation_loop (conversationId promptType : string)
    (remaining : nat) : M W unit :=
  match remaining with
  | 0 => ret tt
  | S remaining' =>
      messages <- read_history ;;
      tools <- read_world mcp_tools ;;
      response <- streamConversation messages promptType tools
                    (chat_handlers conversationId) ;;
      match am_tool_calls (rs_message response) with
      | None | Some [] => ret tt
      | Some (_ :: _) =>
          conversation_loop conversationId promptType remaining'
      end
  end.

(** [handleChatSession] *)
Definition handleChatSession (userMessage conversationId promptType : string)
  : M W unit :=
  catch
    (sendMessage (EvId conversationId) ;;
     catch (call Connected connectToStorefrontServer ;;
            call Connected connectToCustomerServer)
           (fun _ => ret tt) ;;
     set_products [] ;;
     call (Saved "user" (Some userMessage))
          (saveMessage conversationId "user" (Some userMessage)) ;;
     truncated <- getTruncatedHistory conversationId ;;
     set_history truncated ;;
     push_history (Msg (VString "user") (VString userMessage)) ;;
     conversation_loop conversationId promptType maxIterations ;;
     sendMessage EvEndTurn ;;
     products <- read_products ;;
     if (0 <? length products)%nat
     then sendMessage (EvProductResults products)
     else ret tt)
    (fun error => throw error).

End ChatRoute.

(* ================================================================== *)
(** * A reference world *)
(* ================================================================== *)

(** The general results below hold for every runtime and every behaviour
    of the collaborators.  To run the program on concrete requests this
    module fixes one of each: a JSON codec, a message store that keeps what
    it is given, and scripted completion and tool services. *)
Module Ref.

Definition dquote : string := String (ascii_of_nat 34) EmptyString.

Definition hex_digit (n : nat) : ascii :=
  ascii_of_nat (if (n <? 10)%nat then 48 + n else 87 + n).

Definition escape_char (c : ascii) : string :=
  let n := nat_of_ascii c in
  if (n =? 34)%nat then String (ascii_of_nat 92) dquote
  else if (n =? 92)%nat then "\\"
  else if (n =? 8)%nat then "\b"
  else if (n =? 9)%nat then "\t"
  else if (n =? 10)%nat then "\n"
  else if (n =? 12)%nat then "\f"
  else if (n =? 13)%nat then "\r"
  else if (n <? 32)%nat
       then "\u00" ^^ String (hex_digit (n / 16))
                        (String (hex_digit (n mod 16)) EmptyString)
       else String c EmptyString.

Fixpoint escape (s : string) : string :=
  match s with
  | EmptyString => EmptyString
  | String c rest => escape_char c ^^ escape rest
  end.

Definition quote (s : string) : string := dquote ^^ escape s ^^ dquote.

(** [JSON.stringify] inside a value: [undefined] prints as [null] in an
    array and drops its key in an object. *)
Fixpoint stringify_value (v : value) : string :=
  match v with
  | VUndefined | VNull => "null"
  | VBool true => "true"
  | VBool false => "false"
  | VNumber n => number_to_string n
  | VString s => quote s
  | VArray l => "[" ^^ String.concat "," (map stringify_value l) ^^ "]"
  | VObject fs =>
      "{" ^^ String.concat ","
               ((fix members (fs : list (string * value)) : list string :=
                   match fs with
                   | [] => []
                   | (_, VUndefined) :: rest => members rest
                   | (k, x) :: rest =>
                       (quote k ^^ ":" ^^ stringify_value x) :: members rest
                   end) fs)
          ^^ "}"
  end.

Definition stringify (v : value) : option string :=
  match v with
  | VUndefined => None
  | _ => Some (stringify_value v)
  end.

Definition is_json_space (c : ascii) : bool :=
  match nat_of_ascii c with
  | 9 | 10 | 13 | 32 => true
  | _ => false
  end.

Fixpoint skip_ws (s : string) : string :=
  match s with
  | String c rest => if is_json_space c then skip_ws rest else s
  | EmptyString => EmptyString
  end.

Definition hex_value (c : ascii) : option nat :=
  let n := nat_of_ascii c in
  if (48 <=? n)%nat && (n <=? 57)%nat then Some (n - 48)
  else if (97 <=? n)%nat && (n <=? 102)%nat then Some (n - 87)
  else if (65 <=? n)%nat && (n <=? 70)%nat then Some (n - 55)
  else None.

Definition cons_char (c : ascii) (r : option (string * string))
  : option (string * string) :=
  match r with
  | Some (s, rest) => Some (String c s, rest)
  | None => None
  end.

(** The characters of a string literal after its opening quote, and what
    follows the closing quote.  Of the [\u] escapes only [\u00XX] is
    read. *)
Fixpoint string_body (s : string) : option (string * string) :=
  match s with
  | EmptyString => None
  | String c rest =>
      let n := nat_of_ascii c in
      if (n =? 34)%nat then Some (EmptyString, rest)
      else if (n <? 32)%nat then None
      else if (n =? 92)%nat then
        match rest with
        | String e rest1 =>
            match nat_of_ascii e with
            | 34 => cons_char e (string_body rest1)
            | 92 => cons_char e (string_body rest1)
            | 47 => cons_char e (string_body rest1)
            | 98 => cons_char (ascii_of_nat 8) (string_body rest1)
            | 102 => cons_char (ascii_of_nat 12) (string_body rest1)
            | 110 => cons_char (ascii_of_nat 10) (string_body rest1)
            | 114 => cons_char (ascii_of_nat 13) (string_body rest1)
            | 116 => cons_char (ascii_of_nat 9) (string_body rest1)
            | 117 =>
                match rest1 with
                | String "0" (String "0" (String h (String l rest2))) =>
                    match hex_value h, hex_value l with
                    | Some a, Some b =>
                        cons_char (ascii_of_nat (16 * a + b))
                                  (string_body rest2)
                    | _, _ => None
                    end
                | _ => None
                end
            | _ => None
            end
        | EmptyString => None
        end
      else cons_char c (string_body rest)
  end.

(** A JSON number and what follows it: a decimal literal whose integer
    part has no leading zero. *)
Definition json_number (s : string) : option (value * string) :=
  let body := match s with
              | String "-" r => r
              | _ => s
              end in
  let leading_zero := match body with
                      | String "0" (String c _) => is_digit c
                      | _ => false
                      end in
  if leading_zero then None
  else
    match decimal_literal s with
    | Some (n, rest) => Some (VNumber n, rest)
    | None => None
    end.

Fixpoint drop_prefix (p s : string) : option string :=
  match p, s with
  | EmptyString, _ => Some s
  | String a p', String b s' => if Ascii.eqb a b then drop_prefix p' s' else None
  | String _ _, EmptyString => None
  end.

(** [o[k] = v] while parsing an object: a repeated key keeps its place and
    takes the later value. *)
Fixpoint set_field (k : string) (v : value) (fs : list (string * value))
  : list (string * value) :=
  match fs with
  | [] => [(k, v)]
  | (k', v') :: rest =>
      if k' =? k then (k, v) :: rest else (k', v') :: set_field k v rest
  end.

Fixpoint parse_value (fuel : nat) (s : string) : option (value * string) :=
  match fuel with
  | 0 => None
  | S fuel' =>
      match skip_ws s with
      | EmptyString => None
      | String c rest as t =>
          match nat_of_ascii c with
          | 123 =>
              match skip_ws rest with
              | String "}" rest1 => Some (VObject [], rest1)
              | t1 => parse_members fuel' t1 []
              end
          | 91 =>
              match skip_ws rest with
              | String "]" rest1 => Some (VArray [], rest1)
              | t1 => parse_elements fuel' t1 []
              end
          | 34 =>
              match string_body rest with
              | Some (str, rest1) => Some (VString str, rest1)
              | None => None
              end
          | 116 => option_map (pair (VBool true)) (drop_prefix "true" t)
          | 102 => option_map (pair (VBool false)) (drop_prefix "false" t)
          | 110 => option_map (pair VNull) (drop_prefix "null" t)
          | _ => json_number t
          end
      end
  end
with parse_elements (fuel : nat) (s : string) (acc : list value)
  : option (value * string) :=
  match fuel with
  | 0 => None
  | S fuel' =>
      match parse_value fuel' s with
      | Some (v, rest) =>
          match skip_ws rest with
          | String "," rest1 => parse_elements fuel' rest1 (acc ++ [v])
          | String "]" rest1 => Some (VArray (acc ++ [v]), rest1)
          | _ => None
          end
      | None => None
      end
  end
with parse_members (fuel : nat) (s : string) (acc : list (string * value))
  : option (value * string) :=
  match fuel with
  | 0 => None
  | S fuel' =>
      match skip_ws s with
      | String (Ascii false true false false false true false false) rest =>
          match string_body rest with
          | Some (k, rest1) =>
              match skip_ws rest1 with
              | String ":" rest2 =>
                  match parse_value fuel' rest2 with
                  | Some (v, rest3) =>
                      match skip_ws rest3 with
                      | String "," rest4 =>
                          parse_members fuel' rest4 (set_field k v acc)
                      | String "}" rest4 =>
                          Some (VObject (set_field k v acc), rest4)
                      | _ => None
                      end
                  | None => None
                  end
              | _ => None
              end
          | None => None
          end
      | _ => None
      end
  end.

(** [JSON.parse]: objects, arrays, strings, numbers and the three
    literals. *)
Definition parse_json (s : string) : option value :=
  match parse_value (2 * String.length s + 2) s with
  | Some (v, rest) =>
      match skip_ws rest with
      | EmptyString => Some v
      | _ => None
      end
  | None => None
  end.

Definition runtime : Runtime :=
  {| JSON_parse := parse_json;
     JSON_stringify := stringify;
     Math_random_suffix := fun _ => "k3x9a" |}.

Definition config : Config :=
  {| maxProductsToDisplay := Some 10;
     getSystemPrompt := fun _ => "You are a helpful shopping assistant." |}.

(** Modelled from the spec: the message store ([db.server] is not among the
    sources).  "append(conversationId, role, content) -> ok|error;
    list(conversationId) -> ordered sequence of stored messages": the world
    is the sequence of stored messages with their conversation ids. *)
Definition World : Type := list (string * value).

Definition stored (role : string) (content : option string) : value :=
  VObject [("role", VString role); ("content", of_option_string content)].

Definition list_conversation (conversationId : string) (w : World) : value :=
  VArray (map snd (filter (fun e => fst e =? conversationId) w)).

(** What the scripted collaborators do in a scenario. *)
Record Script : Type := {
  completion : CompletionRequest -> outcome ProviderStream;
  tool : string -> value -> outcome value;
  store_rejects : string -> bool;   (* by role *)
  store_unreadable : bool;
  tools : list Tool
}.

Definition collaborators (s : Script) : Collaborators World :=
  {| saveMessage := fun conversationId role content w =>
       if store_rejects s role then (Throw (VString "StoreError"), w)
       else (Normal tt, w ++ [(conversationId, stored role content)]);
     getConversationHistory := fun conversationId w =>
       if store_unreadable s then (Throw (VString "StoreError"), w)
       else (Normal (list_conversation conversationId w), w);
     completions_create := fun request w => (completion s request, w);
     callTool := fun name args w => (tool s name args, w);
     connectToStorefrontServer := fun w => (Normal tt, w);
     connectToCustomerServer := fun w => (Normal tt, w);
     mcp_tools := fun _ => tools s |}.

Definition start (w : World) : Session World :=
  {| world := w; conversationHistory := []; productsToDisplay := [] |}.

(** A chunk carrying text. *)
Definition text_chunk (t : string) : Chunk :=
  {| ck_choice0 := Some {| ch_delta := Some {| d_content := Some t;
                                                d_tool_calls := None |};
                           ch_finish_reason := None |} |}.

(** A chunk carrying one whole tool call at [index]. *)
Definition call_chunk (index : nat) (id name arguments : string) : Chunk :=
  {| ck_choice0 :=
       Some {| ch_delta :=
                 Some {| d_content := None;
                         d_tool_calls :=
                           Some [{| tcd_index := index;
                                    tcd_id := Some id;
                                    tcd_function :=
                                      Some {| fd_name := Some name;
                                              fd_arguments := Some arguments |}
                                 |}] |};
               ch_finish_reason := None |} |}.

Definition finish_chunk (reason : string) : Chunk :=
  {| ck_choice0 := Some {| ch_delta := None;
                           ch_finish_reason := Some reason |} |}.

Definition answers (chunks : list Chunk) : outcome ProviderStream :=
  Normal {| ps_chunks := chunks; ps_failure := None |}.

(** Has the model already been given a tool result? *)
Definition has_tool_result (r : CompletionRequest) : bool :=
  existsb (fun m => match m with ToolResult _ _ => true | _ => false end)
          (rq_messages r).

Definition search_tool : Tool :=
  {| tool_name := "search_shop_catalog";
     tool_description := "Search for products";
     tool_input_schema := VObject [("type", VString "object")] |}.

End Ref.

(* ================================================================== *)
(** * Vocabulary of the properties *)
(* ================================================================== *)

Section Vocabulary.
Context `{Runtime}.

(** The payload of a tool response for the product extraction: the [text]
    of its first text-typed content block. *)
Definition payload_of (toolUseResponse : value) : option value :=
  match (c <-! get toolUseResponse "content";
         items <-! as_array c;
         found <-! find_t is_text_item items;
         get_opt found "text") with
  | Normal p => Some p
  | Throw _ => None
  end.

(** The [products] sequence of the payload, when the payload parses (or is
    structured already) and carries one. *)
Definition products_of_payload (toolUseResponse : value)
  : option (list value) :=
  match payload_of toolUseResponse with
  | Some p =>
      match (match p with
             | VString s => JSON_parse s
             | VArray _ | VObject _ => Some p
             | _ => None
             end) with
      | Some (VObject fs) =>
          match lookup "products" fs with
          | VArray ps => Some ps
          | _ => None
          end
      | _ => None
      end
  | None => None
  end.

(** A typed content block is an object; it is text-typed when its [type]
    is ['text'], and its text is its [text] as [join] prints it. *)
Definition is_block (b : value) : Prop := exists fs, b = VObject fs.

Definition text_typed (b : value) : bool :=
  match b with
  | VObject fs => is_string (lookup "type" fs) "text"
  | _ => false
  end.

Definition block_text (b : value) : string :=
  match b with
  | VObject fs => join_item (lookup "text" fs)
  | _ => ""
  end.

End Vocabulary.

Definition is_user_or_assistant (m : Message) : Prop :=
  role_of m = VString "user" \/ role_of m = VString "assistant".


(* ================================================================== *)
(** * Vocabulary of the event stream *)
(* ================================================================== *)

Definition is_tool_use (e : StreamEvent) : bool :=
  match e with EvToolUse _ => true | _ => false end.


Definition is_end_turn (e : StreamEvent) : bool :=
  match e with EvEndTurn => true | _ => false end.

Definition is_product_results (e : StreamEvent) : bool :=
  match e with EvProductResults _ => true | _ => false end.

Definition is_new_message (e : StreamEvent) : bool :=
  match e with EvNewMessage => true | _ => false end.

Definition is_auth_required (e : StreamEvent) : bool :=
  match e with EvAuthRequired => true | _ => false end.

(** The events of the loop's turns: everything but [id], [end_turn] and
    [product_results]. *)
Definition is_turn_event (e : StreamEvent) : bool :=
  match e with
  | EvChunk _ | EvMessageComplete | EvToolUse _ | EvNewMessage
  | EvAuthRequired => true
  | EvId _ | EvEndTurn | EvProductResults _ => false
  end.

Definition count (p : StreamEvent -> bool) (evs : list StreamEvent) : nat :=
  length (filter p evs).

(** The events up to the next [tool_use]. *)
Fixpoint until_tool_use (evs : list StreamEvent) : list StreamEvent :=
  match evs with
  | [] => []
  | EvToolUse _ :: _ => []
  | e :: rest => e :: until_tool_use rest
  end.

(** For each [tool_use] event, in order, the events that follow it before
    the next [tool_use] (or the end). *)
Fixpoint followers (evs : list StreamEvent) : list (list StreamEvent) :=
  match evs with
  | [] => []
  | EvToolUse _ :: rest => until_tool_use rest :: followers rest
  | _ :: rest => followers rest
  end.

(** The tool-call requests of a final message. *)
Definition tool_call_requests (m : AssistantMessage) : list (option ToolCall) :=
  match am_tool_calls m with
  | Some toolCalls => toolCalls
  | None => []
  end.

(** A request is dispatched when it is there and its arguments are JSON. *)
Definition parseable `{Runtime} (toolCall : option ToolCall) : bool :=
  match toolCall with
  | Some tc =>
      match JSON_parse (tc_arguments tc) with
      | Some _ => true
      | None => false
      end
  | None => false
  end.

Definition is_tool_result (m : Message) : bool :=
  match m with ToolResult _ _ => true | _ => false end.

Definition result_id (m : Message) : option string :=
  match m with ToolResult id _ => id | _ => None end.

Definition request_id (toolCall : option ToolCall) : option string :=
  match toolCall with Some tc => tc_id tc | None => None end.

(** A tool response the handler can format: an object whose [content],
    when an array, holds blocks. *)
Definition well_formed_response (r : value) : Prop :=
  exists fs, r = VObject fs /\
             match lookup "content" fs with
             | VArray blocks => Forall is_block blocks
             | _ => True
             end.

Section Assumptions.
Context {W : Type} `{Collaborators W}.

(** Every tool invocation returns a well-formed response. *)
Definition tools_answer : Prop :=
  forall name args w,
    exists r w', callTool name args w = (Normal r, w') /\
                 well_formed_response r.

(** The store accepts every tool result. *)
Definition store_accepts_results : Prop :=
  forall conversationId content w,
    exists w', saveMessage conversationId "tool" content w = (Normal tt, w').

(** The store accepts the user's messages. *)
Definition store_accepts_user : Prop :=
  forall conversationId content w,
    exists w', saveMessage conversationId "user" content w = (Normal tt, w').

(** The completion service answers every request with a stream that ends
    without an error. *)
Definition completions_answer : Prop :=
  forall request w,
    exists chunks w',
      completions_create request w =
        (Normal {| ps_chunks := chunks; ps_failure := None |}, w').

End Assumptions.

(** What one run of the [onToolUse] handler for the request [id] leaves
    behind: the events sent and the messages appended to the working
    history. *)
Definition auth_events (auth : bool) : list StreamEvent :=
  if auth then [EvAuthRequired] else [].

Inductive tool_use_run (id : option string)
  : outcome unit -> list StreamEvent -> list Message -> Prop :=
| run_failed tu e :
    tool_use_run id (Throw e) [EvToolUse tu] []
| run_unsaved tu e c auth :
    tool_use_run id (Throw e) (EvToolUse tu :: auth_events auth)
                 [ToolResult id c]
| run_done tu c auth :
    tool_use_run id (Normal tt)
                 (EvToolUse tu :: auth_events auth ++ [EvNewMessage])
                 [ToolResult id c].

(** What the dispatch of a list of requests leaves behind: nothing for a
    request that is not dispatched, one handler run for each of the others,
    in order.  [answered] and [stored] stand for the assumptions on the tool
    endpoints and on the store under which a run appends its result and
    completes. *)
Inductive dispatch_run `{Runtime} (answered stored : Prop)
  : list (option ToolCall) -> list StreamEvent -> list Message -> Prop :=
| dispatch_nil : dispatch_run answered stored [] [] []
| dispatch_skip toolCall rest evs ms :
    parseable toolCall = false ->
    dispatch_run answered stored rest evs ms ->
    dispatch_run answered stored (toolCall :: rest) evs ms
| dispatch_use toolCall rest o evs1 ms1 evs ms :
    parseable toolCall = true ->
    tool_use_run (request_id toolCall) o evs1 ms1 ->
    (answered -> ms1 <> []) ->
    (answered -> stored -> o = Normal tt) ->
    dispatch_run answered stored rest evs ms ->
    dispatch_run answered stored (toolCall :: rest) (evs1 ++ evs) (ms1 ++ ms).

(** [xs] is [ys] with some elements left out. *)
Inductive subsequence {A} : list A -> list A -> Prop :=
| sub_nil : subsequence [] []
| sub_drop y xs ys : subsequence xs ys -> subsequence xs (y :: ys)
| sub_keep x xs ys : subsequence xs ys -> subsequence (x :: xs) (x :: ys).

(** What may follow a [tool_use] event before the next one. *)
Definition follow_up (f : list StreamEvent) : Prop :=
  f = [] \/ f = [EvAuthRequired] \/ f = [EvNewMessage] \/
  f = [EvAuthRequired; EvNewMessage].

Definition completed_follow_up (f : list StreamEvent) : Prop :=
  f = [EvNewMessage] \/ f = [EvAuthRequired; EvNewMessage].

(** The events sent after the first [end_turn]. *)
Fixpoint after_end_turn (evs : list StreamEvent) : list StreamEvent :=
  match evs with
  | [] => []
  | EvEndTurn :: rest => rest
  | _ :: rest => after_end_turn rest
  end.

Definition no_tool_use (evs : list StreamEvent) : Prop :=
  Forall (fun e => is_tool_use e = false) evs.

Definition turn_events (evs : list StreamEvent) : Prop :=
  Forall (fun e => is_turn_event e = true) evs.

(** What closes a request that ran to its end, after [end_turn]: the
    products, if any were gathered. *)
Definition flushed (products : list value) : list StreamEvent :=
  if (0 <? length products)%nat then [EvProductResults products] else [].

Section Effects.
Context {W : Type} `{Runtime} `{Config} `{Collaborators W}.

(** The shape of one handler run, with what the collaborators must have
    done for it. *)
Definition tool_use_effect (id : option string) (st : Session W)
    (o : outcome unit) (st' : Session W) (out : list Obs)
    (ms : list Message) : Prop :=
  tool_use_run id o (sent out) ms /\
  conversationHistory st' = conversationHistory st ++ ms /\
  requests out = [] /\
  (tools_answer -> ms <> []) /\
  (tools_answer -> store_accepts_results -> o = Normal tt).

(** One turn: the completion call comes first; then the chunks, then
    [message_complete], then the dispatch of the requests of the final
    message, which is appended to the working history with the tool
    results behind it.  A failure of the completion service ends the turn
    by a throw, after the chunks. *)
Definition turn_effect (messages : list Message) (promptType : string)
    (st : Session W) (o : outcome Response) (st' : Session W)
    (out : list Obs) : Prop :=
  (exists request rest,
      out = Requested request :: rest /\ requests rest = [] /\
      rq_messages request =
        Msg (VString "system") (VString (getSystemPrompt promptType))
          :: messages) /\
  match o with
  | Normal response =>
      exists texts evs ms,
        sent out = map EvChunk texts ++ EvMessageComplete :: evs /\
        dispatch_run tools_answer store_accepts_results
          (tool_call_requests (rs_message response)) evs ms /\
        conversationHistory st' =
          conversationHistory st ++ Assistant (rs_message response) :: ms
  | Throw _ =>
      exists texts,
        sent out = map EvChunk texts /\
        conversationHistory st' = conversationHistory st
  end /\
  (completions_answer -> exists response, o = Normal response).

(** What the caller sees of a request: the id, the events of the turns
    and, when the request ran to its end, [end_turn] and the products. *)
Definition session_effect (conversationId : string)
    (o : outcome unit) (st' : Session W) (out : list Obs) : Prop :=
  length (requests out) <= maxIterations /\
  (exists evs,
      turn_events evs /\
      match o with
      | Normal _ =>
          sent out = EvId conversationId :: evs ++
                     EvEndTurn :: flushed (productsToDisplay st')
      | Throw _ => sent out = EvId conversationId :: evs
      end) /\
  (store_accepts_user -> completions_answer -> o = Normal tt).

End Effects.

(** ** The claims as the specification words them *)

(** "Each [tool_use] is followed by exactly one of [new_message] or
    [auth_required]." *)
Definition exactly_one_follow_up (f : list StreamEvent) : Prop :=
  count is_new_message f + count is_auth_required f = 1.

(** "The number of [tool_use] events equals the number of tool-call
    requests in the preceding completion." *)
Definition one_tool_use_per_request (response : Response)
    (evs : list StreamEvent) : Prop :=
  count is_tool_use evs = length (tool_call_requests (rs_message response)).

(** "The number of ToolResults appended to the working history equals the
    number of ToolCallRequests in the preceding assistant message." *)
Definition one_result_per_request (response : Response)
    (before after : list Message) : Prop :=
  length (filter is_tool_result after)
  = length (filter is_tool_result before)
    + length (tool_call_requests (rs_message response)).

(** "[product_results] after [end_turn] is not permitted." *)
Definition no_products_after_end_turn (evs : list StreamEvent) : Prop :=
  count is_product_results (after_end_turn evs) = 0.


(* ================================================================== *)
(** * Scenarios in the reference world *)
(* ================================================================== *)

Module Scenario.
Import Ref.

(** A response of the catalog search: one text block whose text is the
    JSON of an object with [products]. *)
Definition shoe (id title : string) : value :=
  VObject [("product_id", VString id); ("title", VString title);
           ("price_range", VObject [("currency", VString "USD");
                                    ("min", VNumber {| mantissa := 4999; exponent := -2 |})])].

Definition catalog : value :=
  VObject [("products", VArray [shoe "p1" "Red sneaker";
                                shoe "p2" "Red boot";
                                shoe "p3" "Red sandal"])].

Definition search_response : value :=
  VObject [("content",
            VArray [VObject [("type", VString "text");
                             ("text", VString (stringify_value catalog))];
                    VObject [("type", VString "image");
                             ("data", VString "iVBORw0KGgo")];
                    VObject [("type", VString "text");
                             ("text", VString "3 products found")]])].

(** A response of the catalog search with twelve products. *)
Definition long_response : value :=
  VObject [("content",
            VArray [VObject
                      [("type", VString "text");
                       ("text",
                        VString (stringify_value
                          (VObject [("products",
                                     VArray (map (fun n => shoe n "Shoe")
                                               ["a"; "b"; "c"; "d"; "e"; "f";
                                                "g"; "h"; "i"; "j"; "k";
                                                "l"]))])))]])].

(** A response whose text block is not JSON. *)
Definition garbled_response : value :=
  VObject [("content",
            VArray [VObject [("type", VString "text");
                             ("text", VString "{products: oops")]])].

Definition auth_error : value :=
  VObject [("error", VObject [("type", VString "auth_required");
                              ("data", VString "Sign in to see your orders")])].

Definition search_call : ToolCall :=
  {| tc_id := Some "call_1"; tc_name := "search_shop_catalog";
     tc_arguments := "{}" |}.

(** The record of an assistant message that carries [search_call] and no
    text, as [chat_onMessage] writes it to the store. *)
Definition search_call_record : string :=
  stringify_value (VArray [ToolCall_value (Some search_call)]).

(** The user asks for red shoes; the model first calls the catalog search,
    then answers in text. *)
Definition shopping : Script :=
  {| completion := fun request =>
       if has_tool_result request
       then answers [text_chunk "Here are "; text_chunk "three red shoes.";
                     finish_chunk "stop"]
       else answers [call_chunk 0 "call_1" "search_shop_catalog" "{}";
                     finish_chunk "tool_calls"];
     tool := fun _ _ => Normal search_response;
     store_rejects := fun _ => false;
     store_unreadable := false;
     tools := [search_tool] |}.

(** The model asks for two tools at once: the arguments of the first call
    are cut short, the second tool wants the customer to sign in. *)
Definition two_calls : Script :=
  {| completion := fun request =>
       if has_tool_result request
       then answers [text_chunk "Please sign in."; finish_chunk "stop"]
       else answers [call_chunk 0 "call_1" "search_shop_catalog" "{bad";
                     call_chunk 1 "call_2" "get_orders" "{}";
                     finish_chunk "tool_calls"];
     tool := fun _ _ => Normal auth_error;
     store_rejects := fun _ => false;
     store_unreadable := false;
     tools := [search_tool] |}.

(** The model asks for one tool with arguments that are not JSON. *)
Definition malformed : Script :=
  {| completion := fun _ =>
       answers [call_chunk 0 "call_1" "search_shop_catalog" "{bad";
                finish_chunk "tool_calls"];
     tool := fun _ _ => Normal search_response;
     store_rejects := fun _ => false;
     store_unreadable := false;
     tools := [search_tool] |}.





(** The store cannot be read. *)
Definition unreadable : Script :=
  {| completion := fun _ => answers [text_chunk "Hello."; finish_chunk "stop"];
     tool := fun _ _ => Normal search_response;
     store_rejects := fun _ => false;
     store_unreadable := true;
     tools := [] |}.

(** A stored conversation of seven messages, with a system prompt, an
    Anthropic-style tool call and its result among them. *)
Definition long_conversation : World :=
  [("c1", stored "system" (Some "You are a helpful shopping assistant."));
   ("c1", stored "user" (Some "hello"));
   ("c1", stored "assistant" (Some (stringify_value (VString "Hi there."))));
   ("c1", stored "user" (Some "show me red shoes"));
   ("c1", stored "assistant"
            (Some (stringify_value
                     (VArray [VObject [("type", VString "tool_use");
                                       ("name", VString "search")]]))));
   ("c1", stored "tool" (Some "{}"));
   ("c1", stored "assistant"
            (Some (stringify_value (VString "Here are three red shoes."))));
   ("c1", stored "user" (Some "thanks"));
   ("c1", stored "assistant" (Some (stringify_value (VString "Welcome."))))].

(** A chat request on conversation [c1], from the store [w]. *)
Abbreviation chat s userMessage w :=
  (@handleChatSession World runtime config (collaborators s)
     userMessage "c1" "standardAssistant" (start w)).

Definition working (messages : list Message) : Session World :=
  {| world := []; conversationHistory := messages; productsToDisplay := [] |}.

(** One turn of the loop on the working history [messages]. *)
Abbreviation turn s messages :=
  (@streamConversation World runtime config (collaborators s)
     messages "standardAssistant" (tools s)
     (@chat_handlers World runtime config (collaborators s) "c1")
     (working messages)).

(** The truncated history of conversation [c1] in the store [w]. *)
Abbreviation load s w :=
  (@getTruncatedHistory World runtime (collaborators s) "c1" (start w)).

Definition asks (text : string) : list Message :=
  [Msg (VString "user") (VString text)].

End Scenario.


(* ================================================================== *)
(** * Vocabulary of the further properties *)
(* ================================================================== *)

(** ** The provider's stream *)

(** What a tool-call fragment carries: its piece of the arguments and,
    when it has one, a name. *)
Definition delta_arguments (d : ToolCallDelta) : string :=
  match tcd_function d with
  | Some f => match fd_arguments f with
              | Some a => a
              | None => EmptyString
              end
  | None => EmptyString
  end.

Definition delta_name (d : ToolCallDelta) : option string :=
  nonempty (match tcd_function d with
            | Some f => fd_name f
            | None => None
            end).

Definition at_index (i : nat) (d : ToolCallDelta) : bool :=
  (tcd_index d =? i)%nat.

(** The last name given by a list of fragments, [base] when none gives
    one. *)
Definition last_name (base : string) (ds : list ToolCallDelta) : string :=
  fold_left (fun n d => match delta_name d with
                        | Some n' => n'
                        | None => n
                        end) ds base.

(** The entry a fragment leaves at its index. *)
Definition updated (entry : option ToolCall) (d : ToolCallDelta) : ToolCall :=
  let base := match entry with
              | Some tc => tc
              | None => {| tc_id := tcd_id d; tc_name := "";
                           tc_arguments := "" |}
              end in
  {| tc_id := tc_id base;
     tc_name := match delta_name d with
                | Some n => n
                | None => tc_name base
                end;
     tc_arguments := tc_arguments base ^^ delta_arguments d |}.

Definition chunk_delta (c : Chunk) : option Delta :=
  match ck_choice0 c with
  | Some ch => ch_delta ch
  | None => None
  end.

Definition chunk_text (c : Chunk) : option string :=
  nonempty (match chunk_delta c with
            | Some d => d_content d
            | None => None
            end).

Definition chunk_tool_deltas (c : Chunk) : list ToolCallDelta :=
  match chunk_delta c with
  | Some d => match d_tool_calls d with
              | Some ds => ds
              | None => []
              end
  | None => []
  end.

(** The chunk carries a finish reason. *)
Definition finishes (c : Chunk) : bool :=
  match nonempty (match ck_choice0 c with
                  | Some ch => ch_finish_reason ch
                  | None => None
                  end) with
  | Some _ => true
  | None => false
  end.

(** The chunks up to the first one that carries a finish reason, that one
    included. *)
Fixpoint processed (chunks : list Chunk) : list Chunk :=
  match chunks with
  | [] => []
  | c :: rest => if finishes c then [c] else c :: processed rest
  end.

Fixpoint texts_of (chunks : list Chunk) : list string :=
  match chunks with
  | [] => []
  | c :: rest =>
      match chunk_text c with
      | Some t => t :: texts_of rest
      | None => texts_of rest
      end
  end.

(** The text fragments and the tool-call fragments a stream delivers
    before it finishes. *)
Definition streamed_texts (chunks : list Chunk) : list string :=
  texts_of (processed chunks).

Definition streamed_deltas (chunks : list Chunk) : list ToolCallDelta :=
  flat_map chunk_tool_deltas (processed chunks).

(** The texts of the [chunk] events among the events sent. *)
Fixpoint chunk_texts (evs : list StreamEvent) : list string :=
  match evs with
  | [] => []
  | EvChunk t :: rest => t :: chunk_texts rest
  | _ :: rest => chunk_texts rest
  end.

(** The tool invocations of a run, in order. *)
Fixpoint tool_calls_made (out : list Obs) : list (string * value) :=
  match out with
  | [] => []
  | ToolCalled name args :: rest => (name, args) :: tool_calls_made rest
  | _ :: rest => tool_calls_made rest
  end.

(** The records submitted to the store by a run, in order. *)
Fixpoint saves (out : list Obs) : list (string * option string) :=
  match out with
  | [] => []
  | Saved role content :: rest => (role, content) :: saves rest
  | _ :: rest => saves rest
  end.

(** The invocation a request stands for: its name and parsed arguments. *)
Definition invocation `{Runtime} (toolCall : option ToolCall)
  : list (string * value) :=
  match toolCall with
  | Some tc =>
      match JSON_parse (tc_arguments tc) with
      | Some args => [(tc_name tc, args)]
      | None => []
      end
  | None => []
  end.

(** The completion request of a turn. *)
Definition completion_request `{Config} (messages : list Message)
    (promptType : string) (tools : list Tool) : CompletionRequest :=
  {| rq_messages :=
       Msg (VString "system") (VString (getSystemPrompt promptType))
         :: messages;
     rq_tools := if (0 <? length tools)%nat
                 then Some (formatToolsForOpenAI tools) else None |}.

(** The final message a finished stream amounts to. *)
Definition streamed_message (chunks : list Chunk) : AssistantMessage :=
  {| am_content := String.concat "" (streamed_texts chunks);
     am_tool_calls :=
       match streamed_deltas chunks with
       | [] => None
       | ds => Some (fold_left accumulate ds [])
       end |}.

(** ** What a request leaves behind *)

(** What the chat route submits to the store for a message it appends to
    the working history: role and content. *)
Definition persisted `{Runtime} (m : Message) : string * option string :=
  match m with
  | Msg role content => (to_string role, Some (to_string content))
  | Assistant message =>
      ("assistant",
       JSON_stringify (or_else (VString (am_content message))
                               (tool_calls_value message)))
  | ToolResult id content =>
      ("tool", tool_record id (of_option_string content))
  end.

Definition is_catalog_search (c : string * value) : bool :=
  fst c =? "search_shop_catalog".

(** The number of catalog searches among the tool invocations of a run. *)
Definition searches (out : list Obs) : nat :=
  length (filter is_catalog_search (tool_calls_made out)).

(** A message as the store gives it back. *)
Definition stored_record (role : string) (content : option string) : value :=
  VObject [("role", VString role); ("content", of_option_string content)].

(** The completion requests of a loop that starts from the working history
    [h]: each one carries the system prompt and the working history of its
    turn, which is that of the turn before with an assistant message that
    asks for tools, and tool results, behind it. *)
Fixpoint request_chain `{Config} (promptType : string) (h : list Message)
    (rs : list CompletionRequest) : Prop :=
  match rs with
  | [] => True
  | r :: rest =>
      rq_messages r =
        Msg (VString "system") (VString (getSystemPrompt promptType)) :: h /\
      match rest with
      | [] => True
      | _ :: _ =>
          exists m results,
            tool_call_requests m <> [] /\
            Forall (fun x => is_tool_result x = true) results /\
            length results <= length (tool_call_requests m) /\
            request_chain promptType (h ++ Assistant m :: results) rest
      end
  end.

(** The request [r2] is [r1] with an assistant message that asks for
    tools, and at most one tool result for each of its requests, behind
    it. *)
Definition grows (r1 r2 : CompletionRequest) : Prop :=
  exists m results,
    rq_messages r2 = rq_messages r1 ++ Assistant m :: results /\
    tool_call_requests m <> [] /\
    Forall (fun x => is_tool_result x = true) results /\
    length results <= length (tool_call_requests m).

Fixpoint adjacent {A} (P : A -> A -> Prop) (xs : list A) : Prop :=
  match xs with
  | [] => True
  | a :: rest =>
      match rest with
      | [] => True
      | b :: _ => P a b /\ adjacent P rest
      end
  end.

(** A product card with all it needs to be shown: the six fields, an id,
    a title and a price that are not empty, and for the rest a value or
    the empty string. *)
Definition filled_or_empty (v : value) : Prop :=
  truthy v = true \/ v = VString "".

Definition complete_card (card : value) : Prop :=
  exists id title price image_url description url,
    card = VObject [("id", id); ("title", title); ("price", VString price);
                    ("image_url", image_url); ("description", description);
                    ("url", url)] /\
    truthy id = true /\ truthy title = true /\ price <> "" /\
    filled_or_empty image_url /\ filled_or_empty description /\
    filled_or_empty url.

(** The texts of the [tool_use] events among the events sent. *)
Fixpoint tool_use_texts (evs : list StreamEvent) : list string :=
  match evs with
  | [] => []
  | EvToolUse t :: rest => t :: tool_use_texts rest
  | _ :: rest => tool_use_texts rest
  end.

(** The text that announces a tool invocation to the client. *)
Definition announce `{Runtime} (c : string * value) : string :=
  "Calling tool: " ^^ fst c ^^ " with arguments: " ^^
  to_string (stringify (snd c)).

(** What a run from [st] to [st'] leaves behind: the messages [ms]
    appended to the working history, each one submitted to the store; the
    products [added] to the display list, complete cards, at most the
    configured maximum for each catalog search; and one [tool_use] event
    for each tool invocation. *)
Definition appends {W : Type} `{Runtime} `{Config} (st st' : Session W)
    (out : list Obs) (ms : list Message) (added : list value) : Prop :=
  conversationHistory st' = conversationHistory st ++ ms /\
  productsToDisplay st' = productsToDisplay st ++ added /\
  saves out = map persisted ms /\
  length added <= product_limit * searches out /\
  Forall complete_card added /\
  tool_use_texts (sent out) = map announce (tool_calls_made out).

(** The outcome of a turn, from what the completion service answers. *)
Definition turn_outcome (answer : outcome ProviderStream) : outcome Response :=
  match answer with
  | Normal stream =>
      match existsb finishes (ps_chunks stream), ps_failure stream with
      | false, Some e => Throw e
      | _, _ =>
          Normal {| rs_message := streamed_message (ps_chunks stream);
                    rs_stop_reason :=
                      match streamed_deltas (ps_chunks stream) with
                      | [] => "end_turn"
                      | _ :: _ => "tool_use"
                      end |}
      end
  | Throw e => Throw e
  end.


(** ** Kinds of events *)

Definition is_id (e : StreamEvent) : bool :=
  match e with EvId _ => true | _ => false end.

(** The events of a tool invocation. *)
Definition is_tool_event (e : StreamEvent) : bool :=
  match e with
  | EvToolUse _ | EvAuthRequired | EvNewMessage => true
  | _ => false
  end.

(** ** Stored conversations of texts *)

(** The roles of a conversation proper. *)
Definition conversational (role : string) : bool :=
  (role =? "user") || (role =? "assistant").

(** The text of a stored content that is plain text or the JSON of a
    string. *)
Definition text_of_stored `{Runtime} (content : string) : option string :=
  match JSON_parse content with
  | None => Some content
  | Some (VString t) => Some t
  | Some _ => None
  end.

(** A stored message, as role and content, and what it is read back
    as. *)
Definition record_of (r : string * string) : value :=
  stored_record (fst r) (Some (snd r)).

Definition loaded `{Runtime} (r : string * string) : Message :=
  Msg (VString (fst r))
      (VString (match text_of_stored (snd r) with
                | Some t => t
                | None => snd r
                end)).


(** ** Further scenarios *)

Module Cases.
Import Ref Scenario.

(** The model answers in two text fragments. *)
Definition greets : Script :=
  {| completion := fun _ =>
       answers [text_chunk "Hi "; text_chunk "there."; finish_chunk "stop"];
     tool := fun _ _ => Normal search_response;
     store_rejects := fun _ => false;
     store_unreadable := false;
     tools := [] |}.

Definition greeting : AssistantMessage :=
  {| am_content := "Hi there."; am_tool_calls := None |}.


End Cases.
(* ================================================================== *)
(** * Properties of the runtime helpers *)
(* ================================================================== *)

Lemma filter_t_Forall {A} (p : A -> outcome bool) (xs ys : list A) :
  filter_t p xs = Normal ys -> Forall (fun y => p y = Normal true) ys.
Proof.
  revert ys. induction xs as [|x xs IH]; simpl; intros ys E.
  - inversion E. constructor.
  - destruct (p x) as [b|e] eqn:Ep; simpl in E; [|discriminate].
    destruct (filter_t p xs) as [zs|e] eqn:Ef; simpl in E; [|discriminate].
    inversion E; subst. destruct b; auto.
Qed.

Lemma map_t_Forall2 {A B} (f : A -> outcome B) (xs : list A) (ys : list B) :
  map_t f xs = Normal ys -> Forall2 (fun x y => f x = Normal y) xs ys.
Proof.
  revert ys. induction xs as [|x xs IH]; simpl; intros ys E.
  - inversion E. constructor.
  - destruct (f x) as [y|e] eqn:Ef; simpl in E; [|discriminate].
    destruct (map_t f xs) as [zs|e] eqn:Em; simpl in E; [|discriminate].
    inversion E; subst. constructor; auto.
Qed.

Lemma map_t_length {A B} (f : A -> outcome B) (xs : list A) (ys : list B) :
  map_t f xs = Normal ys -> length ys = length xs.
Proof.
  intros E. apply map_t_Forall2 in E.
  induction E; simpl; congruence.
Qed.

Lemma slice_last_length {A} (n : nat) (xs : list A) :
  length (slice_last n xs) <= n.
Proof. unfold slice_last. rewrite length_skipn. lia. Qed.

Lemma slice_last_Forall {A} (P : A -> Prop) (n : nat) (xs : list A) :
  Forall P xs -> Forall P (slice_last n xs).
Proof.
  unfold slice_last. intros F.
  rewrite <- (firstn_skipn (length xs - n) xs) in F.
  apply Forall_app in F. apply F.
Qed.

Lemma slice_to_length {A} (n : nat) (xs : list A) :
  length (slice_to n xs) <= n.
Proof. apply firstn_le_length. Qed.

(** On blocks, the throwing traversals of [formatToolResultContent] are the
    plain [filter] and [map]. *)
Lemma filter_t_blocks (blocks : list value) :
  Forall is_block blocks ->
  filter_t is_text_item blocks = Normal (filter text_typed blocks).
Proof.
  induction 1 as [|b bs [fs ->] _ IH]; simpl; [reflexivity|].
  rewrite IH. simpl. reflexivity.
Qed.

Lemma map_t_text_blocks (blocks : list value) :
  Forall is_block blocks ->
  exists texts,
    map_t (fun item => get item "text") blocks = Normal texts /\
    map join_item texts = map block_text blocks.
Proof.
  induction 1 as [|b bs [fs ->] _ [texts [E1 E2]]]; simpl.
  - exists []. auto.
  - rewrite E1. simpl. eexists. split; [reflexivity|]. simpl. now rewrite E2.
Qed.

Lemma Forall_filter_blocks (blocks : list value) :
  Forall is_block blocks -> Forall is_block (filter text_typed blocks).
Proof.
  intros F. apply Forall_forall. intros b Hb.
  apply filter_In in Hb. rewrite Forall_forall in F. apply F, Hb.
Qed.

(* ================================================================== *)
(** * The product extraction *)
(* ================================================================== *)

Section ProductExtraction.
Context `{Runtime} `{Config}.

Lemma try_catch_default {A} (o : outcome A) (d : A) (P : A -> Prop) :
  P d -> (forall a, o = Normal a -> P a) ->
  exists a, try_catch o (fun _ => Normal d) = Normal a /\ P a.
Proof.
  intros Hd Ha. destruct o as [a|e]; simpl; eauto.
Qed.

Lemma product_limit_spec :
  product_limit = match maxProductsToDisplay with
                  | Some (S n) => S n
                  | _ => 10
                  end.
Proof. unfold product_limit. destruct maxProductsToDisplay as [[|n]|]; reflexivity. Qed.

(** C9: the product-search side extraction always returns a list, never
    throws; the list has at most the configured maximum of entries (10 when
    no maximum is configured); and it is empty whenever the payload does not
    parse or carries no [products] sequence. *)
Theorem processProductSearchResult_total_and_bounded (toolUseResponse : value) :
  exists products,
    processProductSearchResult toolUseResponse = Normal products /\
    length products <= match maxProductsToDisplay with
                       | Some (S n) => S n
                       | _ => 10
                       end /\
    (products_of_payload toolUseResponse = None -> products = []).
Proof.
  rewrite <- product_limit_spec.
  unfold processProductSearchResult.
  apply try_catch_default with
    (P := fun ps => length ps <= product_limit /\
                    (products_of_payload toolUseResponse = None -> ps = [])).
  { split; [simpl; lia | reflexivity]. }
  intros ps E.
  unfold products_of_payload, payload_of.
  destruct (get toolUseResponse "content") as [c|e]; simpl in *; [|discriminate].
  destruct (truthy c) eqn:Tc.
  2:{ simpl in E. inversion E. split; [simpl; lia | reflexivity]. }
  destruct (get c "length") as [len|e]; simpl in E; [|discriminate].
  destruct (gt_zero len).
  2:{ inversion E. split; [simpl; lia | reflexivity]. }
  destruct (as_array c) as [items|e]; simpl in *; [|discriminate].
  destruct (find_t is_text_item items) as [found|e]; simpl in *; [|discriminate].
  destruct (get_opt found "text") as [content|e]; simpl in *; [|discriminate].
  destruct (truthy content) eqn:Tt.
  2:{ inversion E. split; [simpl; lia | reflexivity]. }
  assert (Hmap : forall xs,
             try_catch (map_t formatProductData (slice_to product_limit xs))
                       (fun _ => Normal []) = Normal ps ->
             length ps <= product_limit).
  { intros xs Em.
    destruct (map_t formatProductData (slice_to product_limit xs)) as [ys|e] eqn:Ey;
      simpl in Em; inversion Em; subst; [|simpl; lia].
    apply map_t_length in Ey. rewrite Ey. apply slice_to_length. }
  assert (Hdata : forall d,
             try_catch
               (products <-! get_opt d "products";
                (if truthy products && Array_isArray products
                 then xs <-! as_array products;
                      map_t formatProductData (slice_to product_limit xs)
                 else Normal []))
               (fun _ => Normal []) = Normal ps ->
             length ps <= product_limit /\
             (match d with
              | VObject fs => match lookup "products" fs with
                              | VArray xs => Some xs
                              | _ => None
                              end
              | _ => None
              end = None -> ps = [])).
  { intros d Ed.
    destruct d as [| |b|n|s|l|fs]; simpl in Ed;
      try (inversion Ed; split; [simpl; lia | reflexivity]).
    destruct (lookup "products" fs) as [| |b|n|s|xs|gs]; simpl in Ed;
        try (inversion Ed; split; [simpl; lia | reflexivity]).
    - destruct b; simpl in Ed; inversion Ed; split; solve [simpl; lia | reflexivity].
    - destruct (negb (is_zero n)); simpl in Ed; inversion Ed;
        split; solve [simpl; lia | reflexivity].
    - destruct (negb (s =? "")); simpl in Ed; inversion Ed;
        split; solve [simpl; lia | reflexivity].
    - split; [eapply Hmap; exact Ed | discriminate]. }
  destruct content as [| |b|n|s|l|fs]; simpl in E;
    try (inversion E; split; [simpl; lia | reflexivity]).
  - unfold parse in E. destruct (JSON_parse s) as [d|]; simpl in E.
    + destruct (Hdata d E) as [Hlen Hnil]. split; [exact Hlen|].
      destruct d; auto.
    + inversion E. split; [simpl; lia | reflexivity].
  - apply (Hdata (VObject fs)) in E. exact E.
Qed.

End ProductExtraction.

(* ================================================================== *)
(** * The history truncation *)
(* ================================================================== *)

Section HistoryTruncation.
Context {W : Type} `{Runtime} `{Config} `{Collaborators W}.

Lemma is_string_eq (v : value) (lit : string) :
  is_string v lit = true -> v = VString lit.
Proof.
  destruct v; simpl; try discriminate.
  intros E. apply String.eqb_eq in E. now subst.
Qed.

Lemma keep_message_role (msg : value) :
  keep_message msg = Normal true ->
  exists role, get msg "role" = Normal role /\
               (role = VString "user" \/ role = VString "assistant").
Proof.
  unfold keep_message. intros E.
  destruct (get msg "role") as [role|e]; simpl in E; [|discriminate].
  exists role. split; [reflexivity|].
  destruct (is_string role "system" || is_string role "tool"); [discriminate|].
  match type of E with
  | obind ?t _ = _ => destruct t as [[|]|e]; simpl in E; try discriminate
  end.
  injection E as E'. apply orb_true_iff in E'.
  destruct E' as [E'|E']; apply is_string_eq in E'; auto.
Qed.

Lemma format_message_role (msg : value) (m : Message) :
  format_message msg = Normal m ->
  get msg "role" = Normal (role_of m).
Proof.
  unfold format_message. intros E.
  destruct (get msg "role") as [role|e]; simpl in E; [|discriminate].
  destruct (get msg "content") as [raw|e]; simpl in E; [|discriminate].
  destruct (parse (to_string raw)) as [content|e]; simpl in E.
  - destruct (is_string role "assistant" && (typeof content =? "string"));
      [inversion E; reflexivity|].
    destruct (typeof content =? "string"); inversion E; reflexivity.
  - inversion E; reflexivity.
Qed.

Lemma truncate_history_bounded (allMessages : value) (msgs : list Message) :
  truncate_history allMessages = Normal msgs ->
  length msgs <= 4 /\ Forall is_user_or_assistant msgs.
Proof.
  unfold truncate_history. intros E.
  destruct (as_array allMessages) as [items|e]; simpl in E; [|discriminate].
  destruct (filter_t keep_message items) as [kept|e] eqn:Ek; simpl in E;
    [|discriminate].
  split.
  - rewrite (map_t_length _ _ _ E). apply slice_last_length.
  - apply filter_t_Forall in Ek.
    apply (slice_last_Forall _ 4) in Ek.
    apply map_t_Forall2 in E.
    induction E as [|msg m msgs' ms' Hm _ IH]; constructor.
    + inversion Ek as [|? ? Hk _]; subst.
      apply keep_message_role in Hk. destruct Hk as [role [Hr Hrole]].
      apply format_message_role in Hm. rewrite Hr in Hm. inversion Hm as [Hm'].
      unfold is_user_or_assistant. rewrite <- Hm'. exact Hrole.
    + apply IH. inversion Ek; assumption.
Qed.

Lemma getTruncatedHistory_run (conversationId : string) (st : Session W) :
  exists msgs st' out,
    getTruncatedHistory conversationId st = (Normal msgs, st', out) /\
    conversationHistory st' = conversationHistory st /\
    productsToDisplay st' = productsToDisplay st /\
    out = [Loaded] /\
    match getConversationHistory conversationId (world st) with
    | (Normal allMessages, _) =>
        match truncate_history allMessages with
        | Normal ms => msgs = ms
        | Throw _ => msgs = []
        end
    | (Throw _, _) => msgs = []
    end.
Proof.
  unfold getTruncatedHistory, catch, bind, call, lift, ret.
  destruct (getConversationHistory conversationId (world st)) as [[all|e] w].
  - destruct (truncate_history all) as [ms|e]; simpl;
      repeat eexists; reflexivity.
  - simpl. repeat eexists; reflexivity.
Qed.

(** C6: for every stored conversation (and whatever the store answers),
    the truncated history returned for the next completion call holds at
    most 4 messages, every one of role [user] or [assistant], and so none
    of role [system] or [tool]. *)
Theorem truncated_history_bounded_user_assistant
    (conversationId : string) (st : Session W) :
  exists msgs st' out,
    getTruncatedHistory conversationId st = (Normal msgs, st', out) /\
    length msgs <= 4 /\
    Forall is_user_or_assistant msgs /\
    Forall (fun m => role_of m <> VString "system" /\
                     role_of m <> VString "tool") msgs.
Proof.
  destruct (getTruncatedHistory_run conversationId st)
    as (msgs & st' & out & E & _ & _ & _ & Hm).
  exists msgs, st', out. split; [exact E|].
  assert (Hb : length msgs <= 4 /\ Forall is_user_or_assistant msgs).
  { destruct (getConversationHistory conversationId (world st)) as [[all|e] w].
    - destruct (truncate_history all) as [ms|e] eqn:Et.
      + subst. now apply truncate_history_bounded with all.
      + subst. split; [simpl; lia | constructor].
    - subst. split; [simpl; lia | constructor]. }
  destruct Hb as [Hlen Hrole]. repeat split; auto.
  eapply Forall_impl; [|exact Hrole].
  intros m [Hm'|Hm']; rewrite Hm'; split; discriminate.
Qed.

(** C10: loading the truncated history never raises an error to its
    caller: it always returns a list, and the list is empty whenever
    reading the stored messages throws or processing what was read
    throws. *)
Theorem getTruncatedHistory_never_throws
    (conversationId : string) (st : Session W) :
  exists msgs st' out,
    getTruncatedHistory conversationId st = (Normal msgs, st', out) /\
    (forall e w, getConversationHistory conversationId (world st) = (Throw e, w) ->
                 msgs = []) /\
    (forall allMessages w e,
        getConversationHistory conversationId (world st) = (Normal allMessages, w) ->
        truncate_history allMessages = Throw e -> msgs = []).
Proof.
  destruct (getTruncatedHistory_run conversationId st)
    as (msgs & st' & out & E & _ & _ & _ & Hm).
  exists msgs, st', out. split; [exact E|]. split.
  - intros e w Eg. rewrite Eg in Hm. exact Hm.
  - intros all w e Eg Et. rewrite Eg, Et in Hm. exact Hm.
Qed.

End HistoryTruncation.

(* ================================================================== *)
(** * One run of the tool-use handler *)
(* ================================================================== *)

Section Runs.
Context {W : Type} `{Runtime} `{Config} `{Collaborators W}.

Lemma processProductSearchResult_never_throws (toolUseResponse : value) :
  exists products, processProductSearchResult toolUseResponse = Normal products.
Proof.
  unfold processProductSearchResult.
  match goal with
  | |- context [try_catch ?o _] => destruct o
  end; simpl; eauto.
Qed.

Lemma get_truthy (v : value) (k : string) :
  truthy v = true -> exists x, get v k = Normal x.
Proof.
  destruct v; simpl; try discriminate; intros _; eauto.
  - destruct (k =? "length"); eauto.
  - destruct (k =? "length"); eauto.
Qed.

Lemma sent_app (a b : list Obs) : sent (a ++ b) = sent a ++ sent b.
Proof.
  induction a as [|[] a IH]; simpl; try rewrite IH; reflexivity.
Qed.

Lemma requests_app (a b : list Obs) :
  requests (a ++ b) = requests a ++ requests b.
Proof.
  induction a as [|[] a IH]; simpl; try rewrite IH; reflexivity.
Qed.

Lemma formatToolResultContent_well_formed (r : value) :
  well_formed_response r -> exists c, formatToolResultContent r = Normal c.
Proof.
  intros (fs & -> & Hc). unfold formatToolResultContent. simpl.
  destruct (lookup "content" fs) as [| |b|n|s|blocks|gs]; simpl; eauto.
  - destruct b; simpl; eauto.
  - destruct (negb (is_zero n)); simpl; eauto.
  - destruct (negb (s =? "")); simpl; eauto.
  - rewrite (filter_t_blocks blocks Hc). simpl.
    destruct (map_t_text_blocks _ (Forall_filter_blocks blocks Hc))
      as (texts & -> & _).
    simpl. eauto.
Qed.

Lemma well_formed_error (r : value) :
  well_formed_response r -> exists err, get r "error" = Normal err.
Proof. intros (fs & -> & _). simpl. eauto. Qed.

Ltac shape c :=
  split;
  [ c
  | split; [ first [ reflexivity | symmetry; apply app_nil_r ]
           | split; [ reflexivity | ] ] ].

Ltac pick_shape :=
  first [ shape ltac:(eapply run_failed)
        | shape ltac:(eapply (run_done _ _ _ true))
        | shape ltac:(eapply (run_done _ _ _ false))
        | shape ltac:(eapply (run_unsaved _ _ _ _ true))
        | shape ltac:(eapply (run_unsaved _ _ _ _ false)) ].

Lemma chat_onToolUse_run conversationId id name args (st : Session W) :
  exists o st' out ms,
    chat_onToolUse conversationId id name args st = (o, st', out) /\
    tool_use_effect id st o st' out ms.
Proof.
  unfold tool_use_effect.
  unfold chat_onToolUse, bind, sendMessage, call, lift, push_history,
    push_products, ret.
  simpl.
  destruct (callTool name args (world st)) as [[r|e] w] eqn:Ecall; simpl.
  2:{ do 4 eexists; split; [reflexivity|]; simpl. pick_shape.
      split.
      - intros Ht. destruct (Ht name args (world st)) as (r' & w' & Et & _).
        congruence.
      - intros Ht. destruct (Ht name args (world st)) as (r' & w' & Et & _).
        congruence. }
  assert (Hwf : tools_answer -> well_formed_response r).
  { intros Ht. destruct (Ht name args (world st)) as (r' & w' & Et & Hr).
    congruence. }
  destruct (get r "error") as [err|e] eqn:Eerr; simpl.
  2:{ do 4 eexists; split; [reflexivity|]; simpl. pick_shape.
      split; intros Ht; destruct (well_formed_error r (Hwf Ht)); congruence. }
  assert (Hsave : forall c (w0 : W) e w',
             saveMessage conversationId "tool" c w0 = (Throw e, w') ->
             store_accepts_results -> False).
  { intros c w0 e w' Es Hs. destruct (Hs conversationId c w0) as [w'' Es'].
    congruence. }
  assert (Hfmt : forall e, formatToolResultContent r = Throw e ->
                           tools_answer -> False).
  { intros e Ef Ht.
    destruct (formatToolResultContent_well_formed r (Hwf Ht)). congruence. }
  destruct (truthy err) eqn:Terr.
  - destruct (get_truthy err "data" Terr) as [data ->].
    destruct (get_truthy err "type" Terr) as [ty ->]. simpl.
    destruct (is_string ty "auth_required"); simpl;
      match goal with
      | |- context [saveMessage ?a ?b ?c ?d] =>
          destruct (saveMessage a b c d) as [[[]|e] w'] eqn:Esave
      end; simpl;
      (do 4 eexists; split; [reflexivity|]; simpl; pick_shape;
       split; [intros _; discriminate
              | intros _ Hs; solve [reflexivity
                                   | exfalso; eapply Hsave; eauto]]).
  - destruct (name =? "search_shop_catalog"); simpl.
    + destruct (processProductSearchResult_never_throws r) as [ps ->].
      simpl.
      destruct (formatToolResultContent r) as [c|e] eqn:Ef; simpl.
      2:{ do 4 eexists; split; [reflexivity|]; simpl. pick_shape.
          split; intros Ht; exfalso; eapply Hfmt; eauto. }
      match goal with
      | |- context [saveMessage ?a ?b ?c ?d] =>
          destruct (saveMessage a b c d) as [[[]|e] w'] eqn:Esave
      end; simpl;
      (do 4 eexists; split; [reflexivity|]; simpl; pick_shape;
       split; [intros _; discriminate
              | intros _ Hs; solve [reflexivity
                                   | exfalso; eapply Hsave; eauto]]).
    + destruct (formatToolResultContent r) as [c|e] eqn:Ef; simpl.
      2:{ do 4 eexists; split; [reflexivity|]; simpl. pick_shape.
          split; intros Ht; exfalso; eapply Hfmt; eauto. }
      match goal with
      | |- context [saveMessage ?a ?b ?c ?d] =>
          destruct (saveMessage a b c d) as [[[]|e] w'] eqn:Esave
      end; simpl;
      (do 4 eexists; split; [reflexivity|]; simpl; pick_shape;
       split; [intros _; discriminate
              | intros _ Hs; solve [reflexivity
                                   | exfalso; eapply Hsave; eauto]]).
Qed.
End Runs.


(* ================================================================== *)
(** * One turn of the loop *)
(* ================================================================== *)

Section TurnRuns.
Context {W : Type} `{Runtime} `{Config} `{Collaborators W}.

Lemma dispatch_one_skipped (f : option string -> string -> value -> M W unit)
    (toolCall : option ToolCall) (st : Session W) :
  parseable toolCall = false ->
  dispatch_one f toolCall st = (Normal tt, st, []).
Proof.
  unfold parseable, dispatch_one, catch, bind, lift, ret, parse.
  destruct toolCall as [tc|]; simpl; [|reflexivity].
  destruct (JSON_parse (tc_arguments tc)); [discriminate|reflexivity].
Qed.

Lemma dispatch_one_used conversationId (toolCall : option ToolCall)
    (st : Session W) :
  parseable toolCall = true ->
  exists o st' out ms,
    dispatch_one (chat_onToolUse conversationId) toolCall st
      = (Normal tt, st', out) /\
    tool_use_effect (request_id toolCall) st o st' out ms.
Proof.
  unfold parseable, dispatch_one, catch, bind, lift, ret, parse.
  destruct toolCall as [tc|]; simpl; [|discriminate].
  destruct (JSON_parse (tc_arguments tc)) as [args|]; [|discriminate].
  intros _. simpl.
  destruct (chat_onToolUse_run conversationId (tc_id tc) (tc_name tc) args st)
    as (o & st' & out & ms & E & Heff).
  rewrite E.
  exists o, st', out, ms.
  destruct o as [[]|e]; simpl; rewrite ?app_nil_r; auto.
Qed.

Lemma dispatch_runs conversationId (toolCalls : list (option ToolCall))
    (st : Session W) :
  exists st' out ms,
    dispatch (chat_onToolUse conversationId) toolCalls st
      = (Normal tt, st', out) /\
    dispatch_run tools_answer store_accepts_results toolCalls (sent out) ms /\
    conversationHistory st' = conversationHistory st ++ ms /\
    requests out = [].
Proof.
  revert st. induction toolCalls as [|toolCall rest IH]; intros st.
  - exists st, [], []. simpl. rewrite app_nil_r.
    repeat split. constructor.
  - simpl. unfold bind.
    destruct (parseable toolCall) eqn:Ep.
    + destruct (dispatch_one_used conversationId toolCall st Ep)
        as (o & st1 & out1 & ms1 & E1 & Hrun & Hh & Hr & Ha & Hs).
      rewrite E1.
      destruct (IH st1) as (st2 & out2 & ms2 & E2 & Hd & Hh2 & Hr2).
      rewrite E2.
      exists st2, (out1 ++ out2), (ms1 ++ ms2).
      split; [reflexivity|]. rewrite sent_app, requests_app, Hr, Hr2.
      repeat split.
      * eapply dispatch_use; eauto.
      * rewrite Hh2, Hh. now rewrite app_assoc.
    + rewrite (dispatch_one_skipped _ toolCall st Ep).
      destruct (IH st) as (st2 & out2 & ms2 & E2 & Hd & Hh2 & Hr2).
      rewrite E2. simpl.
      exists st2, out2, ms2. repeat split; auto.
      now apply dispatch_skip.
Qed.

(** The chunk loop only sends [chunk] events, one per non-empty text
    fragment; it throws exactly when the stream fails before finishing. *)
Lemma consume_runs conversationId (chunks : list Chunk)
    (failure : option value) (content : string)
    (toolCalls : list (option ToolCall)) (st : Session W) :
  exists o texts,
    consume (chat_handlers conversationId) chunks failure content toolCalls st
      = (o, st, map (fun t => Sent (EvChunk t)) texts) /\
    (failure = None -> exists r, o = Normal r).
Proof.
  revert content toolCalls.
  induction chunks as [|chunk rest IH]; intros content toolCalls; simpl.
  - destruct failure as [e|].
    + exists (Throw e), []. split; [reflexivity|discriminate].
    + eexists _, []. split; [reflexivity|eauto].
  - unfold bind.
    set (text := nonempty _).
    set (content' := match text with Some t => _ | None => content end).
    set (toolCalls' := match match ck_choice0 chunk with
                             | Some c => ch_delta c
                             | None => None
                             end with
                       | Some {| d_tool_calls := Some ds |} => _
                       | _ => toolCalls
                       end).
    set (finish := nonempty (match ck_choice0 chunk with
                             | Some c => ch_finish_reason c
                             | None => None
                             end)).
    destruct (IH content' toolCalls') as (o & texts & E & Hn).
    destruct text as [t|]; simpl; unfold chat_onText, sendMessage, ret.
    + destruct finish.
      * eexists _, [t]. split; [reflexivity|eauto].
      * rewrite E. exists o, (t :: texts). split; [reflexivity|exact Hn].
    + destruct finish.
      * eexists _, []. split; [reflexivity|eauto].
      * rewrite E. exists o, texts. split; [reflexivity|exact Hn].
Qed.

Lemma sent_chunks (texts : list string) :
  sent (map (fun t => Sent (EvChunk t)) texts) = map EvChunk texts.
Proof. induction texts; simpl; congruence. Qed.

Lemma requests_chunks (texts : list string) :
  requests (map (fun t => Sent (EvChunk t)) texts) = [].
Proof. induction texts; simpl; congruence. Qed.

Lemma dispatch_if_any conversationId (toolCalls : list (option ToolCall)) :
  (if (0 <? length toolCalls)%nat
   then dispatch (chat_onToolUse conversationId) toolCalls
   else ret tt) = dispatch (chat_onToolUse conversationId) toolCalls.
Proof. destruct toolCalls; reflexivity. Qed.

Lemma streamConversation_runs conversationId messages promptType tools
    (st : Session W) :
  exists o st' out,
    streamConversation messages promptType tools
      (chat_handlers conversationId) st = (o, st', out) /\
    turn_effect messages promptType st o st' out.
Proof.
  unfold turn_effect, streamConversation.
  set (request := {| rq_messages := _; rq_tools := _ |}).
  unfold bind at 1. unfold call at 1.
  destruct (completions_create request (world st)) as [[stream|e] w] eqn:Ec.
  2:{ do 3 eexists. split; [reflexivity|]. split; [|split].
      - exists request, []. auto.
      - exists []. auto.
      - intros Ha. destruct (Ha request (world st)) as (c & w' & Ea).
        congruence. }
  set (st1 := {| world := w; conversationHistory := conversationHistory st;
                 productsToDisplay := productsToDisplay st |}).
  unfold bind at 1.
  destruct (consume_runs conversationId (ps_chunks stream) (ps_failure stream)
              "" [] st1) as (o1 & texts & E1 & Hn).
  rewrite E1.
  assert (Hfail : completions_answer -> ps_failure stream = None).
  { intros Ha. destruct (Ha request (world st)) as (c & w' & Ea).
    rewrite Ea in Ec. inversion Ec. reflexivity. }
  destruct o1 as [[content toolCalls]|e].
  2:{ do 3 eexists. split; [reflexivity|]. split; [|split].
      - eexists request, _. split; [reflexivity|]. split; [|reflexivity].
        apply requests_chunks.
      - exists texts. simpl. split; [apply sent_chunks|reflexivity].
      - intros Ha. destruct (Hn (Hfail Ha)). discriminate. }
  cbn [fst snd onMessage onToolUse chat_handlers].
  rewrite dispatch_if_any.
  unfold bind at 1. unfold chat_onMessage at 1.
  unfold bind, push_history, catch, call, sendMessage, ret. simpl.
  match goal with
  | |- context [saveMessage ?a ?b ?c ?d] =>
      destruct (saveMessage a b c d) as [[[]|e] w1]
  end; simpl;
  match goal with
  | |- context [dispatch ?f ?l ?s] =>
      destruct (dispatch_runs conversationId l s)
        as (st2 & out2 & ms2 & E2 & Hd & Hh & Hr)
  end; rewrite E2; simpl in Hh;
  (do 3 eexists; split; [reflexivity|]; split; [|split];
   [ eexists request, _; split; [reflexivity|]; split; [|reflexivity];
     rewrite !requests_app, requests_chunks; simpl;
     rewrite ?requests_app, Hr; reflexivity
   | exists texts, (sent out2), ms2; simpl; split; [|split];
     [ rewrite !sent_app, sent_chunks; simpl; rewrite ?sent_app; simpl;
       rewrite ?app_nil_r; reflexivity
     | destruct toolCalls; exact Hd
     | rewrite Hh, <- app_assoc; reflexivity ]
   | intros _; eauto ]).
Qed.

End TurnRuns.


(* ================================================================== *)
(** * The events and the results of a turn *)
(* ================================================================== *)

(** ** Lists of events *)

Lemma until_tool_use_app (tail evs : list StreamEvent) :
  no_tool_use tail ->
  until_tool_use (tail ++ evs) = tail ++ until_tool_use evs.
Proof.
  induction 1 as [|e tail He _ IH]; simpl; [reflexivity|].
  destruct e; try discriminate; now rewrite IH.
Qed.

Lemma followers_app (tail evs : list StreamEvent) :
  no_tool_use tail -> followers (tail ++ evs) = followers evs.
Proof.
  induction 1 as [|e tail He _ IH]; simpl; [reflexivity|].
  destruct e; try discriminate; exact IH.
Qed.

Lemma count_app (p : StreamEvent -> bool) (a b : list StreamEvent) :
  count p (a ++ b) = count p a + count p b.
Proof. unfold count. now rewrite filter_app, length_app. Qed.

Lemma count_none (p : StreamEvent -> bool) (evs : list StreamEvent) :
  Forall (fun e => p e = false) evs -> count p evs = 0.
Proof.
  unfold count. induction 1 as [|e evs He _ IH]; simpl; [reflexivity|].
  now rewrite He.
Qed.

Lemma no_tool_use_chunks (texts : list string) :
  no_tool_use (map EvChunk texts).
Proof. induction texts; constructor; auto. Qed.

Lemma subsequence_length {A} (xs ys : list A) :
  subsequence xs ys -> length xs <= length ys.
Proof. induction 1; simpl; lia. Qed.

Lemma subsequence_refl {A} (xs : list A) : subsequence xs xs.
Proof. induction xs; [constructor | apply sub_keep; assumption]. Qed.

(** ** One handler run *)

Lemma tool_use_run_events id o evs ms :
  tool_use_run id o evs ms ->
  exists tu tail,
    evs = EvToolUse tu :: tail /\ follow_up tail /\
    (o = Normal tt -> completed_follow_up tail) /\
    Forall (fun e => is_turn_event e = true) evs.
Proof.
  unfold follow_up, completed_follow_up.
  destruct 1 as [tu e|tu e c [|]|tu c [|]]; simpl;
    exists tu; eexists; (split; [reflexivity|]);
    (split; [tauto|]);
    (split; [intros; first [discriminate | tauto]|]);
    repeat constructor.
Qed.

Lemma follow_up_no_tool_use (tail : list StreamEvent) :
  follow_up tail -> no_tool_use tail.
Proof.
  unfold follow_up, no_tool_use.
  intros [-> | [-> | [-> | ->]]]; repeat constructor.
Qed.

Lemma tool_use_run_results id o evs ms :
  tool_use_run id o evs ms ->
  ms = [] \/ exists c, ms = [ToolResult id c].
Proof. destruct 1; eauto. Qed.

(** ** The dispatch of the requests of a final message *)

Section Dispatch.
Context `{Runtime}.
Variables answered stored : Prop.

Lemma dispatch_run_starts toolCalls evs ms :
  dispatch_run answered stored toolCalls evs ms -> until_tool_use evs = [].
Proof.
  induction 1 as [| |toolCall rest o evs1 ms1 evs ms _ Hrun _ _ _ _];
    auto.
  apply tool_use_run_events in Hrun.
  destruct Hrun as (tu & tail & -> & _). reflexivity.
Qed.

Lemma dispatch_run_events toolCalls evs ms :
  dispatch_run answered stored toolCalls evs ms ->
  count is_tool_use evs = length (filter parseable toolCalls) /\
  length (followers evs) = length (filter parseable toolCalls) /\
  Forall follow_up (followers evs) /\
  (answered -> stored -> Forall completed_follow_up (followers evs)) /\
  Forall (fun e => is_turn_event e = true) evs.
Proof.
  induction 1 as [|toolCall rest evs ms Hp _ IH
                  |toolCall rest o evs1 ms1 evs ms Hp Hrun Ha Hs Hd IH].
  - simpl. repeat split; auto.
  - simpl. rewrite Hp. exact IH.
  - destruct IH as (IH1 & IH2 & IH3 & IH4 & IH5).
    pose proof (dispatch_run_starts _ _ _ Hd) as Hstart.
    destruct (tool_use_run_events _ _ _ _ Hrun)
      as (tu & tail & -> & Hf & Hc & Ht).
    pose proof (follow_up_no_tool_use _ Hf) as Hn.
    simpl. rewrite Hp. simpl.
    rewrite (until_tool_use_app _ _ Hn), Hstart, app_nil_r.
    rewrite (followers_app _ _ Hn).
    repeat split.
    + unfold count in *. simpl. rewrite filter_app, length_app.
      fold (count is_tool_use tail). rewrite (count_none _ _ Hn).
      simpl. now rewrite IH1.
    + now rewrite IH2.
    + constructor; assumption.
    + intros HA HS. constructor; [apply Hc; auto | auto].
    + change (Forall (fun e => is_turn_event e = true)
                ((EvToolUse tu :: tail) ++ evs)).
      apply Forall_app. split; assumption.
Qed.

Lemma dispatch_run_results toolCalls evs ms :
  dispatch_run answered stored toolCalls evs ms ->
  Forall (fun m => is_tool_result m = true) ms /\
  subsequence (map result_id ms)
              (map request_id (filter parseable toolCalls)) /\
  (answered ->
   map result_id ms = map request_id (filter parseable toolCalls)).
Proof.
  induction 1 as [|toolCall rest evs ms Hp _ IH
                  |toolCall rest o evs1 ms1 evs ms Hp Hrun Ha Hs Hd IH].
  - simpl. repeat split; constructor.
  - simpl. rewrite Hp. exact IH.
  - destruct IH as (IH1 & IH2 & IH3).
    simpl. rewrite Hp. simpl.
    destruct (tool_use_run_results _ _ _ _ Hrun) as [-> | [c ->]]; simpl.
    + repeat split; auto.
      * now apply sub_drop.
      * intros HA. now destruct (Ha HA).
    + repeat split.
      * constructor; auto.
      * now apply sub_keep.
      * intros HA. now rewrite IH3.
Qed.

End Dispatch.

(** ** C1 and C2: the events and the results of a turn *)

Section Turn.
Context {W : Type} `{Runtime} `{Config} `{Collaborators W}.

Lemma followers_turn (texts : list string) (evs : list StreamEvent) :
  followers (map EvChunk texts ++ EvMessageComplete :: evs) = followers evs.
Proof. rewrite followers_app; [reflexivity|apply no_tool_use_chunks]. Qed.

Lemma count_tool_use_turn (texts : list string) (evs : list StreamEvent) :
  count is_tool_use (map EvChunk texts ++ EvMessageComplete :: evs)
  = count is_tool_use evs.
Proof.
  rewrite count_app, (count_none _ _ (no_tool_use_chunks texts)).
  reflexivity.
Qed.

(** C1 (amended): in every turn of the loop, the number of [tool_use]
    events equals the number of tool-call requests of the completion's
    final message whose arguments parse as JSON (a request with malformed
    arguments is skipped without an event).  Each [tool_use] event is
    followed, before the next [tool_use] event and before the next
    completion call (the turn makes one completion call, its first
    action), by at most one [auth_required] and then at most one
    [new_message]; when every tool invocation returns a well-formed
    response and the store accepts the results, by exactly one
    [new_message], alone or preceded by [auth_required]. *)
Theorem tool_use_events_of_a_turn conversationId messages promptType tools
    (st st' : Session W) (response : Response) (out : list Obs) :
  streamConversation messages promptType tools
    (chat_handlers conversationId) st = (Normal response, st', out) ->
  count is_tool_use (sent out)
    = length (filter parseable (tool_call_requests (rs_message response))) /\
  length (followers (sent out)) = count is_tool_use (sent out) /\
  Forall follow_up (followers (sent out)) /\
  (tools_answer -> store_accepts_results ->
   Forall completed_follow_up (followers (sent out))) /\
  (exists request rest, out = Requested request :: rest /\ requests rest = []).
Proof.
  intros E.
  destruct (streamConversation_runs conversationId messages promptType tools st)
    as (o & st1 & out1 & E1 & (request & rest & -> & Hr & _) & Ho & _).
  rewrite E in E1. inversion E1; subst o st1 out. clear E1.
  destruct Ho as (texts & evs & ms & Hs & Hd & _).
  rewrite Hs, followers_turn, count_tool_use_turn.
  destruct (dispatch_run_events _ _ _ _ _ Hd) as (H1' & H2' & H3' & H4' & _).
  repeat split; auto; try congruence.
  exists request, rest. auto.
Qed.

(** C2 (amended): in every turn, the final assistant message is appended
    to the working history and only tool results come behind it before the
    next completion call: at most one per request, in request order, each
    under the correlation id of a request whose arguments parse as JSON.
    A request whose arguments do not parse gets no result.  When every
    tool invocation returns a well-formed response there is exactly one
    result for each request whose arguments parse. *)
Theorem tool_results_of_a_turn conversationId messages promptType tools
    (st st' : Session W) (response : Response) (out : list Obs) :
  streamConversation messages promptType tools
    (chat_handlers conversationId) st = (Normal response, st', out) ->
  exists results,
    conversationHistory st'
      = conversationHistory st ++ Assistant (rs_message response) :: results /\
    Forall (fun m => is_tool_result m = true) results /\
    length results <= length (tool_call_requests (rs_message response)) /\
    subsequence
      (map result_id results)
      (map request_id
         (filter parseable (tool_call_requests (rs_message response)))) /\
    (tools_answer ->
     map result_id results
       = map request_id
           (filter parseable (tool_call_requests (rs_message response)))) /\
    (exists request rest, out = Requested request :: rest /\ requests rest = []).
Proof.
  intros E.
  destruct (streamConversation_runs conversationId messages promptType tools st)
    as (o & st1 & out1 & E1 & (request & rest & -> & Hr & _) & Ho & _).
  rewrite E in E1. inversion E1; subst o st1 out. clear E1.
  destruct Ho as (texts & evs & ms & _ & Hd & Hh).
  destruct (dispatch_run_results _ _ _ _ _ Hd) as (H1' & H2' & H3').
  exists ms. repeat split; auto.
  - apply subsequence_length in H2'. rewrite !length_map in H2'.
    pose proof (filter_length_le parseable
                  (tool_call_requests (rs_message response))).
    lia.
  - exists request, rest. auto.
Qed.

End Turn.


(* ================================================================== *)
(** * The loop and the chat session *)
(* ================================================================== *)

Section SessionRuns.
Context {W : Type} `{Runtime} `{Config} `{Collaborators W}.

Lemma turn_events_chunks (texts : list string) :
  turn_events (map EvChunk texts).
Proof. induction texts; constructor; auto. Qed.

Lemma conversation_loop_runs conversationId promptType (n : nat)
    (st : Session W) :
  exists o st' out,
    conversation_loop conversationId promptType n st = (o, st', out) /\
    turn_events (sent out) /\
    length (requests out) <= n /\
    (completions_answer -> o = Normal tt).
Proof.
  revert st. induction n as [|n IH]; intros st.
  - exists (Normal tt), st, []. simpl. repeat split; auto. constructor.
  - simpl. unfold bind, read_history, read_world. simpl.
    destruct (streamConversation_runs conversationId (conversationHistory st)
                promptType (mcp_tools (world st)) st)
      as (o & st1 & out1 & E1 & (request & rest & -> & Hr & _) & Ho & Hc).
    rewrite E1.
    destruct o as [response|e].
    + destruct Ho as (texts & evs & ms & Hs & Hd & _).
      assert (Ht : turn_events (sent (Requested request :: rest))).
      { rewrite Hs. apply Forall_app. split; [apply turn_events_chunks|].
        constructor; [reflexivity|].
        apply (dispatch_run_events _ _ _ _ _ Hd). }
      destruct (am_tool_calls (rs_message response)) as [[|tc tcs]|].
      * do 3 eexists. split; [reflexivity|].
        rewrite app_nil_r. simpl. rewrite Hr. simpl.
        repeat split; auto. lia.
      * destruct (IH st1) as (o2 & st2 & out2 & E2 & Ht2 & Hl2 & Hc2).
        rewrite E2. do 3 eexists. split; [reflexivity|].
        rewrite sent_app, requests_app. simpl requests.
        rewrite Hr. simpl length.
        repeat split; auto.
        -- apply Forall_app. split; assumption.
        -- lia.
      * do 3 eexists. split; [reflexivity|].
        rewrite app_nil_r. simpl. rewrite Hr. simpl.
        repeat split; auto. lia.
    + destruct Ho as (texts & Hs & _).
      do 3 eexists. split; [reflexivity|].
      simpl requests. rewrite Hr. simpl length.
      repeat split; auto.
      * rewrite Hs. apply turn_events_chunks.
      * lia.
      * intros Ha. destruct (Hc Ha). discriminate.
Qed.


Lemma bind_normal {A B} (m : M W A) (k : A -> M W B) (st st1 : Session W)
    (a : A) (out1 : list Obs) :
  m st = (Normal a, st1, out1) ->
  bind m k st = (let '(o, st2, out2) := k a st1 in (o, st2, out1 ++ out2)).
Proof. unfold bind. intros ->. destruct (k a st1) as [[o st2] out2]. reflexivity. Qed.

Lemma bind_throw {A B} (m : M W A) (k : A -> M W B) (st st1 : Session W)
    (e : value) (out1 : list Obs) :
  m st = (Throw e, st1, out1) -> bind m k st = (Throw e, st1, out1).
Proof. unfold bind. intros ->. reflexivity. Qed.

Lemma catch_rethrow {A} (m : M W A) (st : Session W) :
  catch m (fun error => throw error) st = m st.
Proof.
  unfold catch, throw. destruct (m st) as [[[a|e] st1] out1];
    rewrite ?app_nil_r; reflexivity.
Qed.

(** Connecting to the tool servers never fails the request and sends
    nothing. *)
Lemma connect_runs (st : Session W) :
  exists w out,
    catch (call Connected connectToStorefrontServer ;;
           call Connected connectToCustomerServer)
          (fun _ => ret tt) st
    = (Normal tt,
       {| world := w; conversationHistory := conversationHistory st;
          productsToDisplay := productsToDisplay st |}, out) /\
    sent out = [] /\ requests out = [].
Proof.
  unfold catch, bind, call, ret.
  destruct (connectToStorefrontServer (world st)) as [[[]|e] w0]; simpl.
  - destruct (connectToCustomerServer w0) as [[[]|e] w1]; simpl;
      do 2 eexists; split; try reflexivity; auto.
  - do 2 eexists; split; try reflexivity; auto.
Qed.

Lemma handleChatSession_runs userMessage conversationId promptType
    (st : Session W) :
  exists o st' out,
    handleChatSession userMessage conversationId promptType st
      = (o, st', out) /\
    session_effect conversationId o st' out.
Proof.
  unfold session_effect, handleChatSession.
  rewrite catch_rethrow.
  erewrite bind_normal by reflexivity.
  destruct (connect_runs st) as (w0 & out0 & E0 & Hs0 & Hr0).
  erewrite bind_normal by exact E0.
  erewrite bind_normal by reflexivity.
  cbn [world conversationHistory productsToDisplay].
  match goal with
  | |- context [bind (call ?obs ?op) ?k ?s] =>
      destruct (op (world s)) as [[[]|e] w1] eqn:Esave;
      [ erewrite (bind_normal (call obs op) k s)
          by (unfold call; rewrite Esave; reflexivity)
      | erewrite (bind_throw (call obs op) k s)
          by (unfold call; rewrite Esave; reflexivity) ]
  end.
  2:{ do 3 eexists. split; [reflexivity|].
      rewrite !sent_app, !requests_app, Hs0, Hr0. simpl.
      split; [lia|]. split.
      - exists []. split; [constructor|reflexivity].
      - intros Hu _. cbn [world] in Esave.
        destruct (Hu conversationId (Some userMessage) w0) as [w' Eu].
        congruence. }
  cbn [world conversationHistory productsToDisplay].
  match goal with
  | |- context [bind (getTruncatedHistory ?c) ?k ?s] =>
      destruct (getTruncatedHistory_run c s)
        as (msgs & st2 & out2 & E2 & Hh2 & Hp2 & -> & _);
      erewrite (bind_normal (getTruncatedHistory c) k s) by exact E2
  end.
  erewrite bind_normal by reflexivity.
  erewrite bind_normal by reflexivity.
  cbn [world conversationHistory productsToDisplay].
  match goal with
  | |- context [bind (conversation_loop ?c ?p ?n) ?k ?s] =>
      destruct (conversation_loop_runs c p n s)
        as (o3 & st3 & out3 & E3 & Ht3 & Hl3 & Hc3);
      destruct o3 as [[]|e];
      [ erewrite (bind_normal (conversation_loop c p n) k s) by exact E3
      | erewrite (bind_throw (conversation_loop c p n) k s) by exact E3 ]
  end.
  - erewrite bind_normal by reflexivity.
    erewrite bind_normal by reflexivity.
    unfold sendMessage, ret, flushed.
    destruct (0 <? length (productsToDisplay st3))%nat eqn:Ep;
      (do 3 eexists; split; [reflexivity|];
       rewrite !sent_app, !requests_app, Hs0, Hr0; simpl;
       rewrite ?sent_app, ?requests_app; simpl; rewrite ?app_nil_r;
       split; [exact Hl3|]; split;
       [ exists (sent out3); split; [exact Ht3|]; rewrite ?Ep; reflexivity
       | reflexivity ]).
  - do 3 eexists. split; [reflexivity|].
    rewrite !sent_app, !requests_app, Hs0, Hr0. simpl.
    split; [exact Hl3|]. split.
    + exists (sent out3). split; [exact Ht3|reflexivity].
    + intros _ Ha. exact (Hc3 Ha).
Qed.
End SessionRuns.


(* ================================================================== *)
(** * The event stream of a request *)
(* ================================================================== *)

Lemma turn_event_kinds (e : StreamEvent) :
  is_turn_event e = true ->
  is_end_turn e = false /\ is_product_results e = false.
Proof. destruct e; simpl; auto; discriminate. Qed.


Lemma after_end_turn_turns (evs tail : list StreamEvent) :
  turn_events evs ->
  after_end_turn (evs ++ EvEndTurn :: tail) = tail.
Proof.
  induction 1 as [|e evs He _ IH]; simpl; [reflexivity|].
  destruct e; try discriminate; exact IH.
Qed.



Section Session.
Context {W : Type} `{Runtime} `{Config} `{Collaborators W}.



(** C3 (amended): for every request that runs to its end with products
    gathered, a single [product_results] event carrying all the gathered
    products is sent immediately after [end_turn], as the last event of
    the request; none is sent before [end_turn]. *)
Theorem product_results_follow_end_turn userMessage conversationId promptType
    (st st' : Session W) (out : list Obs) :
  handleChatSession userMessage conversationId promptType st
    = (Normal tt, st', out) ->
  productsToDisplay st' <> [] ->
  exists evs,
    sent out = EvId conversationId :: evs ++
               [EvEndTurn; EvProductResults (productsToDisplay st')] /\
    Forall (fun e => is_end_turn e = false /\ is_product_results e = false)
           evs /\
    after_end_turn (sent out) = [EvProductResults (productsToDisplay st')].
Proof.
  intros E Hp.
  destruct (handleChatSession_runs userMessage conversationId promptType st)
    as (o1 & st1 & out1 & E1 & _ & (evs & Ht & Hs) & _).
  rewrite E in E1. inversion E1; subst o1 st1 out1. clear E1.
  assert (Hf : flushed (productsToDisplay st')
               = [EvProductResults (productsToDisplay st')]).
  { unfold flushed. destruct (productsToDisplay st'); [contradiction|reflexivity]. }
  rewrite Hf in Hs. exists evs. rewrite Hs. repeat split.
  - eapply Forall_impl; [|exact Ht]. intros e. apply turn_event_kinds.
  - simpl. apply after_end_turn_turns. exact Ht.
Qed.


End Session.


(* ================================================================== *)
(** * The content of a tool result *)
(* ================================================================== *)

Section ToolResultContent.
Context {W : Type} `{Runtime} `{Config} `{Collaborators W}.





End ToolResultContent.


(* ================================================================== *)
(** * The program on concrete requests *)
(* ================================================================== *)

Section ReferenceWorld.
Import Ref Scenario.

(** In the scenarios the tools answer with well-formed responses, the store
    accepts what it is given and the completion service answers. *)
Lemma scripted_tools_answer (s : Script) (r : value) :
  (forall name args, tool s name args = Normal r) ->
  well_formed_response r ->
  @tools_answer World (collaborators s).
Proof.
  intros Ht Hr name args w. exists r, w. simpl. rewrite Ht. auto.
Qed.

Lemma search_response_well_formed : well_formed_response search_response.
Proof.
  eexists. split; [reflexivity|]. simpl.
  repeat constructor; eexists; reflexivity.
Qed.

Lemma scripted_store_accepts_results (s : Script) :
  store_rejects s "tool" = false ->
  @store_accepts_results World (collaborators s).
Proof.
  intros Hs conversationId content w. simpl. rewrite Hs. eauto.
Qed.



(** ** C1 *)

(** C1, as worded, fails on a turn with two requests, the first with
    arguments that are not JSON and the second answered by an
    [auth_required] error: one [tool_use] event for two requests, followed
    by both [auth_required] and [new_message]. *)
Lemma two_requests_one_tool_use_two_follow_ups :
  exists response st' out,
    turn two_calls (asks "where is my order")
      = (Normal response, st', out) /\
    sent out = [EvMessageComplete;
                EvToolUse "Calling tool: get_orders with arguments: {}";
                EvAuthRequired; EvNewMessage] /\
    length (tool_call_requests (rs_message response)) = 2 /\
    ~ one_tool_use_per_request response (sent out) /\
    ~ Forall exactly_one_follow_up (followers (sent out)).
Proof.
  eexists _, _, _. split; [vm_compute; reflexivity|].
  split; [reflexivity|]. split; [reflexivity|]. split.
  - unfold one_tool_use_per_request. vm_compute. discriminate.
  - intros F. inversion F as [|f fs Hf _]. vm_compute in Hf. discriminate.
Qed.

Lemma tool_use_events_of_a_turn_witness :
  exists response st' out,
    turn shopping (asks "show me red shoes") = (Normal response, st', out) /\
    count is_tool_use (sent out) = 1 /\
    followers (sent out) = [[EvNewMessage]] /\
    Forall completed_follow_up (followers (sent out)).
Proof.
  destruct (turn shopping (asks "show me red shoes"))
    as [[[response|e] st'] out] eqn:E; [|vm_compute in E; discriminate].
  exists response, st', out. split; [reflexivity|].
  destruct (@tool_use_events_of_a_turn World runtime config
              (collaborators shopping) "c1" (asks "show me red shoes")
              "standardAssistant" (tools shopping)
              (working (asks "show me red shoes")) st' response out E)
    as (H1 & H2 & H3 & H4 & H5).
  assert (Ht : @tools_answer World (collaborators shopping)).
  { apply scripted_tools_answer with search_response;
      [reflexivity|apply search_response_well_formed]. }
  assert (Hs : @store_accepts_results World (collaborators shopping)).
  { apply scripted_store_accepts_results. reflexivity. }
  specialize (H4 Ht Hs).
  vm_compute in E. inversion E; subst.
  split; [rewrite H1; reflexivity|]. split; [reflexivity|exact H4].
Defined.

(** ** C2 *)

(** C2, as worded, fails on a turn whose single request has arguments that
    are not JSON: the call is skipped and no result is appended, so the
    working history ends with the assistant message. *)
Lemma malformed_arguments_leave_no_result :
  exists response st' out,
    turn malformed (asks "hi") = (Normal response, st', out) /\
    length (tool_call_requests (rs_message response)) = 1 /\
    conversationHistory st' = asks "hi" ++ [Assistant (rs_message response)] /\
    ~ one_result_per_request response (asks "hi") (conversationHistory st').
Proof.
  eexists _, _, _. split; [vm_compute; reflexivity|].
  split; [reflexivity|]. split; [reflexivity|].
  unfold one_result_per_request. vm_compute. discriminate.
Qed.

Lemma tool_results_of_a_turn_witness :
  exists response st' out,
    turn shopping (asks "show me red shoes") = (Normal response, st', out) /\
    exists content,
      conversationHistory st'
      = asks "show me red shoes" ++
        [Assistant (rs_message response);
         ToolResult (Some "call_1") content].
Proof.
  destruct (turn shopping (asks "show me red shoes"))
    as [[[response|e] st'] out] eqn:E; [|vm_compute in E; discriminate].
  exists response, st', out. split; [reflexivity|].
  destruct (@tool_results_of_a_turn World runtime config
              (collaborators shopping) "c1" (asks "show me red shoes")
              "standardAssistant" (tools shopping)
              (working (asks "show me red shoes")) st' response out E)
    as (results & Hh & Hr & Hl & Hsub & Hall & _).
  assert (Ht : @tools_answer World (collaborators shopping)).
  { apply scripted_tools_answer with search_response;
      [reflexivity|apply search_response_well_formed]. }
  specialize (Hall Ht).
  vm_compute in E. inversion E; subst. clear E.
  simpl in Hh, Hall.
  destruct results as [|m [|m' ms]]; try discriminate.
  inversion Hr as [|? ? Hm _]; subst.
  destruct m as [| |id content]; try discriminate.
  simpl in Hall. inversion Hall; subst.
  exists content. simpl. simpl in Hh. simpl. exact Hh.
Defined.

(** ** C3 *)

(** C3, as worded, fails on the specification's own example: the products
    are sent after [end_turn]. *)
Lemma products_sent_after_end_turn :
  exists st' out products,
    chat shopping "show me red shoes" [] = (Normal tt, st', out) /\
    after_end_turn (sent out) = [EvProductResults products] /\
    length products = 3 /\
    ~ no_products_after_end_turn (sent out).
Proof.
  eexists _, _, _. split; [vm_compute; reflexivity|].
  split; [reflexivity|]. split; [reflexivity|].
  unfold no_products_after_end_turn. vm_compute. discriminate.
Qed.

Lemma product_results_follow_end_turn_witness :
  exists st' out evs,
    chat shopping "show me red shoes" [] = (Normal tt, st', out) /\
    length (productsToDisplay st') = 3 /\
    sent out = EvId "c1" :: evs ++
               [EvEndTurn; EvProductResults (productsToDisplay st')].
Proof.
  destruct (chat shopping "show me red shoes" [])
    as [[[[]|e] st'] out] eqn:E; [|vm_compute in E; discriminate].
  assert (Hp : length (productsToDisplay st') = 3).
  { vm_compute in E. inversion E; subst. reflexivity. }
  assert (Hn : productsToDisplay st' <> []).
  { intros Hn. rewrite Hn in Hp. discriminate. }
  destruct (@product_results_follow_end_turn World runtime config
              (collaborators shopping) "show me red shoes" "c1"
              "standardAssistant" (start []) st' out E Hn)
    as (evs & Hs & _ & _).
  exists st', out, evs. auto.
Defined.

(** ** C4 *)



(** ** C5 *)



(** ** C6 *)

(** Of nine stored messages the last four of role user or assistant are
    kept; the system prompt, the tool result and the assistant message of
    [tool_use] markers are not among the candidates. *)
Example last_four_messages_kept :
  fst (fst (load shopping long_conversation))
  = Normal [Msg (VString "user") (VString "show me red shoes");
            Msg (VString "assistant") (VString "Here are three red shoes.");
            Msg (VString "user") (VString "thanks");
            Msg (VString "assistant") (VString "Welcome.")].
Proof. vm_compute. reflexivity. Qed.

(** ** C7 *)

(** C7 fails on the code.  The loop stores an assistant message that
    carries only tool calls as the JSON of its [tool_calls], whose elements
    have [type] ['function']; the truncation drops an assistant message
    only when every element has [type] ['tool_use'].  After the
    specification's example request the stored tool-call message is
    therefore part of the truncated history. *)
Lemma tool_call_only_message_survives_truncation :
  exists st' out,
    chat shopping "show me red shoes" [] = (Normal tt, st', out) /\
    In ("c1", stored "assistant" (Some search_call_record)) (world st') /\
    fst (fst (load shopping (world st')))
    = Normal [Msg (VString "user") (VString "show me red shoes");
              Msg (VString "assistant") (VString search_call_record);
              Msg (VString "assistant")
                  (VString "Here are three red shoes.")].
Proof.
  eexists _, _. split; [vm_compute; reflexivity|]. split.
  - vm_compute. right. left. reflexivity.
  - vm_compute. reflexivity.
Qed.

(** ** C8 *)


(** ** C9 *)

Lemma processProductSearchResult_witness :
  products_of_payload (H := runtime) garbled_response = None /\
  @processProductSearchResult runtime config garbled_response = Normal [].
Proof.
  split; [reflexivity|].
  destruct (@processProductSearchResult_total_and_bounded runtime config
              garbled_response) as (products & E & _ & Hnil).
  rewrite E. f_equal. apply Hnil. reflexivity.
Defined.

(** Of twelve products found, ten are shown. *)
Example ten_of_twelve_products_shown :
  exists products,
    @processProductSearchResult runtime config long_response
    = Normal products /\ length products = 10.
Proof. eexists. split; vm_compute; reflexivity. Qed.

(** ** C10 *)

Lemma getTruncatedHistory_never_throws_witness :
  exists st' out,
    load unreadable [("c1", stored "user" (Some "hello"))]
    = (Normal [], st', out).
Proof.
  destruct (@getTruncatedHistory_never_throws World runtime
              (collaborators unreadable) "c1"
              (start [("c1", stored "user" (Some "hello"))]))
    as (msgs & st' & out & E & Hread & _).
  exists st', out. rewrite E.
  rewrite (Hread (VString "StoreError")
             [("c1", stored "user" (Some "hello"))] eq_refl).
  reflexivity.
Defined.

End ReferenceWorld.


(* ================================================================== *)
(** * The reassembly of tool calls from the stream *)
(* ================================================================== *)

Lemma append_nil_r (s : string) : s ^^ "" = s.
Proof. induction s as [|c s IH]; simpl; congruence. Qed.

Lemma append_assoc (a b c : string) : (a ^^ b) ^^ c = a ^^ (b ^^ c).
Proof. induction a as [|x a IH]; simpl; congruence. Qed.

Lemma concat_empty_cons (t : string) (ts : list string) :
  String.concat "" (t :: ts) = t ^^ String.concat "" ts.
Proof. destruct ts; simpl; [now rewrite append_nil_r | reflexivity]. Qed.

Lemma concat_empty_app (a b : list string) :
  String.concat "" (a ++ b) = String.concat "" a ^^ String.concat "" b.
Proof.
  induction a as [|t a IH]; [reflexivity|].
  change ((t :: a) ++ b) with (t :: (a ++ b)).
  now rewrite !concat_empty_cons, IH, append_assoc.
Qed.

(** The indexed write of an array with holes. *)
Lemma array_set_length {A} (xs : list (option A)) (i : nat) (x : A) :
  length (array_set xs i x) = Nat.max (length xs) (S i).
Proof.
  unfold array_set. destruct (i <? length xs)%nat eqn:E.
  - apply Nat.ltb_lt in E.
    rewrite length_app, length_firstn.
    change (length (Some x :: skipn (S i) xs))
      with (S (length (skipn (S i) xs))).
    rewrite length_skipn. lia.
  - apply Nat.ltb_ge in E.
    rewrite !length_app, repeat_length. simpl. lia.
Qed.

Lemma array_set_same {A} (xs : list (option A)) (i : nat) (x : A) :
  nth i (array_set xs i x) None = Some x.
Proof.
  unfold array_set. destruct (i <? length xs)%nat eqn:E.
  - apply Nat.ltb_lt in E.
    rewrite app_nth2; rewrite length_firstn; [|lia].
    replace (i - Nat.min i (length xs)) with 0 by lia. reflexivity.
  - apply Nat.ltb_ge in E.
    rewrite app_nth2 by lia. rewrite app_nth2; rewrite repeat_length; [|lia].
    replace (i - length xs - (i - length xs)) with 0 by lia. reflexivity.
Qed.

Lemma array_set_other {A} (xs : list (option A)) (i j : nat) (x : A) :
  j <> i -> nth j (array_set xs i x) None = nth j xs None.
Proof.
  intros Hj. unfold array_set. destruct (i <? length xs)%nat eqn:E.
  - apply Nat.ltb_lt in E.
    destruct (Nat.lt_ge_cases j i) as [Hlt|Hge].
    + rewrite app_nth1 by (rewrite length_firstn; lia).
      now rewrite nth_firstn, (proj2 (Nat.ltb_lt j i) Hlt).
    + rewrite app_nth2 by (rewrite length_firstn; lia).
      rewrite length_firstn.
      replace (j - Nat.min i (length xs)) with (S (j - S i)) by lia.
      cbn [nth]. rewrite nth_skipn. f_equal. lia.
  - apply Nat.ltb_ge in E.
    destruct (Nat.lt_ge_cases j (length xs)) as [Hlt|Hge].
    + now rewrite app_nth1.
    + rewrite app_nth2 by lia. rewrite (nth_overflow xs) by lia.
      destruct (Nat.lt_ge_cases (j - length xs) (i - length xs)) as [Hl|Hg].
      * rewrite app_nth1 by (rewrite repeat_length; lia).
        apply nth_repeat.
      * rewrite app_nth2 by (rewrite repeat_length; lia).
        rewrite repeat_length.
        destruct (j - length xs - (i - length xs)) as [|k] eqn:Ek; [lia|].
        simpl. now destruct k.
Qed.

Lemma accumulate_updated (toolCalls : list (option ToolCall))
    (d : ToolCallDelta) :
  accumulate toolCalls d
  = array_set toolCalls (tcd_index d)
      (updated (nth (tcd_index d) toolCalls None) d).
Proof.
  unfold accumulate, updated, delta_name, delta_arguments, nonempty.
  f_equal.
  set (base := match nth (tcd_index d) toolCalls None with
               | Some tc => tc
               | None => _
               end).
  destruct (tcd_function d) as [[[n|] [a|]]|]; simpl;
    try destruct (n =? ""); try destruct (a =? "") eqn:Ea; simpl;
    rewrite ?append_nil_r; try reflexivity.
  all: clearbody base;
    try (apply String.eqb_eq in Ea; subst a; rewrite append_nil_r);
    destruct base; reflexivity.
Qed.

(** X1: a tool-call fragment changes only the entry at its own index: the
    array never shrinks, it reaches up to that index, the entry at the index
    is filled, and every other entry (or hole) is as before. *)
Theorem accumulate_touches_own_index (toolCalls : list (option ToolCall))
    (d : ToolCallDelta) :
  length (accumulate toolCalls d)
    = Nat.max (length toolCalls) (S (tcd_index d)) /\
  (exists tc, nth (tcd_index d) (accumulate toolCalls d) None = Some tc) /\
  (forall j, j <> tcd_index d ->
             nth j (accumulate toolCalls d) None = nth j toolCalls None).
Proof.
  rewrite accumulate_updated. split; [apply array_set_length|]. split.
  - eexists. apply array_set_same.
  - intros j Hj. now apply array_set_other.
Qed.

Lemma last_name_cons (base : string) (d : ToolCallDelta)
    (ds : list ToolCallDelta) :
  last_name base (d :: ds)
  = last_name (match delta_name d with Some n => n | None => base end) ds.
Proof. reflexivity. Qed.

(** X2: the entry reassembled at an index depends on the fragments of that
    index only, in their order of arrival: with no fragment it is as
    before; otherwise its id is the one it had, or that of the first
    fragment, its name is the last non-empty name, and its arguments are
    the earlier arguments followed by the pieces of all the fragments. *)
Theorem tool_call_reassembled (ds : list ToolCallDelta)
    (toolCalls : list (option ToolCall)) (i : nat) :
  nth i (fold_left accumulate ds toolCalls) None
  = match filter (at_index i) ds with
    | [] => nth i toolCalls None
    | first :: _ =>
        let base := match nth i toolCalls None with
                    | Some tc => tc
                    | None => {| tc_id := tcd_id first; tc_name := "";
                                 tc_arguments := "" |}
                    end in
        Some {| tc_id := tc_id base;
                tc_name := last_name (tc_name base) (filter (at_index i) ds);
                tc_arguments :=
                  tc_arguments base ^^
                  String.concat "" (map delta_arguments
                                      (filter (at_index i) ds)) |}
    end.
Proof.
  revert toolCalls. induction ds as [|d ds IH]; intros toolCalls.
  - reflexivity.
  - simpl fold_left. rewrite IH. simpl filter.
    destruct (at_index i d) eqn:E; unfold at_index in E.
    + apply Nat.eqb_eq in E. subst i.
      rewrite accumulate_updated, array_set_same.
      cbv beta iota zeta.
      rewrite last_name_cons.
      change (map delta_arguments (d :: filter (at_index (tcd_index d)) ds))
        with (delta_arguments d
              :: map delta_arguments (filter (at_index (tcd_index d)) ds)).
      rewrite concat_empty_cons.
      destruct (filter (at_index (tcd_index d)) ds) as [|d' own].
      * unfold updated. simpl. now rewrite append_nil_r.
      * unfold updated. cbv beta iota zeta.
        destruct (nth (tcd_index d) toolCalls None) as [tc|];
          cbn [tc_id tc_name tc_arguments];
          now rewrite append_assoc.
    + apply Nat.eqb_neq in E.
      rewrite accumulate_updated, array_set_other by congruence.
      reflexivity.
Qed.


(* ================================================================== *)
(** * The consumption of the provider's stream *)
(* ================================================================== *)

Section StreamConsumption.
Context {W : Type} `{Runtime} `{Config} `{Collaborators W}.

(** X3: the chunk loop stops at the first chunk that carries a finish
    reason: whatever the handlers, the chunks behind it are not read, and
    a failure the stream would raise behind it is not raised. *)
Theorem nothing_is_read_after_the_finish_reason (handlers : StreamHandlers W)
    (chunks : list Chunk) (failure : option value) (content : string)
    (toolCalls : list (option ToolCall)) (st : Session W) :
  consume handlers chunks failure content toolCalls st
  = consume handlers (processed chunks)
      (if existsb finishes chunks then None else failure)
      content toolCalls st.
Proof.
  revert content toolCalls st.
  induction chunks as [|chunk rest IH]; intros content toolCalls st.
  - reflexivity.
  - cbn [processed existsb]. unfold finishes at 1 2.
    destruct (nonempty (match ck_choice0 chunk with
                        | Some ch => ch_finish_reason ch
                        | None => None
                        end)) as [reason|] eqn:E.
    + cbn [orb consume]. rewrite E. unfold bind.
      match goal with
      | |- match ?m st with _ => _ end = _ => destruct (m st) as [[[[]|e] st1] out1]
      end; reflexivity.
    + cbn [orb consume]. rewrite E. unfold bind.
      match goal with
      | |- match ?m st with _ => _ end = _ => destruct (m st) as [[[[]|e] st1] out1]
      end; [|reflexivity].
      now rewrite IH.
Qed.

Lemma fold_left_accumulate_app (a b : list ToolCallDelta)
    (toolCalls : list (option ToolCall)) :
  fold_left accumulate (a ++ b) toolCalls
  = fold_left accumulate b (fold_left accumulate a toolCalls).
Proof. apply fold_left_app. Qed.

(** What the chunk loop of the chat route comes to. *)
Lemma consume_result conversationId (chunks : list Chunk)
    (failure : option value) (content : string)
    (toolCalls : list (option ToolCall)) (st : Session W) :
  consume (chat_handlers conversationId) chunks failure content toolCalls st
  = (match existsb finishes chunks, failure with
     | false, Some e => Throw e
     | _, _ =>
         Normal (content ^^ String.concat "" (streamed_texts chunks),
                 fold_left accumulate (streamed_deltas chunks) toolCalls)
     end,
     st, map (fun t => Sent (EvChunk t)) (streamed_texts chunks)).
Proof.
  revert content toolCalls.
  induction chunks as [|chunk rest IH]; intros content toolCalls.
  - simpl. destruct failure; unfold throw, ret; simpl;
      now rewrite ?append_nil_r.
  - cbn [consume existsb]. unfold bind.
    unfold streamed_texts, streamed_deltas. cbn [processed].
    fold (chunk_delta chunk).
    destruct (finishes chunk) eqn:Ef; unfold finishes in Ef;
      destruct (nonempty (match ck_choice0 chunk with
                          | Some ch => ch_finish_reason ch
                          | None => None
                          end)) as [reason|] eqn:E; try discriminate;
      cbn [orb texts_of flat_map]; unfold chunk_text, chunk_tool_deltas;
      destruct (chunk_delta chunk) as [[c ds]|]; cbn -[String.concat].
    + destruct (nonempty c) as [t|]; cbn -[String.concat];
        unfold chat_onText, sendMessage, ret; cbn -[String.concat];
        rewrite ?app_nil_r, ?concat_empty_cons, ?append_nil_r;
        destruct ds; reflexivity.
    + unfold ret. cbn. now rewrite append_nil_r.
    + destruct (nonempty c) as [t|]; cbn -[String.concat];
        unfold chat_onText, sendMessage, ret; cbn -[String.concat];
        rewrite IH; unfold streamed_texts, streamed_deltas;
        rewrite ?fold_left_accumulate_app;
        destruct ds as [ds|]; cbn -[String.concat];
        rewrite ?concat_empty_cons, ?append_assoc; reflexivity.
    + unfold ret. cbn -[String.concat]. rewrite IH. reflexivity.
Qed.

End StreamConsumption.


(* ================================================================== *)
(** * What a run leaves behind *)
(* ================================================================== *)

Section ProductLists.
Context `{Runtime} `{Config}.

(** The formatted products, or none when one of them cannot be formatted. *)
Lemma formatted_products (xs : list value) :
  try_catch (map_t formatProductData (slice_to product_limit xs))
            (fun _ => Normal [])
  = Normal (match map_t formatProductData (slice_to product_limit xs) with
            | Normal shown => shown
            | Throw _ => []
            end).
Proof. destruct (map_t _ _); reflexivity. Qed.

Lemma products_of_data (d : value) :
  try_catch
    (products <-! get_opt d "products";
     (if truthy products && Array_isArray products
      then xs <-! as_array products;
           map_t formatProductData (slice_to product_limit xs)
      else Normal []))
    (fun _ => Normal [])
  = Normal (match d with
            | VObject fs =>
                match lookup "products" fs with
                | VArray xs =>
                    match map_t formatProductData
                            (slice_to product_limit xs) with
                    | Normal shown => shown
                    | Throw _ => []
                    end
                | _ => []
                end
            | _ => []
            end).
Proof.
  destruct d as [| |b|n|s|l|fs]; simpl; try reflexivity.
  destruct (lookup "products" fs) as [| |b|n|s|xs|gs]; simpl;
      try reflexivity.
  - destruct b; reflexivity.
  - destruct (negb (is_zero n)); reflexivity.
  - destruct (negb (s =? "")); reflexivity.
  - apply formatted_products.
Qed.

Lemma append_space_nonempty (a b : string) : a ^^ " " ^^ b <> "".
Proof. destruct a; discriminate. Qed.

Lemma or_else_truthy (a b : value) :
  truthy b = true -> truthy (or_else a b) = true.
Proof. unfold or_else. destruct (truthy a) eqn:E; auto. Qed.

Lemma or_else_filled (a : value) : filled_or_empty (or_else a (VString "")).
Proof.
  unfold filled_or_empty, or_else. destruct (truthy a) eqn:E; auto.
Qed.

Lemma formatProductData_card (product card : value) :
  formatProductData product = Normal card -> complete_card card.
Proof.
  unfold formatProductData, complete_card.
  destruct (get product "price_range") as [price_range|e]; simpl;
    [|discriminate].
  assert (Hcard : forall price,
    price <> "" ->
    (product_id <-! get product "product_id";
     title <-! get product "title";
     image_url <-! get product "image_url";
     description <-! get product "description";
     url <-! get product "url";
     Normal (VObject
       [("id", or_else product_id
                 (VString ("product-" ^^ Math_random_suffix product)));
        ("title", or_else title (VString "Product"));
        ("price", VString price);
        ("image_url", or_else image_url (VString ""));
        ("description", or_else description (VString ""));
        ("url", or_else url (VString ""))])) = Normal card ->
    exists id title price image_url description url,
      card = VObject [("id", id); ("title", title); ("price", VString price);
                      ("image_url", image_url);
                      ("description", description); ("url", url)] /\
      truthy id = true /\ truthy title = true /\ price <> "" /\
      filled_or_empty image_url /\ filled_or_empty description /\
      filled_or_empty url).
  { intros price Hprice E.
    destruct (get product "product_id") as [product_id|e]; simpl in E;
      [|discriminate].
    destruct (get product "title") as [title|e]; simpl in E; [|discriminate].
    destruct (get product "image_url") as [image_url|e]; simpl in E;
      [|discriminate].
    destruct (get product "description") as [description|e]; simpl in E;
      [|discriminate].
    destruct (get product "url") as [url|e]; simpl in E; [|discriminate].
    inversion E. do 6 eexists. split; [reflexivity|].
    repeat split; auto using or_else_filled;
      apply or_else_truthy; reflexivity. }
  destruct (truthy price_range).
  - destruct (get price_range "currency") as [currency|e]; simpl;
      [|discriminate].
    destruct (get price_range "min") as [min|e]; simpl; [|discriminate].
    apply Hcard, append_space_nonempty.
  - destruct (get product "variants") as [variants|e]; simpl;
      [|discriminate].
    destruct (if truthy variants
              then len <-! get variants "length"; Normal (gt_zero len)
              else Normal false) as [[|]|e]; simpl; [| |discriminate].
    + destruct (get_index variants 0) as [first|e]; simpl; [|discriminate].
      destruct (get first "currency") as [currency|e]; simpl;
        [|discriminate].
      destruct (get first "price") as [price|e]; simpl; [|discriminate].
      apply Hcard, append_space_nonempty.
    + apply Hcard. discriminate.
Qed.

Lemma shown_complete (xs : list value) :
  Forall complete_card
    (match map_t formatProductData (slice_to product_limit xs) with
     | Normal shown => shown
     | Throw _ => []
     end).
Proof.
  destruct (map_t _ _) as [ys|e] eqn:E; [|constructor].
  apply map_t_Forall2 in E.
  induction E as [|x y xs' ys' Hx _ IH]; constructor; auto.
  eapply formatProductData_card; eauto.
Qed.

Lemma shown_bounded (xs : list value) :
  length (match map_t formatProductData (slice_to product_limit xs) with
          | Normal shown => shown
          | Throw _ => []
          end) <= product_limit.
Proof.
  destruct (map_t _ _) as [ys|e] eqn:E; [|simpl; lia].
  apply map_t_length in E. rewrite E. apply slice_to_length.
Qed.

Lemma processProductSearchResult_bounded (toolUseResponse : value) :
  exists products,
    processProductSearchResult toolUseResponse = Normal products /\
    length products <= product_limit /\
    Forall complete_card products.
Proof.
  unfold processProductSearchResult.
  apply try_catch_default
    with (P := fun ps => length ps <= product_limit /\
                         Forall complete_card ps);
    [split; [simpl; lia|constructor]|].
  intros ps E.
  assert (Hnil : length (@nil value) <= product_limit /\
                 Forall complete_card []).
  { split; [simpl; lia|constructor]. }
  destruct (get toolUseResponse "content") as [c|e]; simpl in E;
    [|discriminate].
  destruct (truthy c).
  2:{ simpl in E. inversion E. exact Hnil. }
  destruct (get c "length") as [len|e]; simpl in E; [|discriminate].
  destruct (gt_zero len).
  2:{ inversion E. exact Hnil. }
  destruct (as_array c) as [items|e]; simpl in E; [|discriminate].
  destruct (find_t is_text_item items) as [found|e]; simpl in E;
    [|discriminate].
  destruct (get_opt found "text") as [content|e]; simpl in E; [|discriminate].
  destruct (truthy content).
  2:{ inversion E. exact Hnil. }
  destruct content as [| |b|n|s|l|fs]; simpl in E;
    try (inversion E; exact Hnil).
  - unfold parse in E. destruct (JSON_parse s) as [d|]; simpl in E.
    + rewrite products_of_data in E. inversion E.
      destruct d; try exact Hnil.
      destruct (lookup "products" _); try exact Hnil.
      split; [apply shown_bounded|apply shown_complete].
    + inversion E. exact Hnil.
  - pose proof (products_of_data (VObject fs)) as P. simpl in P.
    rewrite P in E. inversion E.
    destruct (lookup "products" _); try exact Hnil.
    split; [apply shown_bounded|apply shown_complete].
Qed.

End ProductLists.

Lemma saves_app (a b : list Obs) : saves (a ++ b) = saves a ++ saves b.
Proof. induction a as [|[] a IH]; simpl; try rewrite IH; reflexivity. Qed.

Lemma tool_calls_made_app (a b : list Obs) :
  tool_calls_made (a ++ b) = tool_calls_made a ++ tool_calls_made b.
Proof. induction a as [|[] a IH]; simpl; try rewrite IH; reflexivity. Qed.

Lemma searches_app (a b : list Obs) :
  searches (a ++ b) = searches a + searches b.
Proof.
  unfold searches. now rewrite tool_calls_made_app, filter_app, length_app.
Qed.

Lemma chunk_texts_app (a b : list StreamEvent) :
  chunk_texts (a ++ b) = chunk_texts a ++ chunk_texts b.
Proof. induction a as [|[] a IH]; simpl; try rewrite IH; reflexivity. Qed.

Lemma chunk_texts_chunks (texts : list string) :
  chunk_texts (map EvChunk texts) = texts.
Proof. induction texts; simpl; congruence. Qed.

Lemma saves_chunks (texts : list string) :
  saves (map (fun t => Sent (EvChunk t)) texts) = [].
Proof. induction texts; simpl; congruence. Qed.

Lemma tool_calls_made_chunks (texts : list string) :
  tool_calls_made (map (fun t => Sent (EvChunk t)) texts) = [].
Proof. induction texts; simpl; congruence. Qed.

Lemma tool_use_texts_app (a b : list StreamEvent) :
  tool_use_texts (a ++ b) = tool_use_texts a ++ tool_use_texts b.
Proof. induction a as [|[] a IH]; simpl; try rewrite IH; reflexivity. Qed.

Lemma tool_use_texts_chunks (texts : list string) :
  tool_use_texts (map EvChunk texts) = [].
Proof. induction texts; simpl; congruence. Qed.

Section Traces.
Context {W : Type} `{Runtime} `{Config} `{Collaborators W}.

Lemma appends_refl (st : Session W) : appends st st [] [] [].
Proof.
  unfold appends. rewrite !app_nil_r. simpl.
  repeat split; auto. lia.
Qed.

Lemma appends_trans (a b c : Session W) (o1 o2 : list Obs)
    (m1 m2 : list Message) (d1 d2 : list value) :
  appends a b o1 m1 d1 -> appends b c o2 m2 d2 ->
  appends a c (o1 ++ o2) (m1 ++ m2) (d1 ++ d2).
Proof.
  intros (Hh1 & Hp1 & Hs1 & Hl1 & Hc1 & Hu1) (Hh2 & Hp2 & Hs2 & Hl2 & Hc2 & Hu2).
  unfold appends.
  rewrite Hh2, Hh1, Hp2, Hp1, saves_app, Hs1, Hs2, map_app, !app_assoc,
    searches_app, length_app, sent_app, tool_use_texts_app,
    tool_calls_made_app, map_app, Hu1, Hu2.
  repeat split; [lia|now apply Forall_app].
Qed.

(** A step that changes the world only. *)
Lemma appends_world (st : Session W) (w : W) (out : list Obs) :
  saves out = [] -> tool_calls_made out = [] ->
  tool_use_texts (sent out) = [] ->
  appends st {| world := w; conversationHistory := conversationHistory st;
                productsToDisplay := productsToDisplay st |} out [] [].
Proof.
  intros Hs Ht Hu. unfold appends, searches. simpl.
  rewrite !app_nil_r, Hs, Ht, Hu. simpl. repeat split; auto. lia.
Qed.

Ltac close_trace :=
  do 5 eexists; split; [reflexivity|]; cbn;
  split;
  [ unfold appends; cbn;
    split; [first [reflexivity | symmetry; apply app_nil_r]|];
    split; [first [reflexivity | symmetry; apply app_nil_r]|];
    split; [reflexivity|];
    split; [|split; [try solve [constructor]|reflexivity]]
  | split; [reflexivity|]; split; [reflexivity|]; split; [reflexivity|];
    first [ left; reflexivity | right; eexists; reflexivity ] ].

Lemma chat_onToolUse_trace conversationId id name args (st : Session W) :
  exists o st' out ms added,
    chat_onToolUse conversationId id name args st = (o, st', out) /\
    appends st st' out ms added /\
    tool_calls_made out = [(name, args)] /\
    chunk_texts (sent out) = [] /\
    requests out = [] /\
    (ms = [] \/ exists c, ms = [ToolResult id c]).
Proof.
  unfold chat_onToolUse, bind, sendMessage, call, lift, push_history,
    push_products, ret.
  simpl.
  destruct (callTool name args (world st)) as [[r|e] w] eqn:Ecall; simpl.
  2:{ close_trace. simpl. lia. }
  destruct (get r "error") as [err|e] eqn:Eerr; simpl.
  2:{ close_trace. simpl. lia. }
  destruct (truthy err) eqn:Terr.
  - destruct (get_truthy err "data" Terr) as [data ->].
    destruct (get_truthy err "type" Terr) as [ty ->]. simpl.
    destruct (is_string ty "auth_required"); simpl;
      match goal with
      | |- context [saveMessage ?a ?b ?c ?d] =>
          destruct (saveMessage a b c d) as [[[]|e] w'] eqn:Esave
      end; simpl; close_trace; simpl; lia.
  - unfold searches, is_catalog_search.
    destruct (name =? "search_shop_catalog") eqn:En; simpl.
    + destruct (processProductSearchResult_bounded r)
        as (ps & -> & Hps & Hcards).
      simpl.
      destruct (formatToolResultContent r) as [c|e] eqn:Ef; simpl.
      2:{ close_trace; first [exact Hcards | simpl; rewrite En; simpl; lia]. }
      match goal with
      | |- context [saveMessage ?a ?b ?c ?d] =>
          destruct (saveMessage a b c d) as [[[]|e] w'] eqn:Esave
      end; simpl; close_trace; first [exact Hcards | simpl; rewrite En; simpl; lia].
    + destruct (formatToolResultContent r) as [c|e] eqn:Ef; simpl.
      2:{ close_trace; simpl; lia. }
      match goal with
      | |- context [saveMessage ?a ?b ?c ?d] =>
          destruct (saveMessage a b c d) as [[[]|e] w'] eqn:Esave
      end; simpl; close_trace; simpl; lia.
Qed.

Lemma dispatch_one_trace conversationId (toolCall : option ToolCall)
    (st : Session W) :
  exists st' out ms added,
    dispatch_one (chat_onToolUse conversationId) toolCall st
      = (Normal tt, st', out) /\
    appends st st' out ms added /\
    tool_calls_made out = invocation toolCall /\
    chunk_texts (sent out) = [] /\
    requests out = [] /\
    Forall (fun m => is_tool_result m = true) ms /\
    length ms <= 1.
Proof.
  unfold dispatch_one, invocation, catch, bind, lift, ret, parse.
  destruct toolCall as [tc|]; simpl.
  2:{ exists st, [], [], []. split; [reflexivity|].
      split; [apply appends_refl|]. repeat split; auto. }
  destruct (JSON_parse (tc_arguments tc)) as [args|]; simpl.
  2:{ exists st, [], [], []. split; [reflexivity|].
      split; [apply appends_refl|]. repeat split; auto. }
  destruct (chat_onToolUse_trace conversationId (tc_id tc) (tc_name tc) args st)
    as (o & st' & out & ms & added & E & Ha & Ht & Hc & Hr & Hm).
  rewrite E.
  exists st', out, ms, added.
  split; [destruct o as [[]|e]; simpl; rewrite ?app_nil_r; reflexivity|].
  split; [exact Ha|]. split; [exact Ht|]. split; [exact Hc|].
  split; [exact Hr|].
  destruct Hm as [->|[c ->]]; simpl; split; auto.
Qed.

Lemma dispatch_trace conversationId (toolCalls : list (option ToolCall))
    (st : Session W) :
  exists st' out ms added,
    dispatch (chat_onToolUse conversationId) toolCalls st
      = (Normal tt, st', out) /\
    appends st st' out ms added /\
    tool_calls_made out = flat_map invocation toolCalls /\
    chunk_texts (sent out) = [] /\
    requests out = [] /\
    Forall (fun m => is_tool_result m = true) ms /\
    length ms <= length toolCalls.
Proof.
  revert st. induction toolCalls as [|toolCall rest IH]; intros st.
  - exists st, [], [], []. split; [reflexivity|].
    split; [apply appends_refl|]. repeat split; auto.
  - simpl. unfold bind.
    destruct (dispatch_one_trace conversationId toolCall st)
      as (st1 & out1 & ms1 & added1 & E1 & Ha1 & Ht1 & Hc1 & Hr1 & Hm1 & Hl1).
    rewrite E1.
    destruct (IH st1)
      as (st2 & out2 & ms2 & added2 & E2 & Ha2 & Ht2 & Hc2 & Hr2 & Hm2 & Hl2).
    rewrite E2.
    exists st2, (out1 ++ out2), (ms1 ++ ms2), (added1 ++ added2).
    split; [reflexivity|]. split; [eapply appends_trans; eauto|].
    rewrite tool_calls_made_app, sent_app, chunk_texts_app, requests_app,
      Ht1, Ht2, Hc1, Hc2, Hr1, Hr2, length_app.
    split; [reflexivity|]. split; [reflexivity|]. split; [reflexivity|].
    split; [now apply Forall_app|lia].
Qed.

Lemma accumulate_length (toolCalls : list (option ToolCall))
    (d : ToolCallDelta) :
  length (accumulate toolCalls d)
  = Nat.max (length toolCalls) (S (tcd_index d)).
Proof. rewrite accumulate_updated. apply array_set_length. Qed.

Lemma fold_accumulate_length (ds : list ToolCallDelta)
    (toolCalls : list (option ToolCall)) :
  length toolCalls <= length (fold_left accumulate ds toolCalls).
Proof.
  revert toolCalls. induction ds as [|d ds IH]; intros toolCalls; simpl;
    [lia|].
  specialize (IH (accumulate toolCalls d)).
  rewrite accumulate_length in IH. lia.
Qed.

Lemma accumulated_nonempty (ds : list ToolCallDelta)
    (toolCalls : list (option ToolCall)) :
  (0 <? length (fold_left accumulate ds toolCalls))%nat
  = match ds with
    | [] => (0 <? length toolCalls)%nat
    | _ :: _ => true
    end.
Proof.
  destruct ds as [|d ds]; [reflexivity|].
  simpl. pose proof (fold_accumulate_length ds (accumulate toolCalls d)) as L.
  rewrite accumulate_length in L.
  apply Nat.ltb_lt. lia.
Qed.

Lemma streamConversation_trace conversationId messages promptType tools
    (st : Session W) :
  exists st' out ms added,
    streamConversation messages promptType tools
      (chat_handlers conversationId) st
    = (turn_outcome
         (fst (completions_create
                 (completion_request messages promptType tools) (world st))),
       st', out) /\
    appends st st' out ms added /\
    match turn_outcome
            (fst (completions_create
                    (completion_request messages promptType tools)
                    (world st))) with
    | Normal response =>
        (exists results,
            ms = Assistant (rs_message response) :: results /\
            Forall (fun m => is_tool_result m = true) results /\
            length results
              <= length (tool_call_requests (rs_message response))) /\
        tool_calls_made out
          = flat_map invocation (tool_call_requests (rs_message response)) /\
        chunk_texts (sent out)
          = streamed_texts
              (match fst (completions_create
                            (completion_request messages promptType tools)
                            (world st)) with
               | Normal stream => ps_chunks stream
               | Throw _ => []
               end)
    | Throw _ => ms = [] /\ tool_calls_made out = []
    end /\
    requests out = [completion_request messages promptType tools].
Proof.
  unfold streamConversation.
  fold (completion_request messages promptType tools).
  set (request := completion_request messages promptType tools).
  unfold bind at 1. unfold call at 1.
  destruct (completions_create request (world st)) as [[stream|e] w] eqn:Ec;
    cbn [fst turn_outcome].
  2:{ eexists _, _, [], []. split; [reflexivity|].
      split; [apply appends_world; reflexivity|]. auto. }
  fold request.
  set (st1 := {| world := w; conversationHistory := conversationHistory st;
                 productsToDisplay := productsToDisplay st |}).
  unfold bind at 1. rewrite consume_result.
  assert (Hturn : forall content toolCalls,
    exists st' out added,
      (chat_onMessage conversationId
         {| am_content := content;
            am_tool_calls := if (0 <? length toolCalls)%nat
                             then Some toolCalls else None |} ;;
       (if (0 <? length toolCalls)%nat
        then dispatch (chat_onToolUse conversationId) toolCalls
        else ret tt) ;;
       ret {| rs_message :=
                {| am_content := content;
                   am_tool_calls := if (0 <? length toolCalls)%nat
                                    then Some toolCalls else None |};
              rs_stop_reason := if (0 <? length toolCalls)%nat
                                then "tool_use" else "end_turn" |}) st1
      = (Normal {| rs_message :=
                     {| am_content := content;
                        am_tool_calls := if (0 <? length toolCalls)%nat
                                         then Some toolCalls else None |};
                   rs_stop_reason := if (0 <? length toolCalls)%nat
                                     then "tool_use" else "end_turn" |},
         st', out) /\
      (exists results,
          appends st1 st' out
            (Assistant {| am_content := content;
                          am_tool_calls := if (0 <? length toolCalls)%nat
                                           then Some toolCalls else None |}
             :: results) added /\
          Forall (fun m => is_tool_result m = true) results /\
          length results <= length toolCalls) /\
      tool_calls_made out = flat_map invocation toolCalls /\
      chunk_texts (sent out) = [] /\
      requests out = []).
  { intros content toolCalls. rewrite dispatch_if_any.
    unfold bind at 1. unfold chat_onMessage at 1.
    unfold bind, push_history, catch, call, sendMessage, ret. simpl.
    match goal with
    | |- context [saveMessage ?a ?b ?c ?d] =>
        destruct (saveMessage a b c d) as [[[]|e] w1]
    end; simpl;
    match goal with
    | |- context [dispatch ?f ?l ?s] =>
        destruct (dispatch_trace conversationId l s)
          as (st2 & out2 & ms2 & added2 & E2 & Ha2 & Ht2 & Hc2 & Hr2 & Hm2
              & Hl2)
    end; rewrite E2;
    destruct Ha2 as (Hh & Hp & Hs & Hl); simpl in Hh, Hp;
    (eexists _, _, added2;
     split; [reflexivity|]; split;
     [exists ms2; split; [|split; [exact Hm2|exact Hl2]]|];
     [ unfold appends; simpl;
       rewrite ?app_nil_r, ?saves_app, ?searches_app, Hh, Hp, <- ?app_assoc;
       simpl; rewrite ?Hs;
       split; [reflexivity|]; split; [reflexivity|]; split; [reflexivity|];
       unfold searches in *; simpl;
       rewrite ?tool_calls_made_app; simpl; rewrite ?app_nil_r; exact Hl
     | rewrite ?app_nil_r, ?tool_calls_made_app, ?sent_app,
         ?chunk_texts_app; simpl;
       rewrite ?app_nil_r, ?tool_calls_made_app, ?sent_app,
         ?chunk_texts_app, ?requests_app; simpl;
       rewrite ?app_nil_r, ?tool_calls_made_app, ?sent_app,
         ?chunk_texts_app, ?requests_app; simpl;
       rewrite ?app_nil_r, Ht2, Hc2, Hr2; repeat split; reflexivity ]). }
  cbn [fst snd onMessage onToolUse chat_handlers].
  destruct (Hturn ("" ^^ String.concat "" (streamed_texts (ps_chunks stream)))
              (fold_left accumulate (streamed_deltas (ps_chunks stream)) []))
    as (st2 & out2 & added2 & E2 & (results & Ha2 & Hm2 & Hl2) & Ht2
        & Hc2 & Hr2).
  clear Hturn.
  assert (Hmsg :
    {| am_content := "" ^^ String.concat "" (streamed_texts (ps_chunks stream));
       am_tool_calls :=
         if (0 <? length (fold_left accumulate
                            (streamed_deltas (ps_chunks stream)) []))%nat
         then Some (fold_left accumulate
                      (streamed_deltas (ps_chunks stream)) [])
         else None |} = streamed_message (ps_chunks stream)).
  { unfold streamed_message. rewrite accumulated_nonempty.
    destruct (streamed_deltas (ps_chunks stream)); reflexivity. }
  assert (Hstop :
    (if (0 <? length (fold_left accumulate
                        (streamed_deltas (ps_chunks stream)) []))%nat
     then "tool_use" else "end_turn")
    = match streamed_deltas (ps_chunks stream) with
      | [] => "end_turn"
      | _ :: _ => "tool_use"
      end).
  { rewrite accumulated_nonempty.
    destruct (streamed_deltas (ps_chunks stream)); reflexivity. }
  assert (Hcalls :
    tool_call_requests (streamed_message (ps_chunks stream))
    = fold_left accumulate (streamed_deltas (ps_chunks stream)) []).
  { unfold tool_call_requests, streamed_message. simpl.
    destruct (streamed_deltas (ps_chunks stream)); reflexivity. }
  assert (Hreq : forall texts,
             appends st st1 (Requested request
                             :: map (fun t => Sent (EvChunk t)) texts) [] []).
  { intros texts. apply appends_world; simpl;
      [ apply saves_chunks | apply tool_calls_made_chunks
      | rewrite sent_chunks; apply tool_use_texts_chunks ]. }
  rewrite Hmsg in Ha2.
  assert (Hd :
    appends st st2
      (Requested request
       :: map (fun t => Sent (EvChunk t)) (streamed_texts (ps_chunks stream))
       ++ out2)
      (Assistant (streamed_message (ps_chunks stream)) :: results) added2 /\
    tool_calls_made
      (Requested request
       :: map (fun t => Sent (EvChunk t)) (streamed_texts (ps_chunks stream))
       ++ out2)
      = flat_map invocation
          (tool_call_requests (streamed_message (ps_chunks stream))) /\
    chunk_texts
      (sent (Requested request
             :: map (fun t => Sent (EvChunk t))
                  (streamed_texts (ps_chunks stream))
             ++ out2))
      = streamed_texts (ps_chunks stream) /\
    requests
      (Requested request
       :: map (fun t => Sent (EvChunk t)) (streamed_texts (ps_chunks stream))
       ++ out2) = [request]).
  { split.
    { change (Assistant (streamed_message (ps_chunks stream)) :: results)
        with ([] ++ Assistant (streamed_message (ps_chunks stream))
                    :: results).
      change added2 with ([] ++ added2).
      rewrite app_comm_cons.
      eapply appends_trans; [apply Hreq | exact Ha2]. }
    split; [|split].
    - simpl. rewrite tool_calls_made_app, tool_calls_made_chunks, Ht2, Hcalls.
      reflexivity.
    - simpl. rewrite sent_app, sent_chunks, chunk_texts_app,
        chunk_texts_chunks, Hc2. apply app_nil_r.
    - simpl. now rewrite requests_app, requests_chunks, Hr2. }
  destruct Hd as (Hd1 & Hd2 & Hd3 & Hd4).
  rewrite <- Hcalls in Hl2.
  destruct (existsb finishes (ps_chunks stream));
    [|destruct (ps_failure stream) as [e|]]; cbn [fst snd].
  - rewrite E2, Hmsg, Hstop.
    eexists st2, _, _, added2. split; [reflexivity|].
    split; [exact Hd1|]. split; [|exact Hd4].
    split; [exists results; auto|]. split; [exact Hd2|exact Hd3].
  - eexists st1, _, [], []. split; [reflexivity|].
    split; [apply Hreq|]. split; [split; [reflexivity|]|].
    + simpl. apply tool_calls_made_chunks.
    + simpl. now rewrite requests_chunks.
  - rewrite E2, Hmsg, Hstop.
    eexists st2, _, _, added2. split; [reflexivity|].
    split; [exact Hd1|]. split; [|exact Hd4].
    split; [exists results; auto|]. split; [exact Hd2|exact Hd3].
Qed.

End Traces.


Section SessionTraces.
Context {W : Type} `{Runtime} `{Config} `{Collaborators W}.

Lemma conversation_loop_trace conversationId promptType (n : nat)
    (st : Session W) :
  exists o st' out ms added,
    conversation_loop conversationId promptType n st = (o, st', out) /\
    appends st st' out ms added /\
    request_chain promptType (conversationHistory st) (requests out) /\
    (o = Normal tt ->
     length (requests out) = n \/
     exists h m,
       conversationHistory st' = h ++ [Assistant m] /\
       tool_call_requests m = []).
Proof.
  revert st. induction n as [|n IH]; intros st.
  - exists (Normal tt), st, [], [], []. split; [reflexivity|].
    split; [apply appends_refl|]. split; [exact I|]. auto.
  - simpl. unfold bind, read_history, read_world. simpl.
    destruct (streamConversation_trace conversationId (conversationHistory st)
                promptType (mcp_tools (world st)) st)
      as (st1 & out1 & ms1 & added1 & E1 & Ha1 & Ho & Hr1).
    rewrite E1.
    destruct (turn_outcome _) as [response|e].
    + destruct Ho as ((results & -> & Hres & Hlen) & _).
      assert (Hlast : tool_call_requests (rs_message response) = [] ->
                exists h m,
                  conversationHistory st1 = h ++ [Assistant m] /\
                  tool_call_requests m = []).
      { intros Hnone. rewrite Hnone in Hlen.
        destruct results; [|simpl in Hlen; lia].
        destruct Ha1 as (Hh1 & _). eauto. }
      destruct (am_tool_calls (rs_message response)) as [[|tc tcs]|] eqn:Etc.
      * do 5 eexists. split; [reflexivity|]. rewrite app_nil_r.
        split; [exact Ha1|]. rewrite Hr1. simpl.
        split; [auto|]. intros _. right. apply Hlast.
        unfold tool_call_requests. now rewrite Etc.
      * destruct (IH st1)
          as (o2 & st2 & out2 & ms2 & added2 & E2 & Ha2 & Hc2 & Hn2).
        rewrite E2. do 5 eexists. split; [reflexivity|].
        split; [eapply appends_trans; eauto|].
        rewrite requests_app, Hr1.
        destruct Ha1 as (Hh1 & _). rewrite Hh1 in Hc2.
        cbn [app]. split.
        -- cbn [request_chain]. split; [reflexivity|].
           destruct (requests out2) as [|r rs] eqn:Er; [exact I|].
           exists (rs_message response), results.
           split; [|auto].
           unfold tool_call_requests. rewrite Etc. discriminate.
        -- intros Hok. destruct (Hn2 Hok) as [Hl|Hl]; [left|right; exact Hl].
           simpl. now rewrite Hl.
      * do 5 eexists. split; [reflexivity|]. rewrite app_nil_r.
        split; [exact Ha1|]. rewrite Hr1. simpl.
        split; [auto|]. intros _. right. apply Hlast.
        unfold tool_call_requests. now rewrite Etc.
    + do 5 eexists. split; [reflexivity|].
      split; [exact Ha1|]. rewrite Hr1. simpl. split; [auto|discriminate].
Qed.

Lemma getTruncatedHistory_bounded (conversationId : string) (st : Session W) :
  exists msgs w,
    getTruncatedHistory conversationId st
      = (Normal msgs,
         {| world := w; conversationHistory := conversationHistory st;
            productsToDisplay := productsToDisplay st |}, [Loaded]) /\
    length msgs <= 4 /\ Forall is_user_or_assistant msgs.
Proof.
  unfold getTruncatedHistory, catch, bind, call, lift, ret.
  destruct (getConversationHistory conversationId (world st)) as [[all|e] w].
  - destruct (truncate_history all) as [ms|e] eqn:E; simpl.
    + exists ms, w. split; [reflexivity|].
      now apply truncate_history_bounded with all.
    + exists [], w. split; [reflexivity|]. split; [simpl; lia|constructor].
  - simpl. exists [], w. split; [reflexivity|].
    split; [simpl; lia|constructor].
Qed.

(** A request from its first event to its last. *)
Lemma handleChatSession_trace userMessage conversationId promptType
    (st : Session W) :
  exists o st' out truncated ms,
    handleChatSession userMessage conversationId promptType st
      = (o, st', out) /\
    length truncated <= 4 /\ Forall is_user_or_assistant truncated /\
    saves out
      = map persisted (Msg (VString "user") (VString userMessage) :: ms) /\
    length (productsToDisplay st') <= product_limit * searches out /\
    Forall complete_card (productsToDisplay st') /\
    tool_use_texts (sent out) = map announce (tool_calls_made out) /\
    request_chain promptType
      (truncated ++ [Msg (VString "user") (VString userMessage)])
      (requests out) /\
    (conversationHistory st'
       = truncated ++ Msg (VString "user") (VString userMessage) :: ms \/
     (ms = [] /\ requests out = [] /\ tool_calls_made out = [] /\
      sent out = [EvId conversationId] /\ exists e, o = Throw e)) /\
    (o = Normal tt ->
     length (requests out) = maxIterations \/
     exists h m,
       conversationHistory st' = h ++ [Assistant m] /\
       tool_call_requests m = []).
Proof.
  unfold handleChatSession.
  rewrite catch_rethrow.
  erewrite bind_normal by reflexivity.
  destruct (connect_runs st) as (w0 & out0 & E0 & Hs0 & Hr0).
  assert (Hv0 : saves out0 = [] /\ tool_calls_made out0 = []).
  { revert E0. unfold catch, bind, call, ret.
    destruct (connectToStorefrontServer (world st)) as [[[]|e] w1]; simpl.
    - destruct (connectToCustomerServer w1) as [[[]|e] w2]; simpl;
        intros E; inversion E; auto.
    - intros E; inversion E; auto. }
  destruct Hv0 as [Hv0 Ht0].
  erewrite bind_normal by exact E0.
  erewrite bind_normal by reflexivity.
  cbn [world conversationHistory productsToDisplay].
  match goal with
  | |- context [bind (call ?obs ?op) ?k ?s] =>
      destruct (op (world s)) as [[[]|e] w1] eqn:Esave;
      [ erewrite (bind_normal (call obs op) k s)
          by (unfold call; rewrite Esave; reflexivity)
      | erewrite (bind_throw (call obs op) k s)
          by (unfold call; rewrite Esave; reflexivity) ]
  end.
  2:{ exists (Throw e). eexists _, _, [], []. split; [reflexivity|].
      split; [simpl; lia|]. split; [constructor|].
      rewrite !saves_app, !requests_app, !sent_app, !tool_calls_made_app,
        Hv0, Ht0, Hs0, Hr0.
      simpl. split; [reflexivity|]. split; [lia|]. split; [constructor|].
      split; [reflexivity|]. split; [exact I|].
      split; [|discriminate].
      right. repeat split. eauto. }
  cbn [world conversationHistory productsToDisplay].
  match goal with
  | |- context [bind (getTruncatedHistory ?c) ?k ?s] =>
      destruct (getTruncatedHistory_bounded c s)
        as (truncated & w2 & E2 & Hlen & Hroles);
      erewrite (bind_normal (getTruncatedHistory c) k s) by exact E2
  end.
  erewrite bind_normal by reflexivity.
  erewrite bind_normal by reflexivity.
  cbn [world conversationHistory productsToDisplay].
  match goal with
  | |- context [bind (conversation_loop ?c ?p ?n) ?k ?s] =>
      destruct (conversation_loop_trace c p n s)
        as (o3 & st3 & out3 & ms3 & added3 & E3
            & (Hh3 & Hp3 & Hs3 & Hl3 & Hk3 & Hu3) & Hc3 & Hn3);
      destruct o3 as [[]|e];
      [ erewrite (bind_normal (conversation_loop c p n) k s) by exact E3
      | erewrite (bind_throw (conversation_loop c p n) k s) by exact E3 ]
  end; cbn [world conversationHistory productsToDisplay] in *.
  - erewrite bind_normal by reflexivity.
    erewrite bind_normal by reflexivity.
    unfold sendMessage, ret.
    destruct (0 <? length (productsToDisplay st3))%nat eqn:Ep;
      (eexists _, _, _, truncated, ms3; split; [reflexivity|];
       split; [exact Hlen|]; split; [exact Hroles|];
       rewrite !saves_app, !requests_app, Hv0, Hr0; simpl;
       rewrite ?saves_app, ?requests_app, ?app_nil_r; simpl;
       rewrite ?app_nil_r, Hs3;
       split; [reflexivity|]; split;
       [ rewrite Hp3; unfold searches in *;
         repeat (progress (rewrite ?tool_calls_made_app, ?Ht0, ?app_nil_r;
                           simpl));
         exact Hl3
       | split; [rewrite Hp3; exact Hk3|]; split;
         [ repeat (progress (rewrite ?tool_calls_made_app, ?sent_app,
                               ?tool_use_texts_app, ?Ht0, ?Hs0, ?app_nil_r;
                             simpl));
           exact Hu3
         | split; [exact Hc3|]; split;
           [ left; rewrite Hh3, <- app_assoc; reflexivity
           | intros _; exact (Hn3 eq_refl) ] ] ]).
  - eexists _, _, _, truncated, ms3. split; [reflexivity|].
    split; [exact Hlen|]. split; [exact Hroles|].
    rewrite !saves_app, !requests_app, Hv0, Hr0. simpl.
    rewrite Hs3. split; [reflexivity|]. split.
    + rewrite Hp3. unfold searches in *.
      repeat (progress (rewrite ?tool_calls_made_app, ?Ht0, ?app_nil_r;
                        simpl)).
      exact Hl3.
    + split; [rewrite Hp3; exact Hk3|]. split.
      * repeat (progress (rewrite ?tool_calls_made_app, ?sent_app,
                            ?tool_use_texts_app, ?Ht0, ?Hs0, ?app_nil_r;
                          simpl)).
        exact Hu3.
      * split; [exact Hc3|]. split; [|discriminate].
        left. rewrite Hh3, <- app_assoc. reflexivity.
Qed.

End SessionTraces.


(* ================================================================== *)
(** * Further properties of a turn *)
(* ================================================================== *)

Section TurnProperties.
Context {W : Type} `{Runtime} `{Config} `{Collaborators W}.

(** X4: the response of a turn is what the stream delivered up to its
    finish reason: the text is the concatenation of the non-empty text
    fragments, the tool calls are the reassembled fragments, and the stop
    reason is [tool_use] exactly when there was a tool-call fragment,
    [end_turn] otherwise.  The turn throws exactly when the completion
    call throws, or the stream fails before any finish reason. *)
Theorem turn_outcome_from_the_stream conversationId messages promptType tools
    (st : Session W) :
  fst (fst (streamConversation messages promptType tools
              (chat_handlers conversationId) st))
  = turn_outcome
      (fst (completions_create
              (completion_request messages promptType tools) (world st))).
Proof.
  destruct (streamConversation_trace conversationId messages promptType tools
              st) as (st' & out & ms & added & E & _).
  now rewrite E.
Qed.

(** X5: the text of the message a turn returns (and appends to the working
    history) is the concatenation of the [chunk] events sent during the
    turn, in order: the client has seen all of it and nothing else. *)
Theorem text_kept_is_text_sent conversationId messages promptType tools
    (st st' : Session W) (response : Response) (out : list Obs) :
  streamConversation messages promptType tools
    (chat_handlers conversationId) st = (Normal response, st', out) ->
  am_content (rs_message response)
  = String.concat "" (chunk_texts (sent out)).
Proof.
  intros E.
  destruct (streamConversation_trace conversationId messages promptType tools
              st) as (st1 & out1 & ms & added & E1 & _ & Ho & _).
  rewrite E in E1. inversion E1 as [[Eo Es Eout]]. clear E1.
  rewrite <- Eo in Ho. destruct Ho as (_ & _ & ->).
  destruct (fst (completions_create _ _)) as [stream|e]; simpl in Eo;
    [|discriminate].
  destruct (existsb finishes (ps_chunks stream));
    [|destruct (ps_failure stream)]; inversion Eo; reflexivity.
Qed.

(** X6: the tools invoked during a turn are the requests of the returned
    message whose arguments parse as JSON, in request order, each with its
    name and its parsed arguments; a turn that throws invokes none. *)
Theorem tools_invoked_as_requested conversationId messages promptType tools
    (st : Session W) :
  match streamConversation messages promptType tools
          (chat_handlers conversationId) st with
  | (Normal response, _, out) =>
      tool_calls_made out
      = flat_map invocation (tool_call_requests (rs_message response))
  | (Throw _, _, out) => tool_calls_made out = []
  end.
Proof.
  destruct (streamConversation_trace conversationId messages promptType tools
              st) as (st' & out & ms & added & E & _ & Ho & _).
  rewrite E. destruct (turn_outcome _) as [response|e]; tauto.
Qed.

End TurnProperties.

(* ================================================================== *)
(** * Further properties of a request *)
(* ================================================================== *)

Lemma request_chain_adjacent `{Config} (promptType : string)
    (rs : list CompletionRequest) (h : list Message) :
  request_chain promptType h rs -> adjacent grows rs.
Proof.
  revert h. induction rs as [|r rest IH]; intros h; [auto|].
  cbn [request_chain adjacent]. intros [Hr Hrest].
  destruct rest as [|r' rest']; [exact I|].
  destruct Hrest as (m & results & Hm & Hres & Hlen & Hchain).
  split; [|eapply IH; exact Hchain].
  exists m, results. repeat split; auto.
  cbn [request_chain] in Hchain. destruct Hchain as [-> _].
  rewrite Hr. reflexivity.
Qed.

Section RequestProperties.
Context {W : Type} `{Runtime} `{Config} `{Collaborators W}.

(** X7: the first completion request of a chat request carries the system
    prompt, then at most four stored messages of role [user] or
    [assistant], then the user's new message: at most six messages,
    whatever the length of the stored conversation and whatever the
    working history held before. *)
Theorem first_request_is_bounded userMessage conversationId promptType
    (st : Session W) :
  match requests (snd (handleChatSession userMessage conversationId
                         promptType st)) with
  | [] => True
  | r :: _ =>
      exists truncated,
        rq_messages r
        = Msg (VString "system") (VString (getSystemPrompt promptType))
            :: truncated ++ [Msg (VString "user") (VString userMessage)] /\
        length truncated <= 4 /\
        Forall is_user_or_assistant truncated /\
        length (rq_messages r) <= 6
  end.
Proof.
  destruct (handleChatSession_trace userMessage conversationId promptType st)
    as (o & st' & out & truncated & ms & E & Hlen & Hroles & _ & _ & _ & _
        & Hc & _).
  rewrite E. cbn [snd].
  destruct (requests out) as [|r rs]; [exact I|].
  destruct Hc as [Hr _].
  exists truncated. repeat split; auto.
  rewrite Hr. simpl. rewrite length_app. simpl. lia.
Qed.

(** X8: within a chat request, every completion request after the first
    is the one before it with one assistant message that asks for tools,
    and at most one tool result for each of its requests, behind it:
    nothing sent to the completion service is ever dropped or reordered,
    and the loop calls again only after a message that asks for tools. *)
Theorem each_request_extends_the_one_before userMessage conversationId
    promptType (st : Session W) :
  adjacent grows
    (requests (snd (handleChatSession userMessage conversationId
                      promptType st))).
Proof.
  destruct (handleChatSession_trace userMessage conversationId promptType st)
    as (o & st' & out & truncated & ms & E & _ & _ & _ & _ & _ & _ & Hc & _).
  rewrite E. cbn [snd].
  eapply request_chain_adjacent. exact Hc.
Qed.

(** X9: the products on display at the end of a chat request, and so the
    products of its [product_results] event, are at most the configured
    maximum for each catalog search invoked during the request, and each
    one is a complete card (six fields, with an id, a title and a price
    that are not empty): whatever the display list held before the
    request is dropped. *)
Theorem products_shown_are_bounded_by_the_searches userMessage conversationId
    promptType (st : Session W) :
  match handleChatSession userMessage conversationId promptType st with
  | (_, st', out) =>
      length (productsToDisplay st') <= product_limit * searches out /\
      Forall complete_card (productsToDisplay st') /\
      Forall (fun e => match e with
                       | EvProductResults products =>
                           products = productsToDisplay st'
                       | _ => True
                       end) (sent out)
  end.
Proof.
  destruct (handleChatSession_trace userMessage conversationId promptType st)
    as (o & st' & out & truncated & ms & E & _ & _ & _ & Hp & Hk & _).
  destruct (handleChatSession_runs userMessage conversationId promptType st)
    as (o1 & st1 & out1 & E1 & _ & (evs & Ht & Hs) & _).
  rewrite E in E1. inversion E1; subst o1 st1 out1. clear E1.
  rewrite E. split; [exact Hp|]. split; [exact Hk|].
  assert (Hturn : Forall (fun e => match e with
                                   | EvProductResults products =>
                                       products = productsToDisplay st'
                                   | _ => True
                                   end) evs).
  { eapply Forall_impl; [|exact Ht]. intros [] Hev; auto; discriminate. }
  destruct o as [[]|e]; rewrite Hs.
  - constructor; [exact I|]. apply Forall_app. split; [exact Hturn|].
    constructor; [exact I|].
    unfold flushed. destruct (0 <? _)%nat; repeat constructor.
  - constructor; [exact I|exact Hturn].
Qed.


(** X11: every tool invocation of a chat request is announced to the
    client by a [tool_use] event that names the tool and gives its
    arguments as JSON, and no other [tool_use] event is sent: the
    [tool_use] events are the announcements of the invocations, in
    order. *)
Theorem every_invocation_is_announced userMessage conversationId promptType
    (st : Session W) :
  match handleChatSession userMessage conversationId promptType st with
  | (_, _, out) =>
      tool_use_texts (sent out) = map announce (tool_calls_made out)
  end.
Proof.
  destruct (handleChatSession_trace userMessage conversationId promptType st)
    as (o & st' & out & truncated & ms & E & _ & _ & _ & _ & _ & Hu & _).
  rewrite E. exact Hu.
Qed.

(** X12: the loop does not stop early: a chat request that runs to its
    end after fewer than the maximum of completion calls ends on an
    assistant message that asks for no tool, appended last to the working
    history. *)
Theorem loop_stops_only_when_no_tool_is_asked userMessage conversationId
    promptType (st st' : Session W) (out : list Obs) :
  handleChatSession userMessage conversationId promptType st
    = (Normal tt, st', out) ->
  length (requests out) < maxIterations ->
  exists h m,
    conversationHistory st' = h ++ [Assistant m] /\
    tool_call_requests m = [].
Proof.
  intros E Hlt.
  destruct (handleChatSession_trace userMessage conversationId promptType st)
    as (o & st1 & out1 & truncated & ms & E1 & _ & _ & _ & _ & _ & _ & _ & _
        & Hn).
  rewrite E in E1. inversion E1; subst o st1 out1.
  destruct (Hn eq_refl) as [Hmax|Hlast]; [lia|exact Hlast].
Qed.


End RequestProperties.


(* ================================================================== *)
(** * The tool service's handlers *)
(* ================================================================== *)

Section ToolServiceHandlers.
Context {W : Type} `{Runtime} `{Config} `{Collaborators W}.

Lemma addToolResultToHistory_run (toolUseId : option string)
    (content : value) (conversationId : string) (st : Session W) :
  exists w,
    addToolResultToHistory toolUseId content conversationId st
    = (Normal tt,
       {| world := w; conversationHistory := conversationHistory st;
          productsToDisplay := productsToDisplay st |},
       if conversationId =? "" then []
       else [Saved "tool" (tool_record toolUseId content)]).
Proof.
  unfold addToolResultToHistory.
  destruct (conversationId =? "").
  - exists (world st). unfold ret. now destruct st.
  - unfold catch, call, ret.
    destruct (saveMessage _ _ _ _) as [[[]|e] w]; exists w; reflexivity.
Qed.

(** X14: [addToolResultToHistory] never throws, also when the store
    rejects the record; it sends no event and leaves the working history
    and the products alone; it submits the result to the store, as the
    JSON of its id and content, exactly when there is a conversation
    id. *)
Theorem addToolResultToHistory_only_saves (toolUseId : option string)
    (content : value) (conversationId : string) (st : Session W) :
  match addToolResultToHistory toolUseId content conversationId st with
  | (o, st', out) =>
      o = Normal tt /\
      conversationHistory st' = conversationHistory st /\
      productsToDisplay st' = productsToDisplay st /\
      sent out = [] /\
      saves out = if conversationId =? "" then []
                  else [("tool", tool_record toolUseId content)]
  end.
Proof.
  destruct (addToolResultToHistory_run toolUseId content conversationId st)
    as [w ->].
  repeat split; destruct (conversationId =? ""); reflexivity.
Qed.

(** X15: the tool service's handlers never touch the working history,
    whether they return or throw: [handleToolError] sends [auth_required]
    or nothing and [handleToolSuccess] sends nothing; neither sends
    [new_message]. *)
Theorem tool_service_leaves_the_working_history_alone
    (toolUseResponse : value) (toolName : string)
    (toolUseId : option string) (conversationId : string) (st : Session W) :
  match handleToolError toolUseResponse toolUseId conversationId st with
  | (_, st', out) =>
      conversationHistory st' = conversationHistory st /\
      productsToDisplay st' = productsToDisplay st /\
      (sent out = [] \/ sent out = [EvAuthRequired])
  end /\
  match handleToolSuccess toolUseResponse toolName toolUseId conversationId
          st with
  | (_, st', out) =>
      conversationHistory st' = conversationHistory st /\ sent out = []
  end.
Proof.
  split.
  - unfold handleToolError, bind, lift, sendMessage.
    destruct (get toolUseResponse "error") as [error|e]; [|auto].
    destruct (get error "type") as [ty|e]; [|auto].
    destruct (get error "data") as [data|e]; [|auto].
    destruct (addToolResultToHistory_run toolUseId data conversationId st)
      as [w E].
    destruct (is_string ty "auth_required"); rewrite E;
      destruct (conversationId =? ""); simpl; auto.
  - unfold handleToolSuccess, bind, lift, push_products, ret.
    destruct (toolName =? "search_shop_catalog").
    + destruct (processProductSearchResult_bounded toolUseResponse)
        as (ps & -> & _).
      destruct (formatToolResultContent toolUseResponse) as [c|e]; [|auto].
      match goal with
      | |- context [addToolResultToHistory ?a ?b ?c ?s] =>
          destruct (addToolResultToHistory_run a b c s) as [w E]
      end.
      rewrite E. destruct (conversationId =? ""); simpl; auto.
    + destruct (formatToolResultContent toolUseResponse) as [c|e]; [|auto].
      match goal with
      | |- context [addToolResultToHistory ?a ?b ?c ?s] =>
          destruct (addToolResultToHistory_run a b c s) as [w E]
      end.
      rewrite E. destruct (conversationId =? ""); simpl; auto.
Qed.

End ToolServiceHandlers.


(* ================================================================== *)
(** * The products of a catalog search *)
(* ================================================================== *)

Section CatalogProducts.
Context `{Runtime} `{Config}.

Lemma gt_zero_length (n : nat) :
  gt_zero (VNumber (number_of_nat (S n))) = true.
Proof.
  unfold gt_zero, to_number, is_positive, number_of_nat, number_of_Z.
  cbn [mantissa]. apply Z.ltb_lt. lia.
Qed.

(** X16: when the payload of a catalog response carries a [products]
    sequence, the products shown are the first of them, up to the
    configured maximum, formatted in their order; and they are shown all
    or not at all: if one of these cannot be formatted the list is empty.
    Products behind the maximum are never looked at. *)
Theorem catalog_products_shown (toolUseResponse : value) (xs : list value) :
  products_of_payload toolUseResponse = Some xs ->
  payload_of toolUseResponse <> Some (VString "") ->
  processProductSearchResult toolUseResponse
  = Normal (match map_t formatProductData (slice_to product_limit xs) with
            | Normal shown => shown
            | Throw _ => []
            end).
Proof.
  unfold products_of_payload, payload_of, processProductSearchResult.
  destruct (get toolUseResponse "content") as [c|e]; simpl; [|discriminate].
  destruct c as [| |b|n|s|items|fs]; simpl; try discriminate.
  destruct items as [|item items]; [simpl; discriminate|].
  cbn [length]. rewrite gt_zero_length.
  destruct (find_t is_text_item (item :: items)) as [found|e];
    [|simpl; discriminate].
  cbn [obind].
  destruct (get_opt found "text") as [p|e]; [|simpl; discriminate].
  cbn [obind].
  destruct p as [| |b|n|s|l|fs]; try discriminate.
  - intros Hp Hne.
    destruct (s =? "") eqn:Es.
    { apply String.eqb_eq in Es. subst s. now contradiction Hne. }
    simpl. rewrite Es. simpl. unfold parse.
    destruct (JSON_parse s) as [d|]; [|discriminate].
    cbn [obind].
    rewrite products_of_data. simpl.
    destruct d as [| | | | | |gs]; try discriminate.
    destruct (lookup "products" gs); try discriminate.
    inversion Hp. reflexivity.
  - intros Hp _. simpl.
    pose proof (products_of_data (VObject fs)) as P. simpl in P.
    rewrite P. simpl.
    destruct (lookup "products" fs); try discriminate.
    inversion Hp. reflexivity.
Qed.

End CatalogProducts.

(* ================================================================== *)
(** * The route and the tool service *)
(* ================================================================== *)

Section RouteAndService.
Context {W : Type} `{Runtime} `{Config} `{Collaborators W}.


End RouteAndService.

(* ================================================================== *)
(** * From the store and back *)
(* ================================================================== *)

Section StoreRoundTrip.
Context `{Runtime}.

Lemma text_record_loads (role s text : string) :
  role = "user" \/ role = "assistant" ->
  JSON_parse s = Some (VString text) ->
  truncate_history (VArray [stored_record role (Some s)])
  = Normal [Msg (VString role) (VString text)].
Proof.
  intros Hrole Hs.
  unfold truncate_history, stored_record, keep_message, format_message, parse.
  destruct Hrole as [-> | ->]; simpl; rewrite Hs; simpl; rewrite ?Hs;
    reflexivity.
Qed.

(** X18: an assistant message with text comes back from the store as its
    text: what the route submits for it, once stored, is read by the
    history truncation as an assistant message with exactly that text
    (any tool calls the message also carried are not stored), provided
    the text survives [JSON.stringify] followed by [JSON.parse]. *)
Theorem assistant_text_survives_the_store (m : AssistantMessage)
    (s : string) :
  am_content m <> "" ->
  JSON_stringify (VString (am_content m)) = Some s ->
  JSON_parse s = Some (VString (am_content m)) ->
  persisted (Assistant m) = ("assistant", Some s) /\
  truncate_history (VArray [stored_record "assistant" (Some s)])
  = Normal [Msg (VString "assistant") (VString (am_content m))].
Proof.
  intros Hne Hs Hp. split.
  - unfold persisted, or_else. simpl.
    destruct (am_content m =? "") eqn:E;
      [apply String.eqb_eq in E; contradiction|].
    simpl. now rewrite Hs.
  - apply text_record_loads; auto.
Qed.

End StoreRoundTrip.


(* ================================================================== *)
(** * The order of the events *)
(* ================================================================== *)

Lemma dispatch_run_tool_events `{Runtime} (answered stored : Prop)
    toolCalls evs ms :
  dispatch_run answered stored toolCalls evs ms ->
  Forall (fun e => is_tool_event e = true) evs.
Proof.
  induction 1 as [| |toolCall rest o evs1 ms1 evs ms _ Hrun _ _ _ IH];
    auto.
  apply Forall_app. split; [|exact IH].
  destruct Hrun as [tu e|tu e c [|]|tu c [|]]; repeat constructor.
Qed.

Section EventOrder.
Context {W : Type} `{Runtime} `{Config} `{Collaborators W}.

(** X19: the events of a turn come in a fixed order: first the [chunk]
    events, then exactly one [message_complete], then the events of the
    tool invocations ([tool_use], [auth_required], [new_message]) and
    nothing else.  A turn that throws has sent [chunk] events only, and no
    [message_complete]. *)
Theorem events_of_a_turn_in_order conversationId messages promptType tools
    (st : Session W) :
  match streamConversation messages promptType tools
          (chat_handlers conversationId) st with
  | (Normal _, _, out) =>
      exists texts evs,
        sent out = map EvChunk texts ++ EvMessageComplete :: evs /\
        Forall (fun e => is_tool_event e = true) evs
  | (Throw _, _, out) => exists texts, sent out = map EvChunk texts
  end.
Proof.
  destruct (streamConversation_runs conversationId messages promptType tools
              st) as (o & st' & out & E & _ & Ho & _).
  rewrite E. destruct o as [response|e].
  - destruct Ho as (texts & evs & ms & Hs & Hd & _).
    exists texts, evs. split; [exact Hs|].
    eapply dispatch_run_tool_events. exact Hd.
  - destruct Ho as (texts & Hs & _). exists texts. exact Hs.
Qed.

(** X20: the first event of a chat request is the [id] event with the
    conversation id, whatever happens afterwards, and it is the only [id]
    event of the request. *)
Theorem id_event_comes_first userMessage conversationId promptType
    (st : Session W) :
  match handleChatSession userMessage conversationId promptType st with
  | (_, _, out) =>
      exists rest,
        sent out = EvId conversationId :: rest /\
        Forall (fun e => is_id e = false) rest
  end.
Proof.
  destruct (handleChatSession_runs userMessage conversationId promptType st)
    as (o & st' & out & E & _ & (evs & Ht & Hs) & _).
  rewrite E.
  assert (Hturn : Forall (fun e => is_id e = false) evs).
  { eapply Forall_impl; [|exact Ht]. intros [] Hev; auto; discriminate. }
  destruct o as [[]|e]; rewrite Hs; eexists; (split; [reflexivity|]).
  - apply Forall_app. split; [exact Hturn|].
    constructor; [reflexivity|].
    unfold flushed. destruct (0 <? _)%nat; repeat constructor.
  - exact Hturn.
Qed.

End EventOrder.


(* ================================================================== *)
(** * The truncation of a conversation of texts *)
(* ================================================================== *)

Section TextConversations.
Context `{Runtime}.

Lemma conversational_roles (role : string) :
  conversational role = true -> role = "user" \/ role = "assistant".
Proof.
  unfold conversational. intros E. apply orb_true_iff in E.
  destruct E as [E|E]; apply String.eqb_eq in E; auto.
Qed.

Lemma keep_text_record (r : string * string) :
  (conversational (fst r) = true -> text_of_stored (snd r) <> None) ->
  keep_message (record_of r) = Normal (conversational (fst r)).
Proof.
  destruct r as [role s]. unfold record_of, stored_record, text_of_stored.
  cbn [fst snd]. intros Htext.
  unfold conversational in *. unfold keep_message, parse. simpl.
  destruct (role =? "system") eqn:Esys.
  { apply String.eqb_eq in Esys. subst role. reflexivity. }
  destruct (role =? "tool") eqn:Etool.
  { apply String.eqb_eq in Etool. subst role. reflexivity. }
  simpl.
  destruct (role =? "user") eqn:Eu; destruct (role =? "assistant") eqn:Ea;
    simpl in *;
    destruct (JSON_parse s) as [[| | | |t|items|fs]|]; simpl;
    try reflexivity;
    exfalso; apply Htext; reflexivity.
Qed.

Lemma load_text_record (r : string * string) :
  conversational (fst r) = true -> text_of_stored (snd r) <> None ->
  format_message (record_of r) = Normal (loaded r).
Proof.
  destruct r as [role s].
  unfold record_of, loaded, stored_record, text_of_stored.
  cbn [fst snd]. intros Hrole Htext.
  unfold format_message, parse. simpl.
  destruct (JSON_parse s) as [[| | | |t|items|fs]|]; simpl;
    try (exfalso; apply Htext; reflexivity).
  - destruct (role =? "assistant"); reflexivity.
  - reflexivity.
Qed.

Lemma filter_t_text_records (rs : list (string * string)) :
  Forall (fun r => conversational (fst r) = true ->
                   text_of_stored (snd r) <> None) rs ->
  filter_t keep_message (map record_of rs)
  = Normal (map record_of (filter (fun r => conversational (fst r)) rs)).
Proof.
  induction 1 as [|r rs Hr _ IH]; [reflexivity|].
  simpl. rewrite (keep_text_record r Hr), IH. simpl.
  destruct (conversational (fst r)); reflexivity.
Qed.

Lemma map_t_text_records (rs : list (string * string)) :
  Forall (fun r => conversational (fst r) = true /\
                   text_of_stored (snd r) <> None) rs ->
  map_t format_message (map record_of rs) = Normal (map loaded rs).
Proof.
  induction 1 as [|r rs [Hrole Htext] _ IH]; [reflexivity|].
  simpl. rewrite (load_text_record r Hrole Htext), IH. reflexivity.
Qed.

(** X21: of a stored conversation whose user and assistant messages are
    texts (plain text, or the JSON of a string), the truncation returns
    the last four user and assistant messages, in their order, each with
    its text; messages of any other role are left out and do not count. *)
Theorem truncation_keeps_the_last_four_texts (rs : list (string * string)) :
  Forall (fun r => conversational (fst r) = true ->
                   text_of_stored (snd r) <> None) rs ->
  truncate_history (VArray (map record_of rs))
  = Normal (map loaded
              (slice_last 4 (filter (fun r => conversational (fst r)) rs))).
Proof.
  intros Htexts. unfold truncate_history. simpl.
  rewrite (filter_t_text_records rs Htexts). simpl.
  unfold slice_last. rewrite length_map, skipn_map.
  apply map_t_text_records.
  apply (slice_last_Forall _ 4).
  rewrite Forall_forall in *. intros r Hin.
  apply filter_In in Hin. destruct Hin as [Hin Hrole]. auto.
Qed.

Lemma every_tool_use (items : list value) :
  Forall (fun c => exists fs, c = VObject fs /\
                              lookup "type" fs = VString "tool_use") items ->
  every_t (fun c => ty <-! get c "type";
                    Normal (is_string ty "tool_use")) items
  = Normal true.
Proof.
  induction 1 as [|c items (fs & -> & Hty) _ IH]; [reflexivity|].
  simpl. rewrite Hty. simpl. exact IH.
Qed.

(** X22: a stored assistant message whose content is a JSON array of
    [tool_use] blocks only (the empty array included) is left out of the
    truncated history. *)
Theorem tool_use_only_messages_are_dropped (s : string)
    (items : list value) :
  JSON_parse s = Some (VArray items) ->
  Forall (fun c => exists fs, c = VObject fs /\
                              lookup "type" fs = VString "tool_use") items ->
  keep_message (stored_record "assistant" (Some s)) = Normal false /\
  truncate_history (VArray [stored_record "assistant" (Some s)]) = Normal [].
Proof.
  intros Hs Hitems.
  assert (Hk : keep_message (stored_record "assistant" (Some s))
               = Normal false).
  { unfold keep_message, stored_record, parse. simpl. rewrite Hs. simpl.
    rewrite (every_tool_use items Hitems). reflexivity. }
  split; [exact Hk|].
  unfold truncate_history. simpl. rewrite Hk. reflexivity.
Qed.

End TextConversations.

(* ================================================================== *)
(** * A tool that answers with an error *)
(* ================================================================== *)

Section ToolErrors.
Context {W : Type} `{Runtime} `{Config} `{Collaborators W}.

(** X23: when a tool answers with an error, the handler appends to the
    working history, under the id of the request, the result
    ["Error: " + error.data], and submits it to the store; it sends
    [auth_required] exactly when the type of the error is
    [auth_required]; it adds no product, also for a catalog search. *)
Theorem tool_error_becomes_an_error_result conversationId id name args
    (st : Session W) (r err data ty : value) (w : W) :
  callTool name args (world st) = (Normal r, w) ->
  get r "error" = Normal err ->
  truthy err = true ->
  get err "data" = Normal data ->
  get err "type" = Normal ty ->
  match chat_onToolUse conversationId id name args st with
  | (_, st', out) =>
      conversationHistory st'
      = conversationHistory st
        ++ [ToolResult id (Some ("Error: " ^^ to_string data))] /\
      productsToDisplay st' = productsToDisplay st /\
      saves out
      = [("tool", tool_record id (VString ("Error: " ^^ to_string data)))] /\
      count is_auth_required (sent out)
      = (if is_string ty "auth_required" then 1 else 0)
  end.
Proof.
  intros Ecall Eerr Terr Edata Ety.
  unfold chat_onToolUse, bind, sendMessage, call, lift, push_history,
    push_products, ret.
  simpl. rewrite Ecall. simpl. rewrite Eerr. simpl. rewrite Terr, Edata.
  simpl. rewrite Ety. simpl.
  destruct (is_string ty "auth_required"); simpl;
    destruct (saveMessage _ _ _ _) as [[[]|e] w']; simpl; auto.
Qed.

End ToolErrors.


(* ================================================================== *)
(** * The further properties on concrete requests *)
(* ================================================================== *)

Section FurtherCases.
Import Ref Scenario Cases.

Lemma text_kept_is_text_sent_witness :
  exists response st' out,
    turn greets (asks "hello") = (Normal response, st', out) /\
    am_content (rs_message response) = "Hi there." /\
    chunk_texts (sent out) = ["Hi "; "there."].
Proof.
  destruct (turn greets (asks "hello"))
    as [[[response|e] st'] out] eqn:E; [|vm_compute in E; discriminate].
  exists response, st', out. split; [reflexivity|].
  pose proof (@text_kept_is_text_sent World runtime config
                (collaborators greets) "c1" (asks "hello")
                "standardAssistant" (tools greets) (working (asks "hello"))
                st' response out E) as Hk.
  assert (Hc : chunk_texts (sent out) = ["Hi "; "there."]).
  { vm_compute in E. inversion E. reflexivity. }
  split; [|exact Hc]. rewrite Hk, Hc. reflexivity.
Defined.


Lemma catalog_products_shown_witness :
  exists shown,
    @processProductSearchResult runtime config search_response
    = Normal shown /\
    length shown = 3.
Proof.
  destruct (@products_of_payload runtime search_response) as [xs|] eqn:Ep;
    [|vm_compute in Ep; discriminate].
  eexists. split.
  - apply (@catalog_products_shown runtime config search_response xs Ep).
    intros Hc. vm_compute in Hc. discriminate.
  - vm_compute in Ep. inversion Ep. vm_compute. reflexivity.
Defined.


Lemma assistant_text_survives_the_store_witness :
  @persisted runtime (Assistant greeting)
  = ("assistant", Some (stringify_value (VString "Hi there."))) /\
  @truncate_history runtime
    (VArray [stored_record "assistant"
               (Some (stringify_value (VString "Hi there.")))])
  = Normal [Msg (VString "assistant") (VString "Hi there.")].
Proof.
  apply (@assistant_text_survives_the_store runtime greeting
           (stringify_value (VString "Hi there."))).
  - vm_compute. discriminate.
  - reflexivity.
  - vm_compute. reflexivity.
Defined.

Lemma loop_stops_only_when_no_tool_is_asked_witness :
  exists st' out h m,
    chat greets "hello" [] = (Normal tt, st', out) /\
    length (requests out) = 1 /\
    conversationHistory st' = h ++ [Assistant m] /\
    tool_call_requests m = [].
Proof.
  destruct (chat greets "hello" [])
    as [[[[]|e] st'] out] eqn:E; [|vm_compute in E; discriminate].
  assert (Hout : length (requests (snd (chat greets "hello" []))) = 1)
    by (vm_compute; reflexivity).
  rewrite E in Hout. cbn [snd] in Hout.
  destruct (@loop_stops_only_when_no_tool_is_asked World runtime config
              (collaborators greets) "hello" "c1" "standardAssistant"
              (start []) st' out E) as (h & m & Hh & Hm).
  { rewrite Hout. unfold maxIterations. lia. }
  exists st', out, h, m. auto.
Defined.

Lemma truncation_keeps_the_last_four_texts_witness :
  @truncate_history runtime
    (VArray (map record_of
               [("system", "You are a helpful shopping assistant.");
                ("user", "hello");
                ("assistant", stringify_value (VString "Hi there."));
                ("user", "show me red shoes");
                ("tool", "{}");
                ("assistant",
                 stringify_value (VString "Here are three red shoes."));
                ("user", "thanks")]))
  = Normal [Msg (VString "assistant") (VString "Hi there.");
            Msg (VString "user") (VString "show me red shoes");
            Msg (VString "assistant") (VString "Here are three red shoes.");
            Msg (VString "user") (VString "thanks")].
Proof.
  rewrite (@truncation_keeps_the_last_four_texts runtime).
  - vm_compute. reflexivity.
  - repeat (apply Forall_cons;
            [first [ intros Hc; vm_compute in Hc; discriminate Hc
                   | intros _; vm_compute; discriminate ]|]).
    apply Forall_nil.
Defined.

Lemma tool_use_only_messages_are_dropped_witness :
  @truncate_history runtime
    (VArray [stored_record "assistant"
               (Some (stringify_value
                        (VArray [VObject [("type", VString "tool_use");
                                          ("name", VString "search")]])))])
  = Normal [].
Proof.
  apply (@tool_use_only_messages_are_dropped runtime
           (stringify_value
              (VArray [VObject [("type", VString "tool_use");
                                ("name", VString "search")]]))
           [VObject [("type", VString "tool_use");
                     ("name", VString "search")]]).
  - vm_compute. reflexivity.
  - repeat constructor. eexists. split; reflexivity.
Defined.

Lemma tool_error_becomes_an_error_result_witness :
  match @chat_onToolUse World runtime config (collaborators two_calls)
          "c1" (Some "call_2") "get_orders" (VObject [])
          (working (asks "where is my order")) with
  | (_, st', out) =>
      conversationHistory st'
      = asks "where is my order"
        ++ [ToolResult (Some "call_2")
              (Some "Error: Sign in to see your orders")] /\
      productsToDisplay st' = [] /\
      saves out
      = [("tool",
          @tool_record runtime (Some "call_2")
            (VString "Error: Sign in to see your orders"))] /\
      count is_auth_required (sent out) = 1
  end.
Proof.
  exact (@tool_error_becomes_an_error_result World runtime config
           (collaborators two_calls) "c1" (Some "call_2") "get_orders"
           (VObject []) (working (asks "where is my order")) auth_error
           (VObject [("type", VString "auth_required");
                     ("data", VString "Sign in to see your orders")])
           (VString "Sign in to see your orders") (VString "auth_required")
           [] eq_refl eq_refl eq_refl eq_refl eq_refl).
Defined.

End FurtherCases.
